(** * unreal_cv_ros / sensor_model.py

    A shallow embedding of the [SensorModel] node: the conversion of a raw
    colour and depth frame pair into a coloured point cloud
    ([depth_to_3d], [rgb_to_float], [callback]) and the node set-up
    ([__init__]).

    Layout of the development:
    - [Py]     : Python exceptions and results, the two interpreters;
    - [Num]    : the arithmetic used on array elements, once over the
                 reals extended with a "not a real number" element and once
                 over IEEE 754 binary64 (the numbers numpy computes with);
    - [Np]     : the part of numpy the node uses (shapes, broadcasting,
                 [linspace], [meshgrid], [dstack], [ravel], [reshape]);
    - [IEEE]   : binary32 bit patterns and the conversions to and from
                 binary64;
    - [Struct] : [struct.pack] with format [i] and [struct.unpack] with
                 format [f];
    - [Ros]    : messages, the log and the topic tables;
    - [SensorModel] : the node itself. *)

From Stdlib Require Import ZArith List Bool Lia String Ascii SpecFloat.
From Stdlib Require Import Reals Lra.
From Stdlib.Strings Require Import Byte.
Import ListNotations.

Set Implicit Arguments.

(* ================================================================== *)
(** * Python: results, exceptions, interpreters *)

Module Py.

(** The exceptions the modelled code can meet. *)
Inductive exn : Type :=
| ValueError      (* numpy: shapes that cannot be broadcast or stacked *)
| IndexError      (* numpy: index out of bounds for an axis *)
| StructError     (* struct.error *)
| AttributeError  (* reading an attribute that was never assigned *)
| IOError         (* np.load on a malformed buffer *)
| ServiceException.

Inductive result (A : Type) : Type :=
| Ok (a : A)
| Raise (e : exn).

Arguments Ok {A} a.
Arguments Raise {A} e.

Definition bind {A B} (r : result A) (k : A -> result B) : result B :=
  match r with
  | Ok a => k a
  | Raise e => Raise e
  end.

Definition is_ok {A} (r : result A) : bool :=
  match r with Ok _ => true | Raise _ => false end.

(** The script starts with [#!/usr/bin/env python] and has no
    [from __future__ import division]: the meaning of [/] on two
    integers depends on the interpreter. *)
Inductive interp : Type := Python2 | Python3.

End Py.

Notation "x <- r ;; k" := (Py.bind r (fun x => k))
  (at level 61, r at next level, right associativity).

(* ================================================================== *)
(** * Arithmetic on array elements *)

Module Num.

(** What the node needs from the element type of a float array. *)
Class Float (F : Type) : Type := {
  of_int : Z -> F;          (* conversion of a Python int *)
  add : F -> F -> F;
  sub : F -> F -> F;
  mul : F -> F -> F;
  div : F -> F -> F;
  sqrt : F -> F
}.

(** numpy evaluates [a ** 2] with the square loop and [a ** 0.5] with the
    square-root loop. *)
Definition pow2 {F} `{Float F} (x : F) : F := mul x x.
Definition pow_half {F} `{Float F} (x : F) : F := sqrt x.

(** ** Exact reals.
    [Some x] is the real number [x]; [None] stands for the results that
    are not real numbers (numpy's [inf] and [nan], which it produces,
    with a RuntimeWarning, for a division by zero or the square root of a
    negative number).  Every operation is strict in [None]. *)
Definition real : Type := option R.

Definition lift2 (op : R -> R -> R) (a b : real) : real :=
  match a, b with
  | Some x, Some y => Some (op x y)
  | _, _ => None
  end.

Definition real_div (a b : real) : real :=
  match a, b with
  | Some x, Some y => if Req_dec_T y 0 then None else Some (x / y)%R
  | _, _ => None
  end.

Definition real_sqrt (a : real) : real :=
  match a with
  | Some x => if Rlt_dec x 0 then None else Some (R_sqrt.sqrt x)
  | None => None
  end.

#[export] Instance Ideal : Float real := {
  of_int z := Some (IZR z);
  add := lift2 Rplus;
  sub := lift2 Rminus;
  mul := lift2 Rmult;
  div := real_div;
  sqrt := real_sqrt
}.

(** ** IEEE 754 binary64, the [float64] of numpy and the [float] of
    Python, with round-to-nearest-even. *)
Definition float64 : Type := spec_float.

Definition prec64 : Z := 53.
Definition emax64 : Z := 1024.

#[export] Instance Binary64 : Float float64 := {
  of_int z := binary_normalize prec64 emax64 z 0 false;
  add := SFadd prec64 emax64;
  sub := SFsub prec64 emax64;
  mul := SFmul prec64 emax64;
  div := SFdiv prec64 emax64;
  sqrt := SFsqrt prec64 emax64
}.

(** Numerical equality with zero ([-0.0 == 0.0]). *)
Definition is_zero (x : float64) : bool := SFeqb x (S754_zero false).

(** [0 < x]: a positive finite number or [+inf]. *)
Definition is_positive (x : float64) : bool := SFltb (S754_zero false) x.

(** Neither an infinity nor a NaN. *)
Definition is_finite (x : float64) : bool :=
  match x with
  | S754_zero _ | S754_finite _ _ _ => true
  | _ => false
  end.

(** A binary64 value in canonical form, as every value read from a buffer
    or produced by an operation is. *)
Definition well_formed (x : float64) : bool := valid_binary prec64 emax64 x.

(** The possible results of rounding a non-negative mantissa to binary64
    with sign [sx]: a zero, a finite number at an exponent not below the
    smallest one, or an infinity. *)
Definition rounded (sx : bool) (x : float64) : Prop :=
  x = S754_zero sx \/
  (exists m e, x = S754_finite sx m e /\ (-1074 <= e)%Z) \/
  x = S754_infinity sx.

(** The possible results when the mantissa does not underflow: the zero
    is excluded. *)
Definition rounded_pos (sx : bool) (x : float64) : Prop :=
  (exists m e, x = S754_finite sx m e /\ (-1074 <= e)%Z) \/ x = S754_infinity sx.

(** A non-negative number with a full mantissa and an exponent in
    [[-53, 0]], or zero: the integers below [2^53] and their halves. *)
Definition int_like (x : float64) : Prop :=
  x = S754_zero false \/
  exists m e, x = S754_finite false m e /\ digits2_pos m = 53%positive /\ (-53 <= e <= 0)%Z.

End Num.

(* ================================================================== *)
(** * numpy arrays *)

Module Np.
Import Py.

(** A two-dimensional array: its shape and its elements.  [at2 a i j] is
    meaningful for [i < len0 a] and [j < len1 a] only. *)
Record ndarray2 (A : Type) : Type := mk2 {
  len0 : nat;
  len1 : nat;
  at2 : nat -> nat -> A
}.

(** A three-dimensional array. *)
Record ndarray3 (A : Type) : Type := mk3 {
  dim0 : nat;
  dim1 : nat;
  dim2 : nat;
  at3 : nat -> nat -> nat -> A
}.

Section Arrays.
Context {A : Type}.

(** Broadcasting of one axis: equal lengths, or one of them is 1. *)
Definition broadcast_dim (a b : nat) : option nat :=
  if Nat.eqb a b then Some a
  else if Nat.eqb a 1 then Some b
  else if Nat.eqb b 1 then Some a
  else None.

(** The index read on an axis of length [n] that was broadcast. *)
Definition bidx (n i : nat) : nat := if Nat.eqb n 1 then 0 else i.

(** Elementwise operation on an array: [a op scalar], [a ** 2], ... *)
Definition map2d {B} (f : A -> B) (a : ndarray2 A) : ndarray2 B :=
  mk2 (len0 a) (len1 a) (fun i j => f (at2 a i j)).

(** Elementwise operation on two arrays, with broadcasting. *)
Definition zip2d {B C} (f : A -> B -> C) (a : ndarray2 A) (b : ndarray2 B)
  : result (ndarray2 C) :=
  match broadcast_dim (len0 a) (len0 b), broadcast_dim (len1 a) (len1 b) with
  | Some n0, Some n1 =>
      Ok (mk2 n0 n1 (fun i j =>
            f (at2 a (bidx (len0 a) i) (bidx (len1 a) j))
              (at2 b (bidx (len0 b) i) (bidx (len1 b) j))))
  | _, _ => Raise ValueError
  end.

(** [np.meshgrid(xs, ys)] with the default [indexing='xy']: two arrays
    of shape [(len(ys), len(xs))]. *)
Definition meshgrid (d : A) (xs ys : list A) : ndarray2 A * ndarray2 A :=
  (mk2 (List.length ys) (List.length xs) (fun _ j => nth j xs d),
   mk2 (List.length ys) (List.length xs) (fun i _ => nth i ys d)).

(** [np.atleast_3d] on a two-dimensional array: shape [(M, N, 1)]. *)
Definition atleast_3d (a : ndarray2 A) : ndarray3 A :=
  mk3 (len0 a) (len1 a) 1 (fun i j _ => at2 a i j).

(** Concatenation of two arrays along the third axis; the other two
    axes must match exactly. *)
Definition concat_axis2 (a b : ndarray3 A) : result (ndarray3 A) :=
  if Nat.eqb (dim0 a) (dim0 b) && Nat.eqb (dim1 a) (dim1 b) then
    Ok (mk3 (dim0 a) (dim1 a) (dim2 a + dim2 b)
          (fun i j k => if Nat.ltb k (dim2 a) then at3 a i j k
                        else at3 b i j (k - dim2 a)))
  else Raise ValueError.

(** [np.dstack]: every array is made three-dimensional, then they are
    concatenated along the third axis.  An empty sequence is refused. *)
Fixpoint dstack_from (acc : ndarray3 A) (l : list (ndarray3 A))
  : result (ndarray3 A) :=
  match l with
  | [] => Ok acc
  | b :: l' => c <- concat_axis2 acc b ;; dstack_from c l'
  end.

Definition dstack (l : list (ndarray3 A)) : result (ndarray3 A) :=
  match l with
  | [] => Raise ValueError
  | a :: l' => dstack_from a l'
  end.

(** [a[:, :, k]] *)
Definition channel (a : ndarray3 A) (k : nat) : result (ndarray2 A) :=
  if Nat.ltb k (dim2 a) then Ok (mk2 (dim0 a) (dim1 a) (fun i j => at3 a i j k))
  else Raise IndexError.

(** The indices of a [(n0, n1)] array in row-major (C) order. *)
Definition indices2 (n0 n1 : nat) : list (nat * nat) :=
  flat_map (fun i => map (pair i) (seq 0 n1)) (seq 0 n0).

(** [np.ravel] *)
Definition ravel (a : ndarray2 A) : list A :=
  map (fun ij => at2 a (fst ij) (snd ij)) (indices2 (len0 a) (len1 a)).

(** The elements of a three-dimensional array in row-major order. *)
Definition ravel3 (a : ndarray3 A) : list A :=
  flat_map (fun ij => map (at3 a (fst ij) (snd ij)) (seq 0 (dim2 a)))
           (indices2 (dim0 a) (dim1 a)).

(** [np.array(l).reshape((n0, n1))] *)
Definition reshape (d : A) (l : list A) (n0 n1 : nat) : result (ndarray2 A) :=
  if Nat.eqb (List.length l) (n0 * n1)
  then Ok (mk2 n0 n1 (fun i j => nth (i * n1 + j) l d))
  else Raise ValueError.

(** Elementwise operation on two one-dimensional arrays of the same
    length. *)
Fixpoint zip_with {B C} (f : A -> B -> C) (xs : list A) (ys : list B) : list C :=
  match xs, ys with
  | x :: xs', y :: ys' => f x y :: zip_with f xs' ys'
  | _, _ => []
  end.

End Arrays.

(** [np.linspace(start, stop, num)]: [num] evenly spaced samples of the
    closed interval; the last one is [stop] itself. *)
Section Linspace.
Context {F : Type} `{Num.Float F}.

Definition linspace (start stop : F) (num : nat) : list F :=
  match num with
  | 0 => []
  | 1 => [start]
  | S n =>
      let step := Num.div (Num.sub stop start) (Num.of_int (Z.of_nat n)) in
      map (fun i => Num.add (Num.mul (Num.of_int (Z.of_nat i)) step) start) (seq 0 n)
      ++ [stop]
  end.
End Linspace.

End Np.

(* ================================================================== *)
(** * IEEE 754 binary32 and its bit patterns *)

Module IEEE.
Import Num.
Local Open Scope Z_scope.

Definition float32 : Type := spec_float.

Definition prec32 : Z := 24.
Definition emax32 : Z := 128.

(** The value held by a 32-bit pattern: sign in bit 31, biased exponent
    in bits 30..23, fraction in bits 22..0. *)
Definition b32_of_bits (w : Z) : float32 :=
  let s := Z.testbit w 31 in
  let e := Z.land (Z.shiftr w 23) 255 in
  let m := Z.land w (2 ^ 23 - 1) in
  if e =? 0 then
    match m with
    | Zpos p => S754_finite s p (-149)
    | _ => S754_zero s
    end
  else if e =? 255 then
    (if m =? 0 then S754_infinity s else S754_nan)
  else
    match m + 2 ^ 23 with
    | Zpos p => S754_finite s p (e - 150)
    | _ => S754_nan
    end.

Definition sign_bit (s : bool) : Z := if s then Z.shiftl 1 31 else 0.

(** The 32-bit pattern of a binary32 value.  [spec_float] keeps no NaN
    payload: every NaN is written as the quiet NaN [0x7FC00000]. *)
Definition bits_of_b32 (x : float32) : Z :=
  match x with
  | S754_zero s => sign_bit s
  | S754_infinity s => sign_bit s + Z.shiftl 255 23
  | S754_nan => Z.shiftl 255 23 + Z.shiftl 1 22
  | S754_finite s m e =>
      if Zpos m <? 2 ^ 23 then sign_bit s + Zpos m
      else sign_bit s + Z.shiftl (e + 150) 23 + (Zpos m - 2 ^ 23)
  end.

(** binary32 to binary64 (what [struct.unpack] does to hand a Python
    float back): the value is kept, the mantissa is renormalised. *)
Definition f64_of_f32 (x : float32) : float64 :=
  match x with
  | S754_finite s m e => binary_round prec64 emax64 s m e
  | _ => x
  end.

(** binary64 to binary32, [np.float32(x)]: round to nearest even. *)
Definition f32_of_f64 (x : float64) : float32 :=
  match x with
  | S754_finite s m e => binary_round prec32 emax32 s m e
  | _ => x
  end.

Definition byte_of_Z (z : Z) : byte :=
  match Byte.of_N (Z.to_N z) with
  | Some b => b
  | None => x00
  end.

Definition Z_of_byte (b : byte) : Z := Z.of_N (Byte.to_N b).

(** Little-endian bytes of a 32-bit word, and back. *)
Definition le_bytes32 (w : Z) : list byte :=
  [ byte_of_Z (w mod 256);
    byte_of_Z ((w / 2 ^ 8) mod 256);
    byte_of_Z ((w / 2 ^ 16) mod 256);
    byte_of_Z ((w / 2 ^ 24) mod 256) ].

Definition word_of_le (b0 b1 b2 b3 : byte) : Z :=
  Z_of_byte b0 + 2 ^ 8 * Z_of_byte b1
  + 2 ^ 16 * Z_of_byte b2 + 2 ^ 24 * Z_of_byte b3.

(** The four bytes [tostring] writes for one [float32] element. *)
Definition f32_bytes (x : float32) : list byte := le_bytes32 (bits_of_b32 x).

End IEEE.

(* ================================================================== *)
(** * The [struct] module, native (little-endian) layout *)

Module Struct.
Import Py Num IEEE.
Local Open Scope Z_scope.

(** One value under format [i]: a C int, refused outside its range. *)
Definition pack_int (c : Z) : result (list byte) :=
  if (- 2 ^ 31 <=? c) && (c <? 2 ^ 31)
  then Ok (le_bytes32 (c mod 2 ^ 32))
  else Raise StructError.

Fixpoint pack_ints (l : list Z) : result (list byte) :=
  match l with
  | [] => Ok []
  | c :: l' =>
      bs <- pack_int c ;;
      rest <- pack_ints l' ;;
      Ok (bs ++ rest)
  end.

(** [pack('%di' % n, *values)] *)
Definition pack_i (n : nat) (values : list Z) : result (list byte) :=
  if Nat.eqb n (List.length values) then pack_ints values else Raise StructError.

(** [unpack('%df' % n, buffer)]: the buffer must hold exactly [4 * n]
    bytes; each group of four is read as a binary32 and returned as a
    Python float. *)
Fixpoint unpack_f (n : nat) (buffer : list byte) : result (list float64) :=
  match n, buffer with
  | O, [] => Ok []
  | S n', b0 :: b1 :: b2 :: b3 :: rest =>
      tl <- unpack_f n' rest ;;
      Ok (f64_of_f32 (b32_of_bits (word_of_le b0 b1 b2 b3)) :: tl)
  | _, _ => Raise StructError
  end.

End Struct.

(* ================================================================== *)
(** * ROS: messages, log, topics *)

Module Ros.
Import Py Num Np.

Record PointField : Type := {
  name : string;
  offset : nat;
  datatype : nat;
  count : nat
}.

(** [PointField.FLOAT32] *)
Definition FLOAT32 : nat := 7.

Record PointCloud2 : Type := {
  stamp : Z;
  frame_id : string;
  height : nat;
  width : nat;
  fields : list PointField;
  is_bigendian : bool;
  point_step : nat;
  row_step : nat;
  data : list byte;
  is_dense : bool
}.

(** The raw frame.  The two buffers are [.npy] files; what is kept here
    is what [np.load] makes of each: an array, or the exception it
    raises.  The arrays have the ranks of the data model (colour: three
    axes, depth: two). *)
Record UeSensorRaw : Type := {
  header_stamp : Z;
  color_data : result (ndarray3 Z);
  depth_data : result (ndarray2 float64)
}.

(** The answer of the [get_camera_params] service. *)
Record GetCameraParamsResponse : Type := {
  Width : nat;
  Height : nat;
  FocalLength : float64
}.

Inductive severity : Type := Info | Error | Fatal.

(** What the node has done to the ROS side. *)
Record state : Type := {
  log : list (severity * string);
  publishers : list string;
  subscribers : list string;
  published : list PointCloud2
}.

Definition empty : state :=
  {| log := []; publishers := []; subscribers := []; published := [] |}.

End Ros.

(* ================================================================== *)
(** * The node *)

Module SensorModel.
Import Py Num Np IEEE Ros.

(** The attributes of a [SensorModel] object.  An attribute that was
    never assigned is [None]; reading it raises [AttributeError].
    [camera_params] is the list [[Width, Height, FocalLength]]; [pub] and
    [sub] hold the topic of the publisher and of the subscriber. *)
Record attrs (F : Type) : Type := {
  model : option string;
  camera_params : option (nat * nat * F);
  pub : option string;
  sub : option string
}.

Definition new_object {F} : attrs F :=
  {| model := None; camera_params := None; pub := None; sub := None |}.

(* ---------------------------------------------------------------- *)
(** ** [depth_to_3d] *)

Section Projector.
Context {F : Type} `{Float F}.
Variable py : interp.

(** [n / 2] for a Python int [n]: floor division under Python 2, true
    division under Python 3. *)
Definition half (n : Z) : F :=
  match py with
  | Python2 => of_int (n / 2)
  | Python3 => Num.div (of_int n) (of_int 2)
  end.

Definition depth_to_3d (self : attrs F) (img_depth : ndarray2 F)
  : result (ndarray3 F) :=
  match camera_params self with
  | None => Raise AttributeError
  | Some (w, h, focal) =>
      (* read camera params and create image mesh *)
      let height := Z.of_nat h in
      let width := Z.of_nat w in
      let center_x := half width in
      let center_y := half height in
      let f := focal in
      let '(cols, rows) :=
        meshgrid (of_int 0)
          (linspace (of_int 0) (of_int (width - 1)) w)
          (linspace (of_int 0) (of_int (height - 1)) h) in
      (* Process depth image from ray length to camera axis depth *)
      let dy := map2d (fun v => Num.sub v center_y) rows in
      let dx := map2d (fun v => Num.sub v center_x) cols in
      s <- zip2d Num.add (map2d pow2 dy) (map2d pow2 dx) ;;
      let distance := map2d pow_half s in
      let divisor :=
        map2d pow_half
          (map2d (fun v => Num.add (of_int 1) v)
             (map2d pow2 (map2d (fun v => Num.div v f) distance))) in
      points_z <- zip2d Num.div img_depth divisor ;;
      (* Create x and y position *)
      zx <- zip2d Num.mul points_z dx ;;
      let points_x := map2d (fun v => Num.div v f) zx in
      zy <- zip2d Num.mul points_z dy ;;
      let points_y := map2d (fun v => Num.div v f) zy in
      dstack [atleast_3d points_x; atleast_3d points_y; atleast_3d points_z]
  end.

(** The element [(i, j)] of the arrays [depth_to_3d] builds for a
    camera [(w, h, f)]: the grid, the offsets from the centre, the
    radial distance and the three coordinates for a depth value [d]. *)
Section Pixel.
Variables (w h : nat) (f : F).

Definition grid_col (j : nat) : F :=
  nth j (linspace (of_int 0) (of_int (Z.of_nat w - 1)) w) (of_int 0).

Definition grid_row (i : nat) : F :=
  nth i (linspace (of_int 0) (of_int (Z.of_nat h - 1)) h) (of_int 0).

Definition pixel_dx (j : nat) : F := Num.sub (grid_col j) (half (Z.of_nat w)).

Definition pixel_dy (i : nat) : F := Num.sub (grid_row i) (half (Z.of_nat h)).

Definition pixel_distance (i j : nat) : F :=
  pow_half (Num.add (pow2 (pixel_dy i)) (pow2 (pixel_dx j))).

Definition pixel_divisor (i j : nat) : F :=
  pow_half (Num.add (of_int 1) (pow2 (Num.div (pixel_distance i j) f))).

Definition pixel_z (d : F) (i j : nat) : F := Num.div d (pixel_divisor i j).

Definition pixel_x (d : F) (i j : nat) : F :=
  Num.div (Num.mul (pixel_z d i j) (pixel_dx j)) f.

Definition pixel_y (d : F) (i j : nat) : F :=
  Num.div (Num.mul (pixel_z d i j) (pixel_dy i)) f.
End Pixel.

End Projector.

(** [n / 2] as a real number, for the statements over the reals. *)
Definition center (py : interp) (n : Z) : R :=
  match py with
  | Python2 => IZR (n / 2)
  | Python3 => (IZR n / 2)%R
  end.

(** The divisor of [points_z] over the reals, at offset [(dx, dy)] from
    the centre: [sqrt (1 + (r / f)^2)] with [r = sqrt (dy^2 + dx^2)]. *)
Definition ray_factor (dx dy f : R) : R :=
  R_sqrt.sqrt (1 + (R_sqrt.sqrt (dy * dy + dx * dx) / f)
                   * (R_sqrt.sqrt (dy * dy + dx * dx) / f)).

(* ---------------------------------------------------------------- *)
(** ** [rgb_to_float] *)

Local Open Scope Z_scope.

(** [astype(int)] and the arithmetic on the resulting arrays: 64-bit
    signed integers, wrapping around. *)
Definition int64 (z : Z) : Z := (z + 2 ^ 63) mod 2 ^ 64 - 2 ^ 63.

Definition left_shift (n : Z) (x : Z) : Z := int64 (Z.shiftl x n).

Definition int_add (x y : Z) : Z := int64 (x + y).

Definition rgb_to_float (img_color : ndarray3 Z) : result (ndarray2 float64) :=
  c0 <- channel img_color 0 ;;
  let r := map int64 (ravel c0) in
  c1 <- channel img_color 1 ;;
  let g := map int64 (ravel c1) in
  c2 <- channel img_color 2 ;;
  let b := map int64 (ravel c2) in
  let color :=
    zip_with int_add
      (zip_with int_add (map (left_shift 16) r) (map (left_shift 8) g)) b in
  packed <- Struct.pack_i (List.length color) color ;;
  unpacked <- Struct.unpack_f (List.length color) packed ;;
  reshape (S754_zero false) unpacked (dim0 img_color) (dim1 img_color).

(** Follows the spec's words, to be compared with the sum computed by
    [rgb_to_float]: [c = (r << 16) | (g << 8) | b]. *)
Definition rgb_word (r g b : Z) : Z :=
  Z.lor (Z.shiftl r 16) (Z.lor (Z.shiftl g 8) b).

(** What a consumer does to get the colour back from the word. *)
Definition rgb_of_word (c : Z) : Z * Z * Z :=
  (Z.land (Z.shiftr c 16) 255, Z.land (Z.shiftr c 8) 255, Z.land c 255).

(** A consumer of the point cloud reads the four bytes of an [rgb] field
    at [offset], takes them as a 32-bit pattern and splits it. *)
Definition read_rgb (buffer : list byte) (offset : nat) : option (Z * Z * Z) :=
  match firstn 4 (skipn offset buffer) with
  | [b0; b1; b2; b3] => Some (rgb_of_word (word_of_le b0 b1 b2 b3))
  | _ => None
  end.

Local Close Scope Z_scope.

(* ---------------------------------------------------------------- *)
(** ** The object and the ROS side, threaded through the methods *)

Record World : Type := {
  self : attrs float64;
  ros : Ros.state
}.

Definition M (A : Type) : Type := World -> result A * World.

Definition ret {A} (a : A) : M A := fun w => (Ok a, w).

Definition mbind {A B} (m : M A) (k : A -> M B) : M B :=
  fun w =>
    match m w with
    | (Ok a, w') => k a w'
    | (Raise e, w') => (Raise e, w')
    end.

Definition lift {A} (r : result A) : M A := fun w => (r, w).

Definition get_self : M (attrs float64) := fun w => (Ok (self w), w).

Definition getattr {A} (field : attrs float64 -> option A) : M A :=
  fun w =>
    match field (self w) with
    | Some a => (Ok a, w)
    | None => (Raise AttributeError, w)
    end.

Definition set_self (f : attrs float64 -> attrs float64) : M unit :=
  fun w => (Ok tt, {| self := f (self w); ros := ros w |}).

Definition on_ros (f : Ros.state -> Ros.state) : M unit :=
  fun w => (Ok tt, {| self := self w; ros := f (ros w) |}).

Definition rospy_log (lvl : severity) (text : string) : M unit :=
  on_ros (fun s => {| log := log s ++ [(lvl, text)];
                      publishers := publishers s;
                      subscribers := subscribers s;
                      published := published s |}).

Definition advertise (topic : string) : M unit :=
  on_ros (fun s => {| log := log s;
                      publishers := publishers s ++ [topic];
                      subscribers := subscribers s;
                      published := published s |}).

Definition subscribe (topic : string) : M unit :=
  on_ros (fun s => {| log := log s;
                      publishers := publishers s;
                      subscribers := subscribers s ++ [topic];
                      published := published s |}).

Definition publish (msg : PointCloud2) : M unit :=
  on_ros (fun s => {| log := log s;
                      publishers := publishers s;
                      subscribers := subscribers s;
                      published := published s ++ [msg] |}).

Notation "x <-- m ;; k" := (mbind m (fun x => k))
  (at level 61, m at next level, right associativity).

(* ---------------------------------------------------------------- *)
(** ** [__init__] *)

(** Dictionary of implemented models *)
Definition model_types : list (string * string) :=
  [("ground_truth", "ground_truth")]%string.

(** [d.get(key, default)] *)
Fixpoint dict_get (d : list (string * string)) (key default : string) : string :=
  match d with
  | [] => default
  | (k, v) :: d' => if String.eqb k key then v else dict_get d' key default
  end.

(** [s[:-2]] *)
Definition drop_last2 (s : string) : string :=
  String.substring 0 (String.length s - 2) s.

(** [param] is the private parameter [~model_type] when it is set;
    [service] is the outcome of waiting for and calling
    [get_camera_params]. *)
Definition __init__ (param : option string)
           (service : result GetCameraParamsResponse) : M unit :=
  (* Read in params *)
  let model_type_in :=
    match param with Some s => s | None => "ground_truth"%string end in
  (* Setup sensor type *)
  let selected := dict_get model_types model_type_in "NotFound" in
  _ <-- (if String.eqb selected "NotFound" then
           let warning :=
             ("Unknown sensor model '" ++ model_type_in
              ++ "'. Implemented models are: "
              ++ String.concat EmptyString
                   (map (fun m => "'" ++ fst m ++ "', ") model_types))%string in
           rospy_log Fatal (drop_last2 warning)
         else
           set_self (fun o => {| model := Some selected;
                                 camera_params := camera_params o;
                                 pub := pub o; sub := sub o |})) ;;
  (* Initialize camera params from unreal client *)
  _ <-- rospy_log Info "Waiting for unreal_ros_client camera params ..." ;;
  resp <-- lift service ;;
  _ <-- set_self (fun o => {| model := model o;
                              camera_params :=
                                Some (Width resp, Height resp, FocalLength resp);
                              pub := pub o; sub := sub o |}) ;;
  (* Initialize node *)
  _ <-- advertise "ue_sensor_out" ;;
  _ <-- set_self (fun o => {| model := model o;
                              camera_params := camera_params o;
                              pub := Some "ue_sensor_out"%string; sub := sub o |}) ;;
  _ <-- subscribe "ue_sensor_raw" ;;
  _ <-- set_self (fun o => {| model := model o;
                              camera_params := camera_params o;
                              pub := pub o; sub := Some "ue_sensor_raw"%string |}) ;;
  rospy_log Info "Sensor model setup cleanly.".

(* ---------------------------------------------------------------- *)
(** ** [callback] *)

(** [np.float32(data).tostring()] *)
Definition tostring (data : ndarray3 float64) : list byte :=
  flat_map (fun x => f32_bytes (f32_of_f64 x)) (ravel3 data).

Section Callback.
Variable py : interp.

Definition callback (ros_data : UeSensorRaw) : M unit :=
  (* Read out images *)
  img_color <-- lift (color_data ros_data) ;;
  img_depth <-- lift (depth_data ros_data) ;;
  (* Build 3D point cloud from depth *)
  me <-- get_self ;;
  pointcloud <-- lift (depth_to_3d py me img_depth) ;;
  (* Pack RGB image (for ros representation) *)
  rgb <-- lift (rgb_to_float img_color) ;;
  data <-- lift (dstack [pointcloud; atleast_3d rgb]) ;;
  (* Publish pointcloud *)
  let msg_width := dim0 pointcloud in
  let msg_height := dim1 pointcloud in
  let msg_point_step := 16 in
  let msg :=
    {| stamp := header_stamp ros_data;
       frame_id := "camera";
       width := msg_width;
       height := msg_height;
       fields := [ Build_PointField "x" 0 FLOAT32 1;
                   Build_PointField "y" 4 FLOAT32 1;
                   Build_PointField "z" 8 FLOAT32 1;
                   Build_PointField "rgb" 12 FLOAT32 1 ];
       is_bigendian := false;
       point_step := msg_point_step;
       row_step := msg_point_step * msg_width;
       is_dense := true;
       data := tostring data |} in
  _ <-- getattr (@pub float64) ;;
  publish msg.

(** rospy hands a message of a subscribed topic to the callback; an
    exception that escapes the callback is caught and logged, and the
    frame is dropped. *)
Definition deliver (ros_data : UeSensorRaw) : M unit :=
  fun w =>
    if existsb (String.eqb "ue_sensor_raw") (subscribers (ros w)) then
      match callback ros_data w with
      | (Ok _, w') => (Ok tt, w')
      | (Raise _, w') => rospy_log Error "bad callback" w'
      end
    else (Ok tt, w).

(** [rospy.spin()] over the frames that arrive. *)
Fixpoint spin (frames : list UeSensorRaw) : M unit :=
  match frames with
  | [] => ret tt
  | fr :: rest => _ <-- deliver fr ;; spin rest
  end.

(** The main program: construct the node, then spin. *)
Definition main (param : option string)
           (service : result GetCameraParamsResponse)
           (frames : list UeSensorRaw) : M unit :=
  _ <-- __init__ param service ;; spin frames.

End Callback.

Definition world0 : World := {| self := new_object; ros := Ros.empty |}.

End SensorModel.

(* ================================================================== *)
(** * Concrete frames *)

Module Scenario.
Import Py Num Np Ros SensorModel.

(** The end-to-end scenario: width 4, height 2, focal length 1.0, depth
    2.0 everywhere, colour (255, 0, 0) everywhere. *)
Definition resp : GetCameraParamsResponse :=
  {| Width := 4; Height := 2; FocalLength := of_int 1 |}.

Definition depth : ndarray2 float64 := mk2 2 4 (fun _ _ => of_int 2).

Definition color : ndarray3 Z :=
  mk3 2 4 3 (fun _ _ k => match k with 0 => 255%Z | _ => 0%Z end).

Definition frame : UeSensorRaw :=
  {| header_stamp := 0; color_data := Ok color; depth_data := Ok depth |}.

(** The node after a start-up with the default model. *)
Definition ready : World := snd (__init__ None (Ok resp) world0).

(** Depth 0.0 everywhere. *)
Definition zero_depth : ndarray2 float64 := mk2 2 4 (fun _ _ => of_int 0).

Definition zero_frame : UeSensorRaw :=
  {| header_stamp := 0; color_data := Ok color; depth_data := Ok zero_depth |}.

(** A depth frame of one row, with the colour frame of the scenario. *)
Definition depth_row : ndarray2 float64 := mk2 1 4 (fun _ _ => of_int 2).

Definition row_frame : UeSensorRaw :=
  {| header_stamp := 0; color_data := Ok color; depth_data := Ok depth_row |}.

(** Depth 480 x 640 with colour 480 x 641, for a 640 x 480 camera. *)
Definition vga_self : attrs float64 :=
  {| model := Some "ground_truth"%string;
     camera_params := Some (640, 480, of_int 320);
     pub := Some "ue_sensor_out"%string;
     sub := Some "ue_sensor_raw"%string |}.

Definition vga_world : World := {| self := vga_self; ros := Ros.empty |}.

Definition vga_depth : ndarray2 float64 := mk2 480 640 (fun _ _ => of_int 2).

Definition wide_color : ndarray3 Z := mk3 480 641 3 (fun _ _ _ => 0%Z).

Definition vga_frame : UeSensorRaw :=
  {| header_stamp := 0; color_data := Ok wide_color; depth_data := Ok vga_depth |}.

(** Camera parameters outside the data model. *)
Definition bad_resp : GetCameraParamsResponse :=
  {| Width := 0; Height := 0; FocalLength := of_int 0 |}.

(** The scenario over the reals. *)
Definition ideal_self : attrs real :=
  {| model := Some "ground_truth"%string;
     camera_params := Some (4, 2, Some 1%R);
     pub := Some "ue_sensor_out"%string;
     sub := Some "ue_sensor_raw"%string |}.

Definition ideal_depth : ndarray2 real := mk2 2 4 (fun _ _ => Some 2%R).

Definition ideal_zero_depth : ndarray2 real := mk2 2 4 (fun _ _ => Some 0%R).

(** Some packed colours viewed as elements of the real-valued model. *)
Definition ideal_rgb : ndarray2 real := mk2 2 4 (fun _ _ => Some 0%R).

(** The frame of the scenario with time stamp [t]. *)
Definition stamped (t : Z) : UeSensorRaw :=
  {| header_stamp := t; color_data := Ok color; depth_data := Ok depth |}.

(** A frame whose colour buffer [np.load] cannot decode. *)
Definition broken : UeSensorRaw :=
  {| header_stamp := 8; color_data := Raise IOError; depth_data := Ok depth |}.

(** A colour frame with a fourth (alpha) channel. *)
Definition rgba_color : ndarray3 Z :=
  mk3 2 4 4 (fun _ _ k => match k with 0 => 255%Z | 3 => 128%Z | _ => 0%Z end).

Definition rgba_frame : UeSensorRaw :=
  {| header_stamp := 0; color_data := Ok rgba_color; depth_data := Ok depth |}.

(** The depth frame of the scenario with one pixel that holds no
    measurement. *)
Definition nan_depth : ndarray2 float64 :=
  mk2 2 4 (fun i j => if Nat.eqb i 1 && Nat.eqb j 2 then S754_nan else of_int 2).

Definition nan_frame : UeSensorRaw :=
  {| header_stamp := 0; color_data := Ok color; depth_data := Ok nan_depth |}.

(** The camera of the scenario with focal length 0.0. *)
Definition blind_self : attrs float64 :=
  {| model := Some "ground_truth"%string;
     camera_params := Some (4, 2, S754_zero false);
     pub := Some "ue_sensor_out"%string;
     sub := Some "ue_sensor_raw"%string |}.

(** The scenario over the reals with focal length -1. *)
Definition mirror_self : attrs real :=
  {| model := Some "ground_truth"%string;
     camera_params := Some (4, 2, Some (Ropp 1));
     pub := Some "ue_sensor_out"%string;
     sub := Some "ue_sensor_raw"%string |}.

End Scenario.

(* ================================================================== *)
(** * Facts about arrays *)

Section ListFacts.
Context {A B : Type}.

(** In a concatenation of blocks of one length [n], element [p * n + k]
    is element [k] of block [p]. *)
Lemma nth_flat_map_block (g : A -> list B) (n : nat) (l : list A)
      (p k : nat) (d : B) (a : A) :
  (forall x, List.length (g x) = n) ->
  p < List.length l -> k < n ->
  nth (p * n + k) (flat_map g l) d = nth k (g (nth p l a)) d.
Proof.
  intros Hg. revert p. induction l as [|x l IH]; intros p Hp Hk.
  - inversion Hp.
  - cbn [flat_map]. destruct p as [|p].
    + cbn [Nat.mul Nat.add nth]. apply app_nth1. rewrite Hg. exact Hk.
    + rewrite app_nth2 by (rewrite Hg; cbn; lia).
      rewrite Hg. replace (S p * n + k - n) with (p * n + k) by (cbn; lia).
      cbn [nth]. apply IH; [cbn in Hp; lia | exact Hk].
Qed.

Lemma length_flat_map_block (g : A -> list B) (n : nat) (l : list A) :
  (forall x, List.length (g x) = n) ->
  List.length (flat_map g l) = List.length l * n.
Proof.
  intros Hg. induction l as [|x l IH]; [reflexivity|].
  cbn [flat_map List.length]. rewrite length_app, Hg, IH. cbn. lia.
Qed.

(** The block [p] itself, cut out of the concatenation. *)
Lemma block_flat_map (g : A -> list B) (n : nat) (l : list A) (p : nat) (a : A) :
  (forall x, List.length (g x) = n) ->
  p < List.length l ->
  firstn n (skipn (p * n) (flat_map g l)) = g (nth p l a).
Proof.
  intros Hg. revert p. induction l as [|x l IH]; intros p Hp.
  - inversion Hp.
  - cbn [flat_map]. destruct p as [|p].
    + cbn [Nat.mul skipn nth]. rewrite firstn_app, Hg, Nat.sub_diag.
      cbn [firstn]. rewrite app_nil_r. rewrite <- (Hg x). apply firstn_all.
    + replace (S p * n) with (List.length (g x) + p * n) by (rewrite Hg; cbn; lia).
      rewrite skipn_app, Nat.add_comm, Nat.add_sub.
      rewrite skipn_all2 by lia. cbn [app nth].
      apply IH. cbn in Hp. lia.
Qed.

Lemma nth_map_seq (g : nat -> B) (n j : nat) (d : B) :
  j < n -> nth j (map g (seq 0 n)) d = g j.
Proof.
  intros Hj.
  rewrite nth_indep with (d' := g O) by (rewrite length_map, length_seq; exact Hj).
  rewrite map_nth, seq_nth by exact Hj. reflexivity.
Qed.

End ListFacts.

Section ArrayFacts.
Import Py Np.

Lemma bidx_lt (n i : nat) : i < n -> bidx n i = i.
Proof.
  unfold bidx. destruct (Nat.eqb_spec n 1); [lia | reflexivity].
Qed.

Lemma broadcast_dim_same (n : nat) : broadcast_dim n n = Some n.
Proof. unfold broadcast_dim. rewrite Nat.eqb_refl. reflexivity. Qed.

Lemma zip2d_same {A B C} (f : A -> B -> C) (a : ndarray2 A) (b : ndarray2 B) :
  len0 a = len0 b -> len1 a = len1 b ->
  zip2d f a b =
  Ok (mk2 (len0 a) (len1 a)
        (fun i j => f (at2 a (bidx (len0 a) i) (bidx (len1 a) j))
                      (at2 b (bidx (len0 b) i) (bidx (len1 b) j)))).
Proof.
  intros E0 E1. unfold zip2d. rewrite <- E0, <- E1, !broadcast_dim_same.
  reflexivity.
Qed.

Lemma indices2_length (n0 n1 : nat) : List.length (indices2 n0 n1) = n0 * n1.
Proof.
  unfold indices2.
  rewrite length_flat_map_block with (n := n1)
    by (intros; rewrite length_map, length_seq; reflexivity).
  rewrite length_seq. reflexivity.
Qed.

Lemma indices2_nth (n0 n1 i j : nat) (d : nat * nat) :
  i < n0 -> j < n1 -> nth (i * n1 + j) (indices2 n0 n1) d = (i, j).
Proof.
  intros Hi Hj. unfold indices2.
  rewrite nth_flat_map_block with (n := n1) (a := 0)
    by (try (intros; rewrite length_map, length_seq; reflexivity);
        try (rewrite length_seq; exact Hi); exact Hj).
  rewrite seq_nth by exact Hi.
  rewrite (nth_indep _ d (i, 0)) by (rewrite length_map, length_seq; exact Hj).
  rewrite (map_nth (pair i)). rewrite seq_nth by exact Hj. reflexivity.
Qed.

Lemma indices2_in (n0 n1 : nat) (ij : nat * nat) :
  In ij (indices2 n0 n1) -> fst ij < n0 /\ snd ij < n1.
Proof.
  unfold indices2. rewrite in_flat_map. intros [i [Hi Hin]].
  apply in_map_iff in Hin. destruct Hin as [j [<- Hj]].
  apply in_seq in Hi. apply in_seq in Hj. cbn. lia.
Qed.

Lemma zip_with_map {A B C D} (f : B -> C -> D) (g : A -> B) (h : A -> C) (l : list A) :
  zip_with f (map g l) (map h l) = map (fun x => f (g x) (h x)) l.
Proof.
  induction l as [|x l IH]; [reflexivity|]. cbn. rewrite IH. reflexivity.
Qed.

Lemma linspace_length {F} `{Num.Float F} (a b : F) (n : nat) :
  List.length (linspace a b n) = n.
Proof.
  unfold linspace. destruct n as [|[|n]]; try reflexivity.
  rewrite length_app, length_map, length_seq. cbn. lia.
Qed.

End ArrayFacts.

Section ProjectorFacts.
Import Py Num Np SensorModel.
Context {F : Type} `{Float F}.
Variable py : interp.

Lemma broadcast_dim_again (a b n : nat) :
  broadcast_dim a b = Some n -> broadcast_dim n b = Some n.
Proof.
  unfold broadcast_dim.
  destruct (Nat.eqb_spec a b); [intros [= <-]; subst; now rewrite Nat.eqb_refl|].
  destruct (Nat.eqb_spec a 1); [intros [= <-]; now rewrite Nat.eqb_refl|].
  destruct (Nat.eqb_spec b 1); [|discriminate].
  intros [= <-]. subst b.
  destruct (Nat.eqb_spec a 1); [contradiction|]. reflexivity.
Qed.

(** With a depth image of the configured shape, [depth_to_3d] returns an
    array of shape [(h, w, 3)] whose elements are the pixel formulas. *)
Lemma depth_to_3d_at (self : attrs F) (img : ndarray2 F) (w h : nat) (f : F) :
  camera_params self = Some (w, h, f) ->
  len0 img = h -> len1 img = w ->
  exists pc,
    depth_to_3d py self img = Ok pc /\
    dim0 pc = h /\ dim1 pc = w /\ dim2 pc = 3 /\
    forall i j, i < h -> j < w ->
      at3 pc i j 0 = pixel_x py w h f (at2 img i j) i j /\
      at3 pc i j 1 = pixel_y py w h f (at2 img i j) i j /\
      at3 pc i j 2 = pixel_z py w h f (at2 img i j) i j.
Proof.
  intros Hcp H0 H1. unfold depth_to_3d. rewrite Hcp.
  unfold meshgrid. rewrite !linspace_length.
  rewrite zip2d_same by reflexivity. cbn [bind len0 len1 map2d].
  rewrite zip2d_same by (cbn; assumption). cbn [bind len0 len1 map2d].
  rewrite zip2d_same by (cbn; assumption). cbn [bind len0 len1 map2d].
  rewrite zip2d_same by (cbn; assumption). cbn [bind len0 len1 map2d].
  unfold dstack, dstack_from, concat_axis2, atleast_3d.
  cbn [bind dim0 dim1 dim2 len0 len1 map2d].
  rewrite !Nat.eqb_refl. cbn [andb bind dim0 dim1 dim2].
  rewrite !Nat.eqb_refl. cbn [andb bind].
  eexists. split; [reflexivity|].
  cbn [dim0 dim1 dim2 at3]. do 3 (split; [assumption || reflexivity|]).
  intros i j Hi Hj. subst h w.
  cbn [Nat.ltb Nat.leb Nat.add Nat.sub at2 map2d len0 len1].
  rewrite !(bidx_lt Hi), !(bidx_lt Hj). repeat split; reflexivity.
Qed.

(** The shape of the result for a depth image of any shape: the image is
    broadcast against the [(h, w)] grid, or the division raises. *)
Lemma depth_to_3d_shape (self : attrs F) (img : ndarray2 F) (w h : nat) (f : F) :
  camera_params self = Some (w, h, f) ->
  match broadcast_dim (len0 img) h, broadcast_dim (len1 img) w with
  | Some n0, Some n1 =>
      exists pc, depth_to_3d py self img = Ok pc /\
                 dim0 pc = n0 /\ dim1 pc = n1 /\ dim2 pc = 3
  | _, _ => depth_to_3d py self img = Raise ValueError
  end.
Proof.
  intros Hcp. unfold depth_to_3d. rewrite Hcp.
  unfold meshgrid. rewrite !linspace_length.
  rewrite zip2d_same by reflexivity. cbn [bind len0 len1 map2d].
  unfold zip2d. cbn [len0 len1 map2d].
  destruct (broadcast_dim (len0 img) h) as [n0|] eqn:E0; [|reflexivity].
  destruct (broadcast_dim (len1 img) w) as [n1|] eqn:E1; [|reflexivity].
  cbn [bind len0 len1].
  rewrite (broadcast_dim_again _ _ E0), (broadcast_dim_again _ _ E1).
  unfold dstack, dstack_from, concat_axis2, atleast_3d.
  cbn [bind dim0 dim1 dim2 len0 len1 map2d].
  rewrite !Nat.eqb_refl. cbn [andb bind dim0 dim1 dim2].
  rewrite !Nat.eqb_refl. cbn [andb bind].
  eexists. split; [reflexivity|]. cbn [dim0 dim1 dim2]. auto.
Qed.

End ProjectorFacts.

Unset Implicit Arguments.

(* ================================================================== *)
(** * Facts about exact real arithmetic *)

Section IdealFacts.
Import Py Num Np SensorModel.
Local Open Scope R_scope.

Lemma real_div_nz (x y : R) : y <> 0 -> real_div (Some x) (Some y) = Some (x / y).
Proof.
  intros Hy. unfold real_div. destruct (Req_dec_T y 0); [contradiction|reflexivity].
Qed.

Lemma real_sqrt_nonneg (x : R) : 0 <= x -> real_sqrt (Some x) = Some (R_sqrt.sqrt x).
Proof.
  intros Hx. unfold real_sqrt. destruct (Rlt_dec x 0); [lra|reflexivity].
Qed.

Lemma half_ideal (py : interp) (n : Z) : half (F := real) py n = Some (center py n).
Proof.
  destruct py; cbn [half center of_int Ideal Num.div]; [reflexivity|].
  apply real_div_nz. lra.
Qed.

(** [np.linspace(0, n - 1, num=n)] is [0, 1, ..., n - 1]. *)
Lemma linspace_ideal (n j : nat) :
  (j < n)%nat ->
  nth j (linspace (F := real) (of_int 0) (of_int (Z.of_nat n - 1)) n) (of_int 0)
  = Some (IZR (Z.of_nat j)).
Proof.
  intros Hj. unfold linspace.
  destruct n as [|[|n]]; [lia| |].
  - replace j with O by lia. reflexivity.
  - cbn [of_int Ideal Num.sub Num.div Num.add Num.mul lift2].
    assert (Hn : IZR (Z.of_nat (S n)) <> 0).
    { apply not_0_IZR. lia. }
    rewrite real_div_nz by exact Hn.
    destruct (Nat.eq_dec j (S n)) as [->|Hne].
    + rewrite app_nth2 by (rewrite length_map, length_seq; lia).
      rewrite length_map, length_seq, Nat.sub_diag. cbn [nth].
      do 2 f_equal. lia.
    + rewrite app_nth1 by (rewrite length_map, length_seq; lia).
      rewrite nth_map_seq by lia. cbn [lift2]. f_equal.
      replace (Z.of_nat (S (S n)) - 1)%Z with (Z.of_nat (S n)) by lia.
      field. exact Hn.
Qed.

Lemma ray_factor_ge_1 (dx dy f : R) : 1 <= ray_factor dx dy f.
Proof.
  unfold ray_factor. rewrite <- sqrt_1 at 1. apply sqrt_le_1_alt.
  pose proof (Rle_0_sqr (R_sqrt.sqrt (dy * dy + dx * dx) / f)) as Hs.
  unfold Rsqr in Hs. lra.
Qed.

Lemma ray_factor_sqr (dx dy f : R) :
  f <> 0 ->
  ray_factor dx dy f * ray_factor dx dy f = 1 + (dy * dy + dx * dx) / (f * f).
Proof.
  intros Hf. unfold ray_factor.
  assert (Hr : R_sqrt.sqrt (dy * dy + dx * dx) * R_sqrt.sqrt (dy * dy + dx * dx)
               = dy * dy + dx * dx).
  { apply sqrt_def. pose proof (Rle_0_sqr dy). pose proof (Rle_0_sqr dx).
    unfold Rsqr in *. lra. }
  set (s := R_sqrt.sqrt (dy * dy + dx * dx)) in *. clearbody s.
  pose proof (Rle_0_sqr (s / f)) as Hs. unfold Rsqr in Hs.
  rewrite sqrt_def by lra.
  rewrite <- Hr. field. exact Hf.
Qed.

Section PixelIdeal.
Variable py : interp.
Variables (w h : nat) (f d : R) (i j : nat).
Hypothesis Hf : f <> 0.
Hypothesis Hi : (i < h)%nat.
Hypothesis Hj : (j < w)%nat.

Let dx : R := IZR (Z.of_nat j) - center py (Z.of_nat w).
Let dy : R := IZR (Z.of_nat i) - center py (Z.of_nat h).

Lemma pixel_dx_ideal : pixel_dx (F := real) py w j = Some dx.
Proof.
  unfold pixel_dx, grid_col. rewrite linspace_ideal by exact Hj.
  rewrite half_ideal. reflexivity.
Qed.

Lemma pixel_dy_ideal : pixel_dy (F := real) py h i = Some dy.
Proof.
  unfold pixel_dy, grid_row. rewrite linspace_ideal by exact Hi.
  rewrite half_ideal. reflexivity.
Qed.

Lemma pixel_z_ideal :
  pixel_z (F := real) py w h (Some f) (Some d) i j = Some (d / ray_factor dx dy f).
Proof.
  unfold pixel_z, pixel_divisor, pixel_distance. rewrite pixel_dx_ideal, pixel_dy_ideal.
  cbn [pow2 pow_half Num.mul Num.add Num.sqrt Num.div of_int Ideal lift2].
  rewrite real_sqrt_nonneg
    by (pose proof (Rle_0_sqr dy); pose proof (Rle_0_sqr dx); unfold Rsqr in *; lra).
  rewrite real_div_nz by exact Hf. cbn [lift2].
  rewrite real_sqrt_nonneg
    by (pose proof (Rle_0_sqr (R_sqrt.sqrt (dy * dy + dx * dx) / f)) as Hs;
        unfold Rsqr in Hs; lra).
  fold (ray_factor dx dy f).
  apply real_div_nz. pose proof (ray_factor_ge_1 dx dy f). lra.
Qed.

Lemma pixel_x_ideal :
  pixel_x (F := real) py w h (Some f) (Some d) i j
  = Some (d / ray_factor dx dy f * dx / f).
Proof.
  unfold pixel_x. rewrite pixel_z_ideal, pixel_dx_ideal.
  cbn [Num.mul Num.div Ideal lift2]. apply real_div_nz. exact Hf.
Qed.

Lemma pixel_y_ideal :
  pixel_y (F := real) py w h (Some f) (Some d) i j
  = Some (d / ray_factor dx dy f * dy / f).
Proof.
  unfold pixel_y. rewrite pixel_z_ideal, pixel_dy_ideal.
  cbn [Num.mul Num.div Ideal lift2]. apply real_div_nz. exact Hf.
Qed.
End PixelIdeal.

Lemma ray_length (dx dy f d : R) :
  f <> 0 -> 0 <= d ->
  let z := d / ray_factor dx dy f in
  let x := z * dx / f in
  let y := z * dy / f in
  R_sqrt.sqrt (x * x + y * y + z * z) = d.
Proof.
  intros Hf Hd z x y.
  pose proof (ray_factor_ge_1 dx dy f) as Hk.
  pose proof (@ray_factor_sqr dx dy f Hf) as Hk2.
  assert (E : x * x + y * y + z * z = d * d).
  { subst x y z.
    replace (d / ray_factor dx dy f * dx / f * (d / ray_factor dx dy f * dx / f)
             + d / ray_factor dx dy f * dy / f * (d / ray_factor dx dy f * dy / f)
             + d / ray_factor dx dy f * (d / ray_factor dx dy f))
      with (d * d / (ray_factor dx dy f * ray_factor dx dy f)
            * (1 + (dy * dy + dx * dx) / (f * f)))
      by (field; split; lra).
    rewrite <- Hk2. field. lra. }
  rewrite E. apply sqrt_square. exact Hd.
Qed.
End IdealFacts.


(* ================================================================== *)
(** * Facts about bytes and bit patterns *)

Section BitFacts.
Import IEEE.
Local Open Scope Z_scope.

Lemma Z_of_byte_of_Z (z : Z) : 0 <= z < 256 -> Z_of_byte (byte_of_Z z) = z.
Proof.
  intros Hz. unfold Z_of_byte, byte_of_Z.
  destruct (Byte.of_N (Z.to_N z)) as [b|] eqn:E.
  - apply Byte.to_of_N in E. rewrite E. apply Z2N.id. lia.
  - apply Byte.of_N_None_iff in E. lia.
Qed.

Lemma testbit_above (w k n : Z) :
  0 <= w < 2 ^ k -> 0 <= k <= n -> Z.testbit w n = false.
Proof.
  intros Hw Hk. rewrite <- (Z.mod_small w (2 ^ k)) by lia.
  apply Z.mod_pow2_bits_high. lia.
Qed.

Lemma lor_shiftl_add (hi lo k : Z) :
  0 <= k -> 0 <= lo < 2 ^ k -> Z.lor (Z.shiftl hi k) lo = Z.shiftl hi k + lo.
Proof.
  intros Hk Hlo.
  assert (Hz : Z.land (Z.shiftl hi k) lo = 0).
  { apply Z.bits_inj'. intros n Hn.
    rewrite Z.land_spec, Z.bits_0.
    destruct (Z.ltb_spec n k).
    - rewrite Z.shiftl_spec_low by lia. reflexivity.
    - rewrite (testbit_above lo k n) by lia. apply andb_false_r. }
  pose proof (Z.add_lor_land (Z.shiftl hi k) lo) as E.
  rewrite Hz in E. lia.
Qed.

Lemma word_of_le_bytes32 (w : Z) :
  0 <= w < 2 ^ 32 ->
  word_of_le (byte_of_Z (w mod 256))
             (byte_of_Z ((w / 2 ^ 8) mod 256))
             (byte_of_Z ((w / 2 ^ 16) mod 256))
             (byte_of_Z ((w / 2 ^ 24) mod 256)) = w.
Proof.
  intros Hw. unfold word_of_le.
  rewrite !Z_of_byte_of_Z by (apply Z.mod_pos_bound; reflexivity).
  change (2 ^ 8) with 256. change (2 ^ 16) with 65536.
  change (2 ^ 24) with 16777216. change (2 ^ 32) with 4294967296 in Hw.
  Z.div_mod_to_equations. lia.
Qed.

(** The 24-bit colour word. *)
Lemma b32_of_bits_small (c : Z) :
  0 <= c < 2 ^ 24 ->
  b32_of_bits c = match c with Zpos p => S754_finite false p (-149) | _ => S754_zero false end.
Proof.
  intros Hc. unfold b32_of_bits.
  rewrite (testbit_above c 24 31) by lia.
  change 255 with (Z.ones 8). change (2 ^ 23 - 1) with (Z.ones 23).
  rewrite !Z.land_ones, Z.shiftr_div_pow2 by lia.
  assert (Hq : c / 2 ^ 23 = 0 \/ c / 2 ^ 23 = 1).
  { change (2 ^ 23) with 8388608. change (2 ^ 24) with 16777216 in Hc.
    Z.div_mod_to_equations. lia. }
  destruct Hq as [Hq | Hq]; rewrite Hq; cbn [Z.modulo Z.eqb].
  - change (0 mod 2 ^ 8 =? 0) with true. cbv iota.
    assert (E : c mod 2 ^ 23 = c).
    { apply Z.mod_small. change (2 ^ 23) with 8388608 in *. Z.div_mod_to_equations. lia. }
    rewrite E. destruct c; reflexivity.
  - change (1 mod 2 ^ 8 =? 0) with false. change (1 mod 2 ^ 8 =? 255) with false. cbv iota.
    assert (E : c mod 2 ^ 23 + 2 ^ 23 = c).
    { change (2 ^ 23) with 8388608 in *. Z.div_mod_to_equations. lia. }
    rewrite E. destruct c; try reflexivity; try lia.
    discriminate Hq.
Qed.
End BitFacts.


(* ================================================================== *)
(** * Facts about rounding *)

Section RoundFacts.
Import Num IEEE.
Local Open Scope Z_scope.

Ltac pows_lia :=
  repeat match goal with
         | |- context [2 ^ ?e] =>
             let a := fresh "pw" in set (a := 2 ^ e) in *; clearbody a
         end; lia.

Lemma digits2_pos_bounds (p : positive) :
  2 ^ (Zpos (digits2_pos p) - 1) <= Zpos p < 2 ^ Zpos (digits2_pos p).
Proof.
  induction p as [p IH | p IH |]; cbn [digits2_pos].
  - rewrite Pos2Z.inj_succ. change (Zpos p~1) with (2 * Zpos p + 1).
    replace (Z.succ (Zpos (digits2_pos p)) - 1) with (Z.succ (Zpos (digits2_pos p) - 1)) by lia.
    rewrite !Z.pow_succ_r by lia. pows_lia.
  - rewrite Pos2Z.inj_succ. change (Zpos p~0) with (2 * Zpos p).
    replace (Z.succ (Zpos (digits2_pos p)) - 1) with (Z.succ (Zpos (digits2_pos p) - 1)) by lia.
    rewrite !Z.pow_succ_r by lia. pows_lia.
  - cbn. lia.
Qed.

Lemma digits2_pos_le (p : positive) (k : Z) :
  Zpos p < 2 ^ k -> 0 <= k -> Zpos (digits2_pos p) <= k.
Proof.
  intros Hp Hk. destruct (digits2_pos_bounds p) as [Hlo _].
  destruct (Z.le_gt_cases (Zpos (digits2_pos p)) k) as [|Hgt]; [assumption|].
  assert (2 ^ k <= 2 ^ (Zpos (digits2_pos p) - 1)) by (apply Z.pow_le_mono_r; lia).
  lia.
Qed.

Lemma digits2_pos_shift (p n : positive) :
  digits2_pos (Pos.iter xO p n) = (digits2_pos p + n)%positive.
Proof.
  induction n as [|n IH] using Pos.peano_ind.
  - cbn. lia.
  - rewrite Pos.iter_succ. cbn [digits2_pos]. rewrite IH. lia.
Qed.

Lemma iter_pos_iter {A} (f : A -> A) (n : positive) (x : A) :
  SpecFloat.iter_pos f n x = Pos.iter f x n.
Proof.
  revert x. induction n as [n IH | n IH |]; intros x; cbn [SpecFloat.iter_pos Pos.iter].
  - rewrite !IH. rewrite <- !Pos.iter_swap. reflexivity.
  - rewrite !IH. reflexivity.
  - reflexivity.
Qed.

Lemma shr_undoes_shift (p n : positive) :
  SpecFloat.iter_pos shr_1 n (Build_shr_record (Zpos (Pos.iter xO p n)) false false)
  = Build_shr_record (Zpos p) false false.
Proof.
  rewrite iter_pos_iter.
  induction n as [|n IH] using Pos.peano_ind.
  - reflexivity.
  - rewrite Pos.iter_succ with (f := xO). rewrite Pos.iter_succ_r with (f := shr_1). cbn [shr_1 orb]. exact IH.
Qed.

(** A 24-bit pattern read as a binary32 is a multiple of [2^-149]; it
    survives the way to binary64 and back unchanged. *)
Lemma f32_f64_roundtrip (p : positive) :
  Zpos p < 2 ^ 24 ->
  f32_of_f64 (f64_of_f32 (S754_finite false p (-149))) = S754_finite false p (-149).
Proof.
  intros Hp.
  pose proof (digits2_pos_le p 24 Hp ltac:(lia)) as Hd.
  assert (Hd1 : 1 <= Zpos (digits2_pos p)) by lia.
  unfold f64_of_f32, binary_round, prec64, emax64.
  unfold shl_align, fexp, emin.
  replace (Z.max (Zpos (digits2_pos p) + -149 - 53) (3 - 1024 - 53))
    with (Zpos (digits2_pos p) - 202) by lia.
  destruct (Zpos (digits2_pos p) - 202 - -149) as [|k|k] eqn:Ek; try lia.
  unfold binary_round_aux, shr_fexp, Zdigits2, fexp, emin.
  rewrite digits2_pos_shift.
  replace (Z.max (Zpos (digits2_pos p + k) + (Zpos (digits2_pos p) - 202) - 53) (3 - 1024 - 53)
           - (Zpos (digits2_pos p) - 202)) with 0 by lia.
  cbn [shr shr_record_of_loc round_nearest_even loc_of_shr_record shr_m shr_r shr_s].
  rewrite digits2_pos_shift.
  replace (Z.max (Zpos (digits2_pos p + k) + (Zpos (digits2_pos p) - 202) - 53) (3 - 1024 - 53)
           - (Zpos (digits2_pos p) - 202)) with 0 by lia.
  cbn [shr shr_m].
  replace (Zpos (digits2_pos p) - 202 <=? 1024 - 53) with true by (symmetry; apply Z.leb_le; lia).
  (* back to binary32 *)
  unfold f32_of_f64, binary_round, prec32, emax32, shl_align, fexp, emin.
  rewrite digits2_pos_shift.
  replace (Z.max (Zpos (digits2_pos p + k) + (Zpos (digits2_pos p) - 202) - 24) (3 - 128 - 24))
    with (-149) by lia.
  destruct (-149 - (Zpos (digits2_pos p) - 202)) as [|j|j] eqn:Ej; try lia.
  unfold binary_round_aux, shr_fexp, Zdigits2, fexp, emin.
  rewrite digits2_pos_shift.
  replace (Z.max (Zpos (digits2_pos p + k) + (Zpos (digits2_pos p) - 202) - 24) (3 - 128 - 24)
           - (Zpos (digits2_pos p) - 202)) with (Zpos k) by lia.
  cbn [shr shr_record_of_loc].
  rewrite shr_undoes_shift.
  cbn [round_nearest_even loc_of_shr_record shr_m shr_r shr_s].
  replace (Z.max (Zpos (digits2_pos p) + (Zpos (digits2_pos p) - 202 + Zpos k) - 24) (3 - 128 - 24)
           - (Zpos (digits2_pos p) - 202 + Zpos k)) with 0 by lia.
  cbn [shr shr_m].
  replace (Zpos (digits2_pos p) - 202 + Zpos k) with (-149) by lia.
  reflexivity.
Qed.
End RoundFacts.

(* ================================================================== *)
(** * Facts about colour packing *)

Section PackFacts.
Import Py Num Np IEEE Struct SensorModel.
Local Open Scope Z_scope.

Lemma color_word_roundtrip (c : Z) :
  0 <= c < 2 ^ 24 ->
  bits_of_b32 (f32_of_f64 (f64_of_f32 (b32_of_bits c))) = c.
Proof.
  intros Hc. rewrite b32_of_bits_small by exact Hc.
  destruct c as [|p|p]; [reflexivity | | lia].
  rewrite f32_f64_roundtrip by lia.
  unfold bits_of_b32, sign_bit.
  destruct (Z.ltb_spec (Zpos p) (2 ^ 23)); [reflexivity|].
  change (Z.shiftl (-149 + 150) 23) with (2 ^ 23). lia.
Qed.

Lemma pack_int_small (c : Z) :
  0 <= c < 2 ^ 31 -> pack_int c = Ok (le_bytes32 c).
Proof.
  intros Hc. unfold pack_int.
  replace (- 2 ^ 31 <=? c) with true by (symmetry; apply Z.leb_le; lia).
  replace (c <? 2 ^ 31) with true by (symmetry; apply Z.ltb_lt; lia).
  cbn [andb]. rewrite Z.mod_small by lia. reflexivity.
Qed.

Lemma pack_ints_small (l : list Z) :
  Forall (fun c => 0 <= c < 2 ^ 31) l ->
  pack_ints l = Ok (flat_map le_bytes32 l).
Proof.
  induction 1 as [|c l Hc _ IH]; [reflexivity|].
  cbn [pack_ints flat_map]. rewrite pack_int_small by exact Hc.
  cbn [bind]. rewrite IH. reflexivity.
Qed.

Lemma unpack_f_le_bytes (l : list Z) :
  Forall (fun c => 0 <= c < 2 ^ 31) l ->
  unpack_f (List.length l) (flat_map le_bytes32 l)
  = Ok (map (fun c => f64_of_f32 (b32_of_bits c)) l).
Proof.
  induction 1 as [|c l Hc _ IH]; [reflexivity|].
  cbn [List.length flat_map]. unfold le_bytes32 at 1.
  cbn [app unpack_f]. rewrite IH. cbn [bind map].
  rewrite word_of_le_bytes32 by lia. reflexivity.
Qed.

Lemma int64_small (z : Z) : - 2 ^ 63 <= z < 2 ^ 63 -> int64 z = z.
Proof.
  intros Hz. unfold int64. rewrite Z.mod_small by lia. lia.
Qed.

(** The sum [rgb_to_float] computes is the word of the spec. *)
Lemma color_sum_is_rgb_word (r g b : Z) :
  0 <= r <= 255 -> 0 <= g <= 255 -> 0 <= b <= 255 ->
  int_add (int_add (left_shift 16 (int64 r)) (left_shift 8 (int64 g))) (int64 b)
  = rgb_word r g b.
Proof.
  intros Hr Hg Hb. unfold int_add, left_shift, rgb_word.
  rewrite !(int64_small r), !(int64_small g), !(int64_small b) by lia.
  rewrite (lor_shiftl_add g b 8) by lia.
  rewrite !Z.shiftl_mul_pow2 by lia.
  rewrite <- (Z.shiftl_mul_pow2 r 16) by lia.
  rewrite (lor_shiftl_add r (g * 2 ^ 8 + b) 16) by lia.
  rewrite Z.shiftl_mul_pow2 by lia.
  rewrite (int64_small (r * 2 ^ 16)) by lia.
  rewrite (int64_small (g * 2 ^ 8)) by lia.
  rewrite (int64_small (r * 2 ^ 16 + g * 2 ^ 8)) by lia.
  rewrite int64_small by lia. lia.
Qed.

Lemma rgb_word_range (r g b : Z) :
  0 <= r <= 255 -> 0 <= g <= 255 -> 0 <= b <= 255 ->
  0 <= rgb_word r g b < 2 ^ 24.
Proof.
  intros Hr Hg Hb. unfold rgb_word.
  rewrite (lor_shiftl_add g b 8) by lia.
  rewrite (Z.shiftl_mul_pow2 g) by lia.
  rewrite (lor_shiftl_add r (g * 2 ^ 8 + b) 16) by lia.
  rewrite Z.shiftl_mul_pow2 by lia. lia.
Qed.

(** Shifting and masking the word gives the three components back. *)
Lemma rgb_of_word_rgb_word (r g b : Z) :
  0 <= r <= 255 -> 0 <= g <= 255 -> 0 <= b <= 255 ->
  rgb_of_word (rgb_word r g b) = (r, g, b).
Proof.
  intros Hr Hg Hb. unfold rgb_of_word, rgb_word.
  rewrite (lor_shiftl_add g b 8) by lia.
  rewrite (Z.shiftl_mul_pow2 g) by lia.
  rewrite (lor_shiftl_add r (g * 2 ^ 8 + b) 16) by lia.
  rewrite Z.shiftl_mul_pow2 by lia.
  change 255 with (Z.ones 8). rewrite !Z.land_ones, !Z.shiftr_div_pow2 by lia.
  change (2 ^ 8) with 256. change (2 ^ 16) with 65536.
  repeat f_equal; Z.div_mod_to_equations; lia.
Qed.

(** [rgb_to_float] on an image of bytes with three channels: the element
    [(i, j)] is the Python float whose binary32 pattern is the colour
    word of the pixel. *)
Lemma rgb_to_float_at (img : ndarray3 Z) :
  dim2 img = 3%nat ->
  (forall i j k, (i < dim0 img)%nat -> (j < dim1 img)%nat -> (k < 3)%nat ->
                 0 <= at3 img i j k <= 255) ->
  exists arr,
    rgb_to_float img = Ok arr /\
    len0 arr = dim0 img /\ len1 arr = dim1 img /\
    forall i j, (i < dim0 img)%nat -> (j < dim1 img)%nat ->
      at2 arr i j =
      f64_of_f32 (b32_of_bits (rgb_word (at3 img i j 0) (at3 img i j 1) (at3 img i j 2))).
Proof.
  intros Hd Hbytes. unfold rgb_to_float, channel. rewrite Hd.
  cbn [Nat.ltb Nat.leb bind]. unfold ravel. cbn [len0 len1 at2].
  rewrite !map_map, zip_with_map, zip_with_map.
  set (idx := indices2 (dim0 img) (dim1 img)).
  set (word := fun ij : nat * nat =>
                 rgb_word (at3 img (fst ij) (snd ij) 0) (at3 img (fst ij) (snd ij) 1)
                          (at3 img (fst ij) (snd ij) 2)).
  rewrite (map_ext_in _ word)
    by (intros ij Hin; apply indices2_in in Hin; destruct Hin;
        apply color_sum_is_rgb_word; apply Hbytes; auto).
  assert (Hrange : Forall (fun c => 0 <= c < 2 ^ 31) (map word idx)).
  { apply Forall_forall. intros c Hc. apply in_map_iff in Hc.
    destruct Hc as [ij [<- Hin]]. apply indices2_in in Hin. destruct Hin.
    pose proof (rgb_word_range (at3 img (fst ij) (snd ij) 0) (at3 img (fst ij) (snd ij) 1)
                  (at3 img (fst ij) (snd ij) 2)
                  ltac:(apply Hbytes; auto) ltac:(apply Hbytes; auto)
                  ltac:(apply Hbytes; auto)) as Hw.
    fold (word ij) in Hw. lia. }
  unfold pack_i. rewrite Nat.eqb_refl, (pack_ints_small _ Hrange). cbn [bind].
  rewrite (unpack_f_le_bytes _ Hrange). cbn [bind].
  unfold reshape. rewrite !length_map. unfold idx at 1.
  rewrite indices2_length, Nat.eqb_refl.
  eexists. split; [reflexivity|]. cbn [len0 len1 at2].
  do 2 (split; [reflexivity|]). intros i j Hi Hj.
  rewrite map_map.
  rewrite nth_indep with (d' := f64_of_f32 (b32_of_bits (word (0%nat, 0%nat))))
    by (rewrite length_map; unfold idx; rewrite indices2_length; nia).
  rewrite (map_nth (fun ij => f64_of_f32 (b32_of_bits (word ij)))).
  unfold idx. rewrite indices2_nth by assumption. reflexivity.
Qed.
End PackFacts.


(* ================================================================== *)
(** * Facts about the assembled frame *)

Section AssemblerFacts.
Import Py Num Np IEEE Struct Ros SensorModel.

Lemma dstack_pair {A} (pc : ndarray3 A) (rgb : ndarray2 A) :
  dim0 pc = len0 rgb -> dim1 pc = len1 rgb ->
  dstack [pc; atleast_3d rgb] =
  Ok (mk3 (dim0 pc) (dim1 pc) (dim2 pc + 1)
        (fun i j k => if Nat.ltb k (dim2 pc) then at3 pc i j k else at2 rgb i j)).
Proof.
  intros E0 E1. unfold dstack, dstack_from, concat_axis2, atleast_3d.
  cbn [dim0 dim1 dim2 at3]. rewrite E0, E1, !Nat.eqb_refl. reflexivity.
Qed.

Lemma dstack_pair_mismatch {A} (pc : ndarray3 A) (rgb : ndarray2 A) :
  (dim0 pc, dim1 pc) <> (len0 rgb, len1 rgb) ->
  dstack [pc; atleast_3d rgb] = Raise ValueError.
Proof.
  intros Hne. unfold dstack, dstack_from, concat_axis2, atleast_3d.
  cbn [dim0 dim1 dim2 at3].
  destruct (Nat.eqb_spec (dim0 pc) (len0 rgb)) as [E0|]; [|reflexivity].
  destruct (Nat.eqb_spec (dim1 pc) (len1 rgb)) as [E1|]; [|reflexivity].
  exfalso. apply Hne. congruence.
Qed.

Lemma index_bound (n0 n1 i j : nat) : i < n0 -> j < n1 -> i * n1 + j < n0 * n1.
Proof. intros Hi Hj. nia. Qed.

Lemma ravel3_length {A} (a : ndarray3 A) :
  List.length (ravel3 a) = dim0 a * dim1 a * dim2 a.
Proof.
  unfold ravel3.
  rewrite length_flat_map_block with (n := dim2 a)
    by (intros; rewrite length_map, length_seq; reflexivity).
  rewrite indices2_length. reflexivity.
Qed.

Lemma ravel3_nth {A} (a : ndarray3 A) (i j k : nat) (d : A) :
  i < dim0 a -> j < dim1 a -> k < dim2 a ->
  nth ((i * dim1 a + j) * dim2 a + k) (ravel3 a) d = at3 a i j k.
Proof.
  intros Hi Hj Hk. unfold ravel3.
  rewrite nth_flat_map_block with (n := dim2 a) (a := (0, 0)).
  - rewrite indices2_nth by assumption. cbn [fst snd].
    apply nth_map_seq. exact Hk.
  - intros. rewrite length_map, length_seq. reflexivity.
  - rewrite indices2_length. apply index_bound; assumption.
  - exact Hk.
Qed.

Lemma le_bytes32_length (w : Z) : List.length (le_bytes32 w) = 4.
Proof. reflexivity. Qed.

(** The four bytes of element [(i, j, k)] in the serialised array. *)
Lemma tostring_slice (a : ndarray3 float64) (i j k : nat) :
  i < dim0 a -> j < dim1 a -> k < dim2 a ->
  firstn 4 (skipn (((i * dim1 a + j) * dim2 a + k) * 4) (tostring a))
  = f32_bytes (f32_of_f64 (at3 a i j k)).
Proof.
  intros Hi Hj Hk. unfold tostring.
  rewrite block_flat_map with (a := S754_zero false).
  - rewrite ravel3_nth by assumption. reflexivity.
  - intros. reflexivity.
  - rewrite ravel3_length. apply index_bound; [apply index_bound|]; assumption.
Qed.

Lemma tostring_length (a : ndarray3 float64) :
  List.length (tostring a) = dim0 a * dim1 a * dim2 a * 4.
Proof.
  unfold tostring.
  rewrite length_flat_map_block with (n := 4) by reflexivity.
  rewrite ravel3_length. reflexivity.
Qed.

Lemma read_rgb_le_bytes (buffer : list byte) (offset : nat) (r g b : Z) :
  (0 <= r <= 255)%Z -> (0 <= g <= 255)%Z -> (0 <= b <= 255)%Z ->
  firstn 4 (skipn offset buffer) = le_bytes32 (rgb_word r g b) ->
  read_rgb buffer offset = Some (r, g, b).
Proof.
  intros Hr Hg Hb E. unfold read_rgb. rewrite E. unfold le_bytes32.
  pose proof (rgb_word_range r g b Hr Hg Hb) as Hc.
  rewrite word_of_le_bytes32 by lia.
  rewrite rgb_of_word_rgb_word by assumption. reflexivity.
Qed.
End AssemblerFacts.


(* ================================================================== *)
(** * The depth projector over exact real arithmetic *)

Section ProjectionTheorems.
Import Py Num Np SensorModel.
Local Open Scope R_scope.





(** The image centre over exact real arithmetic (C4 is settled in
    binary64 by [center_pixel_projection_binary64]): for a camera with
    a focal length other than 0 and a depth image of the configured shape,
    at a pixel [(row, col)] whose offsets from the centre are both 0
    ([col - width/2 = 0] and [row - height/2 = 0], as the code computes
    them) [depth_to_3d] returns [x = 0], [y = 0] and [z] equal to the depth
    value of that pixel. *)
Theorem center_pixel_projection_real
  (py : interp) (self : attrs real) (img_depth : ndarray2 real)
  (w h : nat) (f d : R) (row col : nat) :
camera_params self = Some (w, h, Some f) ->
f <> 0 ->
len0 img_depth = h -> len1 img_depth = w ->
(row < h)%nat -> (col < w)%nat ->
at2 img_depth row col = Some d ->
IZR (Z.of_nat col) - center py (Z.of_nat w) = 0 ->
IZR (Z.of_nat row) - center py (Z.of_nat h) = 0 ->
exists pc,
  depth_to_3d py self img_depth = Ok pc /\
  at3 pc row col 0 = Some 0 /\
  at3 pc row col 1 = Some 0 /\
  at3 pc row col 2 = Some d.
Proof.
intros Hcp Hf H0 H1 Hrow Hcol Hd Hdx Hdy.
destruct (@depth_to_3d_at _ _ py self img_depth w h (Some f) Hcp H0 H1)
  as [pc [Hok [_ [_ [_ Hat]]]]].
destruct (Hat row col Hrow Hcol) as [Hx [Hy Hz]].
rewrite Hd in Hx, Hy, Hz.
rewrite (pixel_x_ideal py w h f d row col Hf Hrow Hcol) in Hx.
rewrite (pixel_y_ideal py w h f d row col Hf Hrow Hcol) in Hy.
rewrite (pixel_z_ideal py w h f d row col Hf Hrow Hcol) in Hz.
rewrite Hdx, Hdy in Hx, Hy, Hz.
assert (Hk : ray_factor 0 0 f = 1).
{ unfold ray_factor. replace (0 * 0 + 0 * 0) with 0 by ring.
  rewrite sqrt_0. replace (1 + 0 / f * (0 / f)) with 1 by (field; exact Hf).
  apply sqrt_1. }
rewrite Hk in Hx, Hy, Hz.
exists pc. split; [exact Hok|].
split; [rewrite Hx; f_equal; field; exact Hf|].
split; [rewrite Hy; f_equal; field; exact Hf|].
rewrite Hz. f_equal. field.
Qed.

Lemma center_pixel_projection_real_witness :
exists pc,
  depth_to_3d Python2 Scenario.ideal_self Scenario.ideal_depth = Ok pc /\
  at3 pc 1 2 0 = Some 0 /\
  at3 pc 1 2 1 = Some 0 /\
  at3 pc 1 2 2 = Some 2.
Proof.
apply (center_pixel_projection_real Python2 Scenario.ideal_self
         Scenario.ideal_depth 4 2 1 2 1 2);
  [reflexivity | lra | reflexivity | reflexivity | lia | lia | reflexivity | | ].
- change (IZR 2 - IZR 2 = 0). lra.
- change (IZR 1 - IZR 1 = 0). lra.
Defined.

(** Zero depth over exact real arithmetic (C8 is settled in binary64 by
    [zero_depth_frame_gives_origin]): for a camera with
    [f > 0] and a depth image of the configured shape that is 0 everywhere,
    [depth_to_3d] returns real numbers everywhere (no quotient by zero is
    taken: a quotient by zero would be [None]), and after stacking with a
    packed colour image [rgb] of the same shape, as [callback] does, every
    point is [(0, 0, 0, rgb[i, j])]. *)
Theorem zero_depth_gives_origin_real
  (py : interp) (self : attrs real) (img_depth rgb : ndarray2 real)
  (w h : nat) (f : R) :
camera_params self = Some (w, h, Some f) ->
0 < f ->
len0 img_depth = h -> len1 img_depth = w ->
len0 rgb = h -> len1 rgb = w ->
(forall i j, (i < h)%nat -> (j < w)%nat -> at2 img_depth i j = Some 0) ->
exists pc data,
  depth_to_3d py self img_depth = Ok pc /\
  dstack [pc; atleast_3d rgb] = Ok data /\
  forall i j, (i < h)%nat -> (j < w)%nat ->
    at3 data i j 0 = Some 0 /\
    at3 data i j 1 = Some 0 /\
    at3 data i j 2 = Some 0 /\
    at3 data i j 3 = at2 rgb i j.
Proof.
intros Hcp Hf H0 H1 R0 R1 Hzero.
destruct (@depth_to_3d_at _ _ py self img_depth w h (Some f) Hcp H0 H1)
  as [pc [Hok [D0 [D1 [D2 Hat]]]]].
exists pc. eexists. split; [exact Hok|].
split; [apply dstack_pair; congruence|].
intros i j Hi Hj. cbn [at3]. rewrite D2. cbn [Nat.ltb Nat.leb].
destruct (Hat i j Hi Hj) as [Hx [Hy Hz]].
rewrite (Hzero i j Hi Hj) in Hx, Hy, Hz.
assert (Hf0 : f <> 0) by lra.
rewrite (pixel_x_ideal py w h f 0 i j Hf0 Hi Hj) in Hx.
rewrite (pixel_y_ideal py w h f 0 i j Hf0 Hi Hj) in Hy.
rewrite (pixel_z_ideal py w h f 0 i j Hf0 Hi Hj) in Hz.
rewrite Hx, Hy, Hz.
repeat split; f_equal; unfold Rdiv; ring.
Qed.

Lemma zero_depth_gives_origin_real_witness :
exists pc data,
  depth_to_3d Python2 Scenario.ideal_self Scenario.ideal_zero_depth = Ok pc /\
  dstack [pc; atleast_3d Scenario.ideal_rgb] = Ok data /\
  forall i j, (i < 2)%nat -> (j < 4)%nat ->
    at3 data i j 0 = Some 0 /\
    at3 data i j 1 = Some 0 /\
    at3 data i j 2 = Some 0 /\
    at3 data i j 3 = at2 Scenario.ideal_rgb i j.
Proof.
apply (zero_depth_gives_origin_real Python2 Scenario.ideal_self
         Scenario.ideal_zero_depth Scenario.ideal_rgb 4 2 1);
  [reflexivity | lra | reflexivity | reflexivity | reflexivity | reflexivity |].
intros i j _ _. reflexivity.
Defined.
End ProjectionTheorems.


(* ================================================================== *)
(** * The published frame *)

Section PackingTheorems.
Import Py Num Np IEEE Struct Ros SensorModel.

(** What [callback] does with a well-formed frame pair. *)
Lemma callback_publishes (py : interp) (wd : World) (fr : UeSensorRaw)
      (img_color : ndarray3 Z) (img_depth : ndarray2 float64)
      (w h : nat) (f : float64) (topic : string) :
  camera_params (self wd) = Some (w, h, f) ->
  pub (self wd) = Some topic ->
  color_data fr = Ok img_color ->
  depth_data fr = Ok img_depth ->
  len0 img_depth = h -> len1 img_depth = w ->
  dim0 img_color = h -> dim1 img_color = w -> dim2 img_color = 3 ->
  (forall i j k, i < h -> j < w -> k < 3 -> (0 <= at3 img_color i j k <= 255)%Z) ->
  exists pc rgb data wd' msg,
    depth_to_3d py (self wd) img_depth = Ok pc /\
    rgb_to_float img_color = Ok rgb /\
    dstack [pc; atleast_3d rgb] = Ok data /\
    callback py fr wd = (Ok tt, wd') /\
    self wd' = self wd /\
    published (ros wd') = published (ros wd) ++ [msg] /\
    Ros.data msg = tostring data /\
    width msg = h /\ height msg = w /\
    point_step msg = 16 /\ row_step msg = 16 * h /\ is_dense msg = true /\
    dim0 data = h /\ dim1 data = w /\ dim2 data = 4 /\
    forall i j, i < h -> j < w ->
      (forall k, k < 3 -> at3 data i j k = at3 pc i j k) /\
      at3 data i j 3 =
      f64_of_f32 (b32_of_bits (rgb_word (at3 img_color i j 0) (at3 img_color i j 1)
                                        (at3 img_color i j 2))).
Proof.
  intros Hcp Hpub Hc Hd L0 L1 D0 D1 D2 Hbytes.
  destruct (@depth_to_3d_at _ _ py (self wd) img_depth w h f Hcp L0 L1)
    as [pc [Hpc [P0 [P1 [P2 _]]]]].
  destruct (rgb_to_float_at img_color D2) as [rgb [Hrgb [R0 [R1 Hat]]]].
  { intros i j k Hi Hj Hk. apply Hbytes; congruence. }
  pose proof (@dstack_pair _ pc rgb ltac:(congruence) ltac:(congruence)) as Hst.
  do 2 eexists. exists (mk3 (dim0 pc) (dim1 pc) (dim2 pc + 1)
        (fun i j k => if Nat.ltb k (dim2 pc) then at3 pc i j k else at2 rgb i j)).
  do 2 eexists.
  split; [exact Hpc|]. split; [exact Hrgb|]. split; [exact Hst|].
  split.
  { unfold callback, mbind, lift, get_self, getattr, publish, on_ros.
    rewrite Hc, Hd, Hpc, Hrgb, Hst, Hpub. reflexivity. }
  cbn [self ros published Ros.data width height point_step row_step is_dense
       dim0 dim1 dim2 at3].
  rewrite P0, P1, P2.
  repeat (split; [reflexivity|]).
  intros i j Hi Hj. split.
  - intros k Hk. destruct (Nat.ltb_spec k 3); [reflexivity | lia].
  - cbn [Nat.ltb Nat.leb]. apply Hat; congruence.
Qed.

Lemma rgb_word_of_word (c : Z) :
  (0 <= c < 2 ^ 24)%Z ->
  rgb_word (Z.land (Z.shiftr c 16) 255) (Z.land (Z.shiftr c 8) 255) (Z.land c 255) = c.
Proof.
  intros Hc. unfold rgb_word.
  change 255%Z with (Z.ones 8). rewrite !Z.land_ones, !Z.shiftr_div_pow2 by lia.
  assert (H8 : forall x, (0 <= x mod 2 ^ 8 < 2 ^ 8)%Z)
    by (intros; apply Z.mod_pos_bound; reflexivity).
  rewrite (lor_shiftl_add ((c / 2 ^ 8) mod 2 ^ 8) (c mod 2 ^ 8) 8) by (try lia; apply H8).
  rewrite (Z.shiftl_mul_pow2 ((c / 2 ^ 8) mod 2 ^ 8)) by lia.
  rewrite (lor_shiftl_add ((c / 2 ^ 16) mod 2 ^ 8)) by
    (try lia; pose proof (H8 (c / 2 ^ 8)%Z); pose proof (H8 c); lia).
  rewrite Z.shiftl_mul_pow2 by lia.
  change (2 ^ 8)%Z with 256%Z. change (2 ^ 16)%Z with 65536%Z.
  change (2 ^ 24)%Z with 16777216%Z in Hc.
  Z.div_mod_to_equations. lia.
Qed.

(** C2.  Colour packing.  For a node with camera [(w, h, f)] and a frame
    pair of the configured shape whose colour frame has three channels of
    values in [[0, 255]], and for every pixel [(row, col)] with colour
    [(r, g, b)] and [c = (r << 16) | (g << 8) | b]:
    [rgb_to_float] returns, at that pixel, the float whose binary32 pattern
    is [c] (a reinterpretation of the bits, not the number [c]);
    [callback] publishes a message whose data holds, at the offset of the
    [rgb] field of that point, exactly the four little-endian bytes of [c];
    a consumer that reads these bytes as a 32-bit pattern and splits it
    gets [(r, g, b)] back.  Every 24-bit word is the word of some colour:
    the packing is a bijection between the colours and the 24-bit words. *)
Theorem rgb_field_holds_colour_bits
    (py : interp) (wd : World) (fr : UeSensorRaw)
    (img_color : ndarray3 Z) (img_depth : ndarray2 float64)
    (w h : nat) (f : float64) (topic : string) (row col : nat) :
  camera_params (self wd) = Some (w, h, f) ->
  pub (self wd) = Some topic ->
  color_data fr = Ok img_color ->
  depth_data fr = Ok img_depth ->
  len0 img_depth = h -> len1 img_depth = w ->
  dim0 img_color = h -> dim1 img_color = w -> dim2 img_color = 3 ->
  (forall i j k, i < h -> j < w -> k < 3 -> (0 <= at3 img_color i j k <= 255)%Z) ->
  row < h -> col < w ->
  let r := at3 img_color row col 0 in
  let g := at3 img_color row col 1 in
  let b := at3 img_color row col 2 in
  let c := rgb_word r g b in
  exists packed wd' msg,
    rgb_to_float img_color = Ok packed /\
    at2 packed row col = f64_of_f32 (b32_of_bits c) /\
    callback py fr wd = (Ok tt, wd') /\
    published (ros wd') = published (ros wd) ++ [msg] /\
    firstn 4 (skipn (16 * (row * w + col) + 12) (Ros.data msg)) = le_bytes32 c /\
    read_rgb (Ros.data msg) (16 * (row * w + col) + 12) = Some (r, g, b) /\
    (forall c', (0 <= c' < 2 ^ 24)%Z ->
                exists r' g' b', rgb_of_word c' = (r', g', b') /\ rgb_word r' g' b' = c').
Proof.
  intros Hcp Hpub Hc Hd L0 L1 D0 D1 D2 Hbytes Hrow Hcol r g b c.
  destruct (callback_publishes py wd fr img_color img_depth w h f topic
              Hcp Hpub Hc Hd L0 L1 D0 D1 D2 Hbytes)
    as (pc & rgb & data & wd' & msg & Hpc & Hrgb & Hst & Hcb & _ & Hpubl & Hdata
        & _ & _ & _ & _ & _ & E0 & E1 & E2 & Hat).
  destruct (Hat row col Hrow Hcol) as [_ H3].
  assert (Hr : (0 <= r <= 255)%Z) by (apply Hbytes; lia).
  assert (Hg : (0 <= g <= 255)%Z) by (apply Hbytes; lia).
  assert (Hb : (0 <= b <= 255)%Z) by (apply Hbytes; lia).
  assert (Hslice : firstn 4 (skipn (16 * (row * w + col) + 12) (Ros.data msg))
                   = le_bytes32 c).
  { rewrite Hdata.
    replace (16 * (row * w + col) + 12) with (((row * dim1 data + col) * dim2 data + 3) * 4)
      by (rewrite E1, E2; lia).
    rewrite tostring_slice by (rewrite ?E0, ?E1, ?E2; lia).
    rewrite H3. unfold f32_bytes. fold r g b. fold c.
    rewrite color_word_roundtrip by (apply rgb_word_range; assumption).
    reflexivity. }
  destruct (rgb_to_float_at img_color D2) as [packed [Hpacked [_ [_ Hp]]]].
  { intros i j k Hi Hj Hk. apply Hbytes; congruence. }
  exists packed, wd', msg.
  split; [exact Hpacked|].
  split; [apply Hp; congruence|].
  split; [exact Hcb|]. split; [exact Hpubl|]. split; [exact Hslice|].
  split; [apply read_rgb_le_bytes; assumption|].
  intros c' Hc'. do 3 eexists. split; [reflexivity|].
  apply rgb_word_of_word. exact Hc'.
Qed.

Lemma rgb_field_holds_colour_bits_witness :
  exists packed wd' msg,
    rgb_to_float Scenario.color = Ok packed /\
    at2 packed 1 2 = f64_of_f32 (b32_of_bits (rgb_word 255 0 0)) /\
    callback Python2 Scenario.frame Scenario.ready = (Ok tt, wd') /\
    published (ros wd') = published (ros Scenario.ready) ++ [msg] /\
    firstn 4 (skipn (16 * (1 * 4 + 2) + 12) (Ros.data msg)) = le_bytes32 (rgb_word 255 0 0) /\
    read_rgb (Ros.data msg) (16 * (1 * 4 + 2) + 12) = Some (255, 0, 0)%Z.
Proof.
  destruct (rgb_field_holds_colour_bits Python2 Scenario.ready Scenario.frame
              Scenario.color Scenario.depth 4 2 (of_int 1) "ue_sensor_out" 1 2)
    as (packed & wd' & msg & H1 & H2 & H3 & H4 & H5 & H6 & _);
    try reflexivity; try lia.
  - intros i j k _ _ Hk. cbn [Scenario.color at3].
    destruct k as [|k]; lia.
  - exists packed, wd', msg. repeat split; assumption.
Defined.
End PackingTheorems.


(* ================================================================== *)
(** * The node: start-up and frames *)

Section NodeTheorems.
Import Py Num Np IEEE Struct Ros SensorModel.

(** [rgb_to_float] keeps the first two axes of the image. *)
Lemma rgb_to_float_shape (img : ndarray3 Z) (arr : ndarray2 float64) :
  rgb_to_float img = Ok arr -> len0 arr = dim0 img /\ len1 arr = dim1 img.
Proof.
  unfold rgb_to_float.
  destruct (channel img 0) as [c0|]; [|discriminate]. cbn [bind].
  destruct (channel img 1) as [c1|]; [|discriminate]. cbn [bind].
  destruct (channel img 2) as [c2|]; [|discriminate]. cbn [bind].
  destruct (pack_i _ _) as [packed|]; [|discriminate]. cbn [bind].
  destruct (unpack_f _ _) as [unpacked|]; [|discriminate]. cbn [bind].
  unfold reshape. destruct (Nat.eqb _ _); [|discriminate].
  intros [= <-]. split; reflexivity.
Qed.

(** A frame that raises leaves the node and the ROS side as they were. *)
Lemma callback_raise_keeps_world (py : interp) (fr : UeSensorRaw) (wd wd' : World) (e : exn) :
  callback py fr wd = (Raise e, wd') -> wd' = wd.
Proof.
  unfold callback, mbind, lift, get_self, getattr, publish, on_ros.
  destruct (color_data fr); [|intros [= _ <-]; reflexivity].
  destruct (depth_data fr); [|intros [= _ <-]; reflexivity].
  destruct (depth_to_3d py (self wd) _); [|intros [= _ <-]; reflexivity].
  destruct (rgb_to_float _); [|intros [= _ <-]; reflexivity].
  destruct (dstack _); [|intros [= _ <-]; reflexivity].
  destruct (pub (self wd)); [discriminate|intros [= _ <-]; reflexivity].
Qed.

(** No frame changes the attributes of the node. *)
Lemma callback_keeps_self (py : interp) (fr : UeSensorRaw) (wd : World) :
  self (snd (callback py fr wd)) = self wd.
Proof.
  unfold callback, mbind, lift, get_self, getattr, publish, on_ros.
  destruct (color_data fr); [|reflexivity].
  destruct (depth_data fr); [|reflexivity].
  destruct (depth_to_3d py (self wd) _); [|reflexivity].
  destruct (rgb_to_float _); [|reflexivity].
  destruct (dstack _); [|reflexivity].
  destruct (pub (self wd)); reflexivity.
Qed.

Lemma deliver_keeps_self (py : interp) (fr : UeSensorRaw) (wd : World) :
  self (snd (deliver py fr wd)) = self wd.
Proof.
  unfold deliver. destruct (existsb _ _); [|reflexivity].
  pose proof (callback_keeps_self py fr wd) as Hk.
  destruct (callback py fr wd) as [[u|e] wd']; cbn [snd] in *; exact Hk.
Qed.

Lemma deliver_returns (py : interp) (fr : UeSensorRaw) (wd : World) :
  fst (deliver py fr wd) = Ok tt.
Proof.
  unfold deliver. destruct (existsb _ _); [|reflexivity].
  destruct (callback py fr wd) as [[u|e] wd']; reflexivity.
Qed.

Lemma spin_keeps_self (py : interp) (frames : list UeSensorRaw) (wd : World) :
  self (snd (spin py frames wd)) = self wd.
Proof.
  revert wd. induction frames as [|fr rest IH]; intros wd; [reflexivity|].
  cbn [spin]. unfold mbind.
  pose proof (deliver_keeps_self py fr wd) as Hd.
  pose proof (deliver_returns py fr wd) as Hr.
  destruct (deliver py fr wd) as [[u|e] wd1]; cbn [fst snd] in *; [|discriminate].
  rewrite IH. exact Hd.
Qed.

(** What [__init__] leaves behind when the service answers. *)
Lemma init_result (param : option string) (resp : GetCameraParamsResponse) (wd : World) :
  exists wd',
    __init__ param (Ok resp) wd = (Ok tt, wd') /\
    camera_params (self wd') = Some (Width resp, Height resp, FocalLength resp) /\
    pub (self wd') = Some "ue_sensor_out"%string /\
    sub (self wd') = Some "ue_sensor_raw"%string /\
    subscribers (ros wd') = subscribers (ros wd) ++ ["ue_sensor_raw"%string] /\
    published (ros wd') = published (ros wd).
Proof.
  unfold __init__.
  match goal with |- context [String.eqb ?a ?b] => generalize (String.eqb a b) end.
  match goal with |- context [rospy_log Fatal ?t] => generalize t end.
  intros text unknown.
  match goal with |- context [rospy_log Info ?t] => generalize t end.
  match goal with |- context [rospy_log Info ?t] => generalize t end.
  intros waiting ready.
  unfold mbind, lift, set_self, rospy_log, advertise, subscribe, on_ros.
  destruct unknown; cbn [self ros]; eexists; (split; [reflexivity|]);
    cbn [self ros camera_params pub sub subscribers published];
    repeat split; reflexivity.
Qed.

(** C9.  The camera parameters are written once.  [__init__] stores the
    answer of the service in [camera_params]; no frame changes them:
    [callback] (which contains the projection and the packing, both pure
    functions of their arguments), the delivery of a frame by rospy, a
    whole run of [spin] and the main program all end with the
    [camera_params] that [__init__] stored. *)
Theorem camera_params_fixed_after_init
    (py : interp) (param : option string) (resp : GetCameraParamsResponse)
    (wd0 : World) (frames : list UeSensorRaw) :
  exists wd1,
    __init__ param (Ok resp) wd0 = (Ok tt, wd1) /\
    camera_params (self wd1) = Some (Width resp, Height resp, FocalLength resp) /\
    (forall fr wd, camera_params (self (snd (callback py fr wd))) = camera_params (self wd)) /\
    (forall fr wd, camera_params (self (snd (deliver py fr wd))) = camera_params (self wd)) /\
    camera_params (self (snd (spin py frames wd1))) = camera_params (self wd1) /\
    camera_params (self (snd (main py param (Ok resp) frames wd0)))
    = Some (Width resp, Height resp, FocalLength resp).
Proof.
  destruct (init_result param resp wd0) as (wd1 & Hinit & Hcp & _).
  exists wd1. split; [exact Hinit|]. split; [exact Hcp|].
  split; [intros fr wd; now rewrite callback_keeps_self|].
  split; [intros fr wd; now rewrite deliver_keeps_self|].
  split; [now rewrite spin_keeps_self|].
  unfold main, mbind. rewrite Hinit. rewrite spin_keeps_self. exact Hcp.
Qed.

(** C7, counterexample.  Width 0, height 0 and focal length 0.0 are
    accepted: [__init__] returns normally and stores them. *)
Lemma init_accepts_zero_camera :
  exists wd',
    __init__ None (Ok Scenario.bad_resp) world0 = (Ok tt, wd') /\
    camera_params (self wd') = Some (0, 0, S754_zero false).
Proof.
  eexists. split; [vm_compute; reflexivity | reflexivity].
Qed.

(** C7, as amended.  [__init__] does not look at the camera parameters:
    whenever the service answers, it returns normally and stores width,
    height and focal length as received, whatever their values.  With the
    stored parameters the pixel grid has no error path: [depth_to_3d] on a
    depth image of the configured shape returns an array of shape
    [(height, width, 3)]. *)
Theorem init_stores_camera_params_unchecked
    (py : interp) (param : option string) (resp : GetCameraParamsResponse) (wd : World) :
  exists wd',
    __init__ param (Ok resp) wd = (Ok tt, wd') /\
    camera_params (self wd') = Some (Width resp, Height resp, FocalLength resp) /\
    forall img_depth : ndarray2 float64,
      len0 img_depth = Height resp -> len1 img_depth = Width resp ->
      exists pc,
        depth_to_3d py (self wd') img_depth = Ok pc /\
        dim0 pc = Height resp /\ dim1 pc = Width resp /\ dim2 pc = 3.
Proof.
  destruct (init_result param resp wd) as (wd' & Hinit & Hcp & _).
  exists wd'. split; [exact Hinit|]. split; [exact Hcp|].
  intros img L0 L1.
  destruct (@depth_to_3d_at _ _ py (self wd') img _ _ _ Hcp L0 L1)
    as (pc & Hpc & D0 & D1 & D2 & _).
  exists pc. auto.
Qed.

(** C6, counterexample.  A depth frame of shape (1, 4) with a colour
    frame of shape (2, 4, 3), on a 4 x 2 camera: the shapes differ, and
    [callback] returns normally and publishes a cloud of 8 points (128
    bytes), the single depth row being used for both image rows. *)
Lemma row_depth_frame_is_published :
  (len0 Scenario.depth_row, len1 Scenario.depth_row)
  <> (dim0 Scenario.color, dim1 Scenario.color) /\
  exists wd' msg,
    callback Python2 Scenario.row_frame Scenario.ready = (Ok tt, wd') /\
    published (ros wd') = [msg] /\
    Datatypes.length (Ros.data msg) = 128.
Proof.
  split; [discriminate|].
  do 2 eexists. split; [vm_compute; reflexivity|]. split; reflexivity.
Qed.

(** C6, as amended.  [callback] raises, publishes nothing and leaves the
    node as it was whenever the shape of the depth frame, broadcast
    against the configured [(height, width)] grid, is not the
    [(height, width)] of the colour frame; this covers every depth frame of
    the configured shape with a colour frame of another shape.  For a
    colour frame of three channels of values in [[0, 255]] the exception
    is numpy's [ValueError]. *)
Theorem callback_rejects_shape_mismatch
    (py : interp) (wd : World) (fr : UeSensorRaw)
    (img_color : ndarray3 Z) (img_depth : ndarray2 float64)
    (w h : nat) (f : float64) :
  camera_params (self wd) = Some (w, h, f) ->
  color_data fr = Ok img_color ->
  depth_data fr = Ok img_depth ->
  (broadcast_dim (len0 img_depth) h, broadcast_dim (len1 img_depth) w)
  <> (Some (dim0 img_color), Some (dim1 img_color)) ->
  exists e,
    callback py fr wd = (Raise e, wd) /\
    (dim2 img_color = 3 ->
     (forall i j k, i < dim0 img_color -> j < dim1 img_color -> k < 3 ->
                    (0 <= at3 img_color i j k <= 255)%Z) ->
     e = ValueError).
Proof.
  intros Hcp Hc Hd Hne.
  pose proof (@depth_to_3d_shape _ _ py (self wd) img_depth w h f Hcp) as Hshape.
  unfold callback, mbind, lift, get_self. rewrite Hc, Hd.
  destruct (broadcast_dim (len0 img_depth) h) as [n0|] eqn:E0;
    [destruct (broadcast_dim (len1 img_depth) w) as [n1|] eqn:E1|].
  - destruct Hshape as (pc & Hpc & D0 & D1 & _). rewrite Hpc.
    destruct (rgb_to_float img_color) as [rgb|e] eqn:Hrgb.
    + destruct (rgb_to_float_shape _ _ Hrgb) as [R0 R1].
      rewrite dstack_pair_mismatch by (rewrite D0, D1, R0, R1; congruence).
      exists ValueError. split; reflexivity.
    + exists e. split; [reflexivity|]. intros D2 Hbytes.
      destruct (rgb_to_float_at img_color D2 Hbytes) as (arr & Harr & _).
      congruence.
  - rewrite Hshape. exists ValueError. split; reflexivity.
  - rewrite Hshape. exists ValueError. split; reflexivity.
Qed.

Lemma callback_rejects_shape_mismatch_witness :
  callback Python2 Scenario.vga_frame Scenario.vga_world
  = (Raise ValueError, Scenario.vga_world).
Proof.
  destruct (callback_rejects_shape_mismatch Python2 Scenario.vga_world
              Scenario.vga_frame Scenario.wide_color Scenario.vga_depth
              640 480 (of_int 320))
    as (e & Hcb & He).
  - reflexivity.
  - reflexivity.
  - reflexivity.
  - vm_compute; discriminate.
  - rewrite Hcb. rewrite He.
    + reflexivity.
    + reflexivity.
    + intros i j k _ _ _; cbn; lia.
Defined.

(** C1.  The message of the end-to-end scenario (image width 4, height 2),
    under either interpreter: [callback] publishes one message, with
    [width = 2] and [height = 4] ([msg.width] is [pointcloud.shape[0]], the
    number of image rows), [point_step = 16], [row_step = 32] and
    [is_dense = true].  [callback_publishes] has the general form:
    [width = h], [height = w], [row_step = 16 * h]. *)
Theorem scenario_message_dimensions (py : interp) :
  exists wd' msg,
    callback py Scenario.frame Scenario.ready = (Ok tt, wd') /\
    published (ros wd') = [msg] /\
    width msg = 2 /\ height msg = 4 /\
    point_step msg = 16 /\ row_step msg = 32 /\ is_dense msg = true.
Proof.
  destruct py; do 2 eexists; (split; [vm_compute; reflexivity|]);
    repeat split; reflexivity.
Qed.

(** C5.  An unknown model name, here [kinect], under either interpreter:
    [__init__] writes one entry of severity [Fatal] to the log and goes on
    to the end (camera parameters fetched, topics registered, "setup
    cleanly" logged); the main program then processes a frame and
    publishes its point cloud. *)
Theorem unknown_model_is_only_logged (py : interp) :
  exists wd1 wd2 msg,
    __init__ (Some "kinect"%string) (Ok Scenario.resp) world0 = (Ok tt, wd1) /\
    log (ros wd1) =
      [(Fatal, "Unknown sensor model 'kinect'. Implemented models are: 'ground_truth'"%string);
       (Info, "Waiting for unreal_ros_client camera params ..."%string);
       (Info, "Sensor model setup cleanly."%string)] /\
    subscribers (ros wd1) = ["ue_sensor_raw"%string] /\
    main py (Some "kinect"%string) (Ok Scenario.resp) [Scenario.frame] world0 = (Ok tt, wd2) /\
    published (ros wd2) = [msg].
Proof.
  destruct py; do 3 eexists; (split; [vm_compute; reflexivity|]);
    (split; [reflexivity|]); (split; [reflexivity|]);
    (split; [vm_compute; reflexivity|]); reflexivity.
Qed.
End NodeTheorems.


(* ================================================================== *)
(** * The scenarios in binary64 *)

Section ScenarioBinary64.
Import Py Num Np IEEE Struct Ros SensorModel.

(** The centre pixel of the end-to-end scenario in binary64: exactly
    [(0.0, 0.0, 2.0)]. *)
Example scenario_center_pixel_binary64 (py : interp) :
  match depth_to_3d py (self Scenario.ready) Scenario.depth with
  | Ok pc =>
      (dim0 pc, dim1 pc, dim2 pc) = (2, 4, 3) /\
      (at3 pc 1 2 0, at3 pc 1 2 1, at3 pc 1 2 2)
      = (S754_zero false, S754_zero false, of_int 2)
  | Raise _ => False
  end.
Proof.
  destruct py; vm_compute; split; reflexivity.
Qed.

(** The zero-depth scenario in binary64: every coordinate of every point
    is a zero; the frame is published (no exception) and every point
    carries the colour. *)
Example scenario_zero_depth_binary64 (py : interp) :
  match depth_to_3d py (self Scenario.ready) Scenario.zero_depth with
  | Ok pc =>
      forallb (fun ij => forallb (fun k => is_zero (at3 pc (fst ij) (snd ij) k)) [0; 1; 2])
              (indices2 2 4) = true
  | Raise _ => False
  end /\
  exists wd' msg,
    callback py Scenario.zero_frame Scenario.ready = (Ok tt, wd') /\
    published (ros wd') = [msg] /\
    forallb (fun p => match read_rgb (Ros.data msg) (16 * p + 12) with
                      | Some (255, 0, 0)%Z => true
                      | _ => false
                      end) (seq 0 8) = true.
Proof.
  destruct py; (split; [vm_compute; reflexivity|]); do 2 eexists;
    (split; [vm_compute; reflexivity|]); split; vm_compute; reflexivity.
Qed.

(** The packed value is not the number [c]: for red, [c = 0xFF0000], the
    binary32 pattern of the number 16711680.0 is [0x4B7F0000]. *)
Example packing_is_not_a_numeric_cast :
  bits_of_b32 (f32_of_f64 (f64_of_f32 (b32_of_bits (rgb_word 255 0 0)))) = 0xFF0000%Z /\
  bits_of_b32 (f32_of_f64 (of_int (rgb_word 255 0 0))) = 0x4B7F0000%Z.
Proof. split; vm_compute; reflexivity. Qed.
End ScenarioBinary64.


(* ================================================================== *)
(** * binary64: exact operations *)

Section Binary64Facts.
Import Py Num Np SensorModel.
Local Open Scope Z_scope.

(** 1.0 *)
Lemma of_int_1 : of_int (F := float64) 1 = S754_finite false 4503599627370496 (-52).
Proof. reflexivity. Qed.

Lemma div_eucl_exact (a b q : Z) : 0 < b -> a = q * b -> Z.div_eucl a b = (q, 0).
Proof.
  intros Hb ->.
  pose proof (Z_div_mult q b ltac:(lia)) as Hq.
  pose proof (Z_mod_mult q b) as Hr.
  unfold Z.div, Z.modulo in Hq, Hr.
  destruct (Z.div_eucl (q * b) b) as [q' r']. cbn in Hq, Hr. congruence.
Qed.

(** Division by 1.0 is exact on every canonical finite number. *)
Lemma SFdiv_one (s : bool) (m : positive) (e : Z) :
  SpecFloat.bounded prec64 emax64 m e = true ->
  SFdiv prec64 emax64 (S754_finite s m e) (S754_finite false 4503599627370496 (-52))
  = S754_finite s m e.
Proof.
  unfold SpecFloat.bounded, canonical_mantissa, fexp, emin, prec64, emax64.
  intros Hb. apply andb_true_iff in Hb. destruct Hb as [Hc He].
  apply Z.eqb_eq in Hc. apply Z.leb_le in He.
  unfold SFdiv, SFdiv_core_binary, fexp, emin.
  change (Zdigits2 (Zpos 4503599627370496)) with 53.
  cbn [Zdigits2]. set (d := Zpos (digits2_pos m)) in *.
  assert (Hd : 1 <= d) by (unfold d; lia).
  destruct (Z_le_gt_dec (-1074) (d + e - 54)) as [Hn | Hsub].
  - (* normal, above the smallest binade *)
    assert (Hd53 : d = 53) by lia.
    replace (Z.min (Z.max (d + e - (53 + -52) - 53) (3 - 1024 - 53)) (e - -52))
      with (e - 1) by lia.
    replace (e - -52 - (e - 1)) with 53 by lia.
    rewrite (div_eucl_exact (Z.shiftl (Zpos m) 53) 4503599627370496 (Zpos m~0))
      by (try lia; rewrite Z.shiftl_mul_pow2 by lia; change (2 ^ 53) with (2 * 4503599627370496); lia).
    change (new_location 4503599627370496 0) with loc_Exact.
    unfold binary_round_aux, shr_fexp, fexp, emin.
    cbn [Zdigits2 digits2_pos shr_record_of_loc]. fold d.
    replace (Z.max (Zpos (Pos.succ (digits2_pos m)) + (e - 1) - 53) (3 - 1024 - 53) - (e - 1))
      with 1 by (unfold d in *; lia).
    cbn [shr SpecFloat.iter_pos shr_1 orb shr_m shr_r shr_s loc_of_shr_record
         round_nearest_even Zdigits2].
    fold d.
    replace (Z.max (d + (e - 1 + 1) - 53) (3 - 1024 - 53) - (e - 1 + 1)) with 0 by lia.
    cbn [shr shr_m].
    replace (e - 1 + 1 <=? 1024 - 53) with true by (symmetry; apply Z.leb_le; lia).
    rewrite xorb_false_r. f_equal. lia.
  - (* the smallest binade and the subnormals *)
    assert (He' : e = -1074) by lia.
    replace (Z.min (Z.max (d + e - (53 + -52) - 53) (3 - 1024 - 53)) (e - -52))
      with e by lia.
    replace (e - -52 - e) with 52 by lia.
    rewrite (div_eucl_exact (Z.shiftl (Zpos m) 52) 4503599627370496 (Zpos m))
      by (try lia; rewrite Z.shiftl_mul_pow2 by lia; change (2 ^ 52) with 4503599627370496; lia).
    change (new_location 4503599627370496 0) with loc_Exact.
    unfold binary_round_aux, shr_fexp, fexp, emin.
    cbn [Zdigits2 shr_record_of_loc]. fold d.
    replace (Z.max (d + e - 53) (3 - 1024 - 53) - e) with 0 by lia.
    cbn [shr shr_m shr_r shr_s loc_of_shr_record round_nearest_even Zdigits2].
    fold d.
    replace (Z.max (d + e - 53) (3 - 1024 - 53) - e) with 0 by lia.
    cbn [shr shr_m].
    replace (e <=? 1024 - 53) with true by (symmetry; apply Z.leb_le; lia).
    rewrite xorb_false_r. reflexivity.
Qed.

Lemma is_zero_inv (x : float64) : is_zero x = true -> exists s, x = S754_zero s.
Proof.
  unfold is_zero, SFeqb. destruct x as [s|s| |s m e]; cbn; try discriminate.
  - intros _. exists s. reflexivity.
  - destruct s; discriminate.
  - destruct s; discriminate.
Qed.

Lemma is_zero_zero (s : bool) : is_zero (S754_zero s) = true.
Proof. reflexivity. Qed.

Lemma is_positive_inv (x : float64) :
  is_positive x = true ->
  (exists m e, x = S754_finite false m e) \/ x = S754_infinity false.
Proof.
  unfold is_positive, SFltb. destruct x as [s|s| |s m e]; cbn; try discriminate.
  - destruct s; [discriminate|]. intros _. right. reflexivity.
  - destruct s; [discriminate|]. intros _. left. exists m, e. reflexivity.
Qed.

(** The divisor of [points_z] at a pixel whose offsets are zeros: 1.0. *)
Lemma centre_divisor (f dx dy : float64) :
  is_positive f = true -> is_zero dx = true -> is_zero dy = true ->
  pow_half (Num.add (of_int 1)
              (pow2 (Num.div (pow_half (Num.add (pow2 dy) (pow2 dx))) f)))
  = S754_finite false 4503599627370496 (-52).
Proof.
  intros Hf Hx Hy.
  destruct (is_zero_inv dx Hx) as [sx ->]. destruct (is_zero_inv dy Hy) as [sy ->].
  destruct (is_positive_inv f Hf) as [(m & e & ->) | ->];
    destruct sx, sy; reflexivity.
Qed.

Lemma zero_times_offset_over_f (z dx f : float64) :
  is_finite z = true -> is_zero dx = true -> is_positive f = true ->
  is_zero (Num.div (Num.mul z dx) f) = true.
Proof.
  intros Hz Hx Hf.
  destruct (is_zero_inv dx Hx) as [sx ->].
  destruct (is_positive_inv f Hf) as [(m & e & ->) | ->];
    destruct z as [s|s| |s mz ez]; try discriminate; reflexivity.
Qed.

Lemma div_by_one (d : float64) :
  well_formed d = true ->
  Num.div d (S754_finite false 4503599627370496 (-52)) = d.
Proof.
  intros Hd. destruct d as [s|s| |s m e].
  - cbn. now rewrite xorb_false_r.
  - cbn. now rewrite xorb_false_r.
  - reflexivity.
  - apply SFdiv_one. exact Hd.
Qed.
End Binary64Facts.

(* ================================================================== *)
(** * binary64: what rounding can return *)

Section RoundingClasses.
Import Py Num Np SensorModel.
Local Open Scope Z_scope.

(** One step of [shr] halves a non-negative mantissa. *)
Lemma shr_1_m (r : shr_record) :
  0 <= shr_m r -> shr_m (shr_1 r) = shr_m r / 2.
Proof.
  destruct r as [m rb sb]. cbn [shr_m]. intros Hm.
  destruct m as [|p|p]; [reflexivity | | lia].
  destruct p as [p|p|]; cbn [shr_1 shr_m].
  - rewrite Pos2Z.inj_xI. apply Z.div_unique with (r := 1); lia.
  - rewrite Pos2Z.inj_xO. apply Z.div_unique with (r := 0); lia.
  - reflexivity.
Qed.

Lemma shr_iter_m (n : positive) (r : shr_record) :
  0 <= shr_m r -> shr_m (SpecFloat.iter_pos shr_1 n r) = shr_m r / 2 ^ Zpos n.
Proof.
  rewrite iter_pos_iter. revert r.
  induction n as [|n IH] using Pos.peano_ind; intros r Hr.
  - cbn [Pos.iter]. rewrite shr_1_m by exact Hr. reflexivity.
  - rewrite Pos.iter_succ_r with (f := shr_1).
    assert (H1 : 0 <= shr_m (shr_1 r)).
    { rewrite shr_1_m by exact Hr. apply Z.div_pos; lia. }
    rewrite IH by exact H1. rewrite shr_1_m by exact Hr.
    rewrite Pos2Z.inj_succ, Z.pow_succ_r by lia.
    rewrite Z.div_div by lia. reflexivity.
Qed.

(** The mantissa after [shr]. *)
Lemma shr_m_spec (r : shr_record) (e n : Z) :
  0 <= shr_m r ->
  shr_m (fst (shr r e n)) = (if 0 <? n then shr_m r / 2 ^ n else shr_m r) /\
  snd (shr r e n) = (if 0 <? n then e + n else e).
Proof.
  intros Hr. unfold shr. destruct n as [|p|p]; cbn [fst snd Z.ltb Z.compare];
    [split; reflexivity | | split; reflexivity].
  split; [apply shr_iter_m; exact Hr | reflexivity].
Qed.

Lemma shr_record_of_loc_m (m : Z) (l : location) : shr_m (shr_record_of_loc m l) = m.
Proof. destruct l as [|[ | | ]]; reflexivity. Qed.

Lemma round_nearest_even_ge (m : Z) (l : location) :
  m <= round_nearest_even m l <= m + 1.
Proof.
  unfold round_nearest_even. destruct l as [|[ | | ]]; try lia.
  destruct (Z.even m); lia.
Qed.

Lemma Zdigits2_bounds (m : Z) :
  0 < m -> 2 ^ (Zdigits2 m - 1) <= m < 2 ^ Zdigits2 m.
Proof.
  destruct m as [|p|p]; try lia. intros _. apply digits2_pos_bounds.
Qed.

Lemma Zdigits2_pos (m : Z) : 0 < m -> 0 < Zdigits2 m.
Proof. destruct m; cbn; lia. Qed.

Lemma Zdigits2_ge (m k : Z) : 0 < m -> 2 ^ (k - 1) <= m -> k <= Zdigits2 m.
Proof.
  intros Hm Hk. destruct (Zdigits2_bounds m Hm) as [_ Hhi].
  pose proof (Zdigits2_pos m Hm) as Hd.
  destruct (Z_le_gt_dec k (Zdigits2 m)) as [|Hgt]; [assumption|].
  assert (2 ^ Zdigits2 m <= 2 ^ (k - 1)) by (apply Z.pow_le_mono_r; lia).
  lia.
Qed.

Lemma Zdigits2_mono (a b : Z) : 0 < a -> a <= b -> Zdigits2 a <= Zdigits2 b.
Proof.
  intros Ha Hab. apply Zdigits2_ge; [lia|].
  destruct (Zdigits2_bounds a Ha). lia.
Qed.

(** Shifting right by fewer places than there are digits leaves a
    positive mantissa that keeps the magnitude. *)
Lemma div_pow2_digits (m n : Z) :
  0 < m -> 0 < n < Zdigits2 m ->
  0 < m / 2 ^ n /\ Zdigits2 m - n <= Zdigits2 (m / 2 ^ n).
Proof.
  intros Hm Hn. destruct (Zdigits2_bounds m Hm) as [Hlo _].
  assert (Hq : 2 ^ (Zdigits2 m - n - 1) <= m / 2 ^ n).
  { apply Z.div_le_lower_bound; [apply Z.pow_pos_nonneg; lia|].
    rewrite <- Z.pow_add_r by lia.
    replace (n + (Zdigits2 m - n - 1)) with (Zdigits2 m - 1) by lia. exact Hlo. }
  assert (0 < 2 ^ (Zdigits2 m - n - 1)) by (apply Z.pow_pos_nonneg; lia).
  split; [lia|]. apply Zdigits2_ge; [lia|]. exact Hq.
Qed.

(** What [shr_fexp] leaves of a non-negative mantissa: a non-negative
    mantissa at an exponent not below [emin]; a positive one of magnitude
    above [emin] stays positive and keeps its magnitude. *)
Lemma shr_fexp_spec (mx ex : Z) (lx : location) :
  0 <= mx ->
  0 <= shr_m (fst (shr_fexp prec64 emax64 mx ex lx)) /\
  -1074 <= snd (shr_fexp prec64 emax64 mx ex lx) /\
  (0 < mx -> -1074 < Zdigits2 mx + ex ->
   0 < shr_m (fst (shr_fexp prec64 emax64 mx ex lx)) /\
   Zdigits2 mx + ex
   <= Zdigits2 (shr_m (fst (shr_fexp prec64 emax64 mx ex lx)))
      + snd (shr_fexp prec64 emax64 mx ex lx)).
Proof.
  intros Hmx. unfold shr_fexp, fexp, emin, prec64, emax64.
  set (n := Z.max (Zdigits2 mx + ex - 53) (3 - 1024 - 53) - ex).
  assert (Hrec : 0 <= shr_m (shr_record_of_loc mx lx))
    by (rewrite shr_record_of_loc_m; exact Hmx).
  destruct (shr_m_spec (shr_record_of_loc mx lx) ex n Hrec) as [Hm He].
  rewrite Hm, He, shr_record_of_loc_m.
  destruct (Z.ltb_spec 0 n) as [Hn | Hn].
  - split; [apply Z.div_pos; [lia | apply Z.pow_pos_nonneg; lia]|].
    split; [unfold n; lia|].
    intros Hpos Hmag.
    assert (Hlt : 0 < n < Zdigits2 mx) by (unfold n in *; lia).
    destruct (div_pow2_digits mx n Hpos Hlt) as [Hq Hd]. split; lia.
  - split; [exact Hmx|]. split; [unfold n in Hn; lia|].
    intros Hpos Hmag. split; lia.
Qed.

Lemma binary_round_aux_spec (sx : bool) (mx ex : Z) (lx : location) :
  0 <= mx ->
  rounded sx (binary_round_aux prec64 emax64 sx mx ex lx) /\
  (0 < mx -> -1074 < Zdigits2 mx + ex ->
   rounded_pos sx (binary_round_aux prec64 emax64 sx mx ex lx)).
Proof.
  intros Hmx. unfold binary_round_aux.
  destruct (shr_fexp_spec mx ex lx Hmx) as (H1 & He1 & Hpos1).
  destruct (shr_fexp prec64 emax64 mx ex lx) as [mrs' e'] eqn:E1. cbn [fst snd] in *.
  set (m2 := round_nearest_even (shr_m mrs') (loc_of_shr_record mrs')).
  pose proof (round_nearest_even_ge (shr_m mrs') (loc_of_shr_record mrs')) as Hr.
  fold m2 in Hr.
  assert (Hm2 : 0 <= m2) by lia.
  destruct (shr_fexp_spec m2 e' loc_Exact Hm2) as (H2 & He2 & Hpos2).
  destruct (shr_fexp prec64 emax64 m2 e' loc_Exact) as [mrs'' e''] eqn:E2.
  cbn [fst snd] in *.
  split.
  - destruct (shr_m mrs'') as [|m|m]; [left; reflexivity | | lia].
    destruct (e'' <=? emax64 - prec64); [right; left; eauto | right; right; reflexivity].
  - intros Hpos Hmag. destruct (Hpos1 Hpos Hmag) as [Hp1 Hd1].
    assert (Hp2 : 0 < m2) by lia.
    assert (Hd2 : -1074 < Zdigits2 m2 + e').
    { pose proof (Zdigits2_mono (shr_m mrs') m2 Hp1 ltac:(lia)). lia. }
    destruct (Hpos2 Hp2 Hd2) as [Hp3 _].
    destruct (shr_m mrs'') as [|m|m]; [lia | | lia].
    destruct (e'' <=? emax64 - prec64); [left; eauto | right; reflexivity].
Qed.

(** ** The classes through the operations of [depth_to_3d] *)

Lemma rounded_pos_rounded (sx : bool) (x : spec_float) : rounded_pos sx x -> rounded sx x.
Proof. intros [H | H]; [right; left; exact H | right; right; exact H]. Qed.

Lemma binary_round_spec (sx : bool) (m : positive) (e : Z) :
  rounded sx (binary_round prec64 emax64 sx m e) /\
  (-1074 < Zpos (digits2_pos m) + e ->
   rounded_pos sx (binary_round prec64 emax64 sx m e)).
Proof.
  unfold binary_round, shl_align.
  set (e' := fexp prec64 emax64 (Zpos (digits2_pos m) + e)).
  destruct (e' - e) as [|d|d] eqn:Ed.
  - destruct (binary_round_aux_spec sx (Zpos m) e loc_Exact ltac:(lia)) as [H1 H2].
    split; [exact H1|]. intros Hmag. apply H2; [lia | exact Hmag].
  - destruct (binary_round_aux_spec sx (Zpos m) e loc_Exact ltac:(lia)) as [H1 H2].
    split; [exact H1|]. intros Hmag. apply H2; [lia | exact Hmag].
  - destruct (binary_round_aux_spec sx (Zpos (Pos.iter xO m d)) e' loc_Exact ltac:(lia))
      as [H1 H2].
    split; [exact H1|]. intros Hmag. apply H2; [lia|].
    cbn [Zdigits2]. rewrite digits2_pos_shift. lia.
Qed.

(** [x * x] of a number that is not a NaN. *)
Lemma mul_self_rounded (x : float64) :
  x <> S754_nan -> rounded false (Num.mul x x).
Proof.
  intros Hx. destruct x as [s|s| |s m e]; cbn [Num.mul Binary64 SFmul].
  - left. now destruct s.
  - right; right. now destruct s.
  - contradiction.
  - replace (xorb s s) with false by now destruct s.
    apply binary_round_aux_spec. lia.
Qed.

Lemma rounded_not_nan (sx : bool) (x : spec_float) : rounded sx x -> x <> S754_nan.
Proof. intros [-> | [(m & e & -> & _) | ->]]; discriminate. Qed.

Lemma is_finite_not_nan (x : float64) : is_finite x = true -> x <> S754_nan.
Proof. destruct x; cbn; congruence. Qed.

(** The sum of two non-negative results. *)
Lemma add_rounded (a b : float64) :
  rounded false a -> rounded false b -> rounded false (Num.add a b).
Proof.
  intros [-> | [(ma & ea & -> & Ha) | ->]] [-> | [(mb & eb & -> & Hb) | ->]];
    cbn [Num.add Binary64 SFadd];
    try (left; reflexivity); try (right; right; reflexivity);
    try (right; left; eauto; fail).
  unfold cond_Zopp. cbn [Z.add binary_normalize].
  apply binary_round_spec.
Qed.

Lemma sqrtrem_nonneg (n : Z) : 0 <= n -> 0 <= fst (Z.sqrtrem n) /\ (0 < n -> 0 < fst (Z.sqrtrem n)).
Proof.
  intros Hn. pose proof (Z.sqrtrem_spec n Hn) as Hs.
  destruct (Z.sqrtrem n) as [q r]. cbn [fst]. destruct Hs as [Eq Hr]. split; nia.
Qed.

(** The square root of a non-negative result. *)
Lemma sqrt_rounded (a : float64) : rounded false a -> rounded false (Num.sqrt a).
Proof.
  intros [-> | [(m & e & -> & He) | ->]]; cbn [Num.sqrt Binary64 SFsqrt];
    [left; reflexivity | | right; right; reflexivity].
  unfold SFsqrt_core_binary.
  set (e' := Z.min _ _). set (s := e - 2 * e').
  set (m' := match s with Zpos _ => Z.shiftl (Zpos m) s | Z0 => Zpos m | Zneg _ => 0 end).
  assert (Hm' : 0 <= m').
  { unfold m'. destruct s; try lia. apply Z.shiftl_nonneg. lia. }
  pose proof (sqrtrem_nonneg m' Hm') as [Hq _].
  destruct (Z.sqrtrem m') as [q r]. cbn [fst] in Hq.
  apply binary_round_aux_spec. exact Hq.
Qed.

(** The quotient of a non-negative result by a positive finite number. *)
Lemma div_rounded (a : float64) (mf : positive) (ef : Z) :
  rounded false a -> rounded false (Num.div a (S754_finite false mf ef)).
Proof.
  intros [-> | [(m & e & -> & He) | ->]]; cbn [Num.div Binary64 SFdiv xorb];
    [left; reflexivity | | right; right; reflexivity].
  unfold SFdiv_core_binary.
  set (e' := Z.min _ _). set (s := e - ef - e').
  set (m' := match s with Zpos _ => Z.shiftl (Zpos m) s | Z0 => Zpos m | Zneg _ => 0 end).
  assert (Hm' : 0 <= m').
  { unfold m'. destruct s; try lia. apply Z.shiftl_nonneg. lia. }
  assert (Hq : 0 <= fst (Z.div_eucl m' (Zpos mf))).
  { change (fst (Z.div_eucl m' (Zpos mf))) with (m' / Zpos mf). apply Z.div_pos; lia. }
  destruct (Z.div_eucl m' (Zpos mf)) as [q r]. cbn [fst] in Hq.
  apply binary_round_aux_spec. exact Hq.
Qed.
End RoundingClasses.

(* ================================================================== *)
(** * binary64: the divisor of [points_z] *)

Section DivisorBinary64.
Import Py Num Np SensorModel.
Local Open Scope Z_scope.

(** [1 + u] for a non-negative [u] is a positive number: the sum is at
    least 1 and cannot underflow. *)
Lemma one_plus_rounded_pos (u : float64) :
  rounded false u -> rounded_pos false (Num.add (of_int 1) u).
Proof.
  rewrite of_int_1.
  intros [-> | [(mu & eu & -> & Hu) | ->]]; cbn [Num.add Binary64 SFadd];
    [left; exists 4503599627370496%positive, (-52); split; [reflexivity | lia]
    | | right; reflexivity].
  unfold cond_Zopp. cbn [Z.add binary_normalize].
  apply binary_round_spec.
  set (ez := Z.min (-52) eu).
  set (m1 := fst (shl_align 4503599627370496 (-52) ez)).
  set (m2 := fst (shl_align mu eu ez)).
  assert (H1 : Zpos (digits2_pos m1) + ez = 1).
  { unfold m1, shl_align. destruct (ez - -52) as [|d|d] eqn:Ed; cbn [fst].
    - change (digits2_pos 4503599627370496) with 53%positive. lia.
    - unfold ez in Ed. lia.
    - rewrite digits2_pos_shift.
      change (digits2_pos 4503599627370496) with 53%positive. lia. }
  assert (Hle : Zdigits2 (Zpos m1) <= Zdigits2 (Zpos (m1 + m2))).
  { apply Zdigits2_mono; lia. }
  cbn [Zdigits2] in Hle. lia.
Qed.

(** The square root of a positive result is a positive result. *)
Lemma sqrt_rounded_pos (v : float64) :
  rounded_pos false v -> rounded_pos false (Num.sqrt v).
Proof.
  intros [(m & e & -> & He) | ->]; cbn [Num.sqrt Binary64 SFsqrt];
    [| right; reflexivity].
  unfold SFsqrt_core_binary.
  set (e' := Z.min (fexp prec64 emax64 (Z.div2 (Zdigits2 (Zpos m) + e + 1))) (Z.div2 e)).
  set (s := e - 2 * e').
  set (m' := match s with Zpos _ => Z.shiftl (Zpos m) s | Z0 => Zpos m | Zneg _ => 0 end).
  assert (Hdiv2 : 2 * Z.div2 e <= e) by (rewrite Z.div2_div; Z.div_mod_to_equations; lia).
  assert (Hdiv2' : -538 <= Z.div2 e) by (rewrite Z.div2_div; Z.div_mod_to_equations; lia).
  assert (He' : -1074 <= e' /\ 2 * e' <= e).
  { unfold e', fexp, emin, prec64, emax64. lia. }
  assert (Hs : 0 <= s) by (unfold s; lia).
  assert (Hm' : 0 < m').
  { unfold m'. destruct s as [|p|p]; try lia.
    rewrite Z.shiftl_mul_pow2 by lia.
    apply Z.mul_pos_pos; [lia | apply Z.pow_pos_nonneg; lia]. }
  pose proof (sqrtrem_nonneg m' ltac:(lia)) as [Hq0 Hq].
  specialize (Hq Hm').
  destruct (Z.sqrtrem m') as [q r]. cbn [fst] in Hq0, Hq.
  apply binary_round_aux_spec; [lia | exact Hq |].
  pose proof (Zdigits2_pos q Hq). lia.
Qed.

(** The divisor of [points_z] is a positive number, finite or [+inf]:
    never zero, never a NaN. *)
Lemma divisor_positive (dx dy f : float64) :
  is_finite dx = true -> is_finite dy = true ->
  is_positive f = true -> is_finite f = true ->
  rounded_pos false
    (pow_half (Num.add (of_int 1)
                 (pow2 (Num.div (pow_half (Num.add (pow2 dy) (pow2 dx))) f)))).
Proof.
  intros Hx Hy Hf Hff.
  destruct (is_positive_inv f Hf) as [(mf & ef & ->) | ->]; [|discriminate].
  unfold pow_half, pow2.
  apply sqrt_rounded_pos, one_plus_rounded_pos.
  apply mul_self_rounded, (rounded_not_nan false).
  apply div_rounded, sqrt_rounded, add_rounded;
    apply mul_self_rounded, is_finite_not_nan; assumption.
Qed.

(** Zero divided by a positive number. *)
Lemma zero_over_positive (d k : float64) :
  is_zero d = true -> rounded_pos false k -> is_zero (Num.div d k) = true.
Proof.
  intros Hd Hk. destruct (is_zero_inv d Hd) as [s ->].
  destruct Hk as [(m & e & -> & _) | ->]; reflexivity.
Qed.

Lemma is_zero_is_finite (x : float64) : is_zero x = true -> is_finite x = true.
Proof. intros H. destruct (is_zero_inv x H) as [s ->]. reflexivity. Qed.

Lemma zero_times_finite_over_f (z dx f : float64) :
  is_zero z = true -> is_finite dx = true -> is_positive f = true ->
  is_zero (Num.div (Num.mul z dx) f) = true.
Proof.
  intros Hz Hx Hf.
  destruct (is_zero_inv z Hz) as [sz ->].
  destruct (is_positive_inv f Hf) as [(m & e & ->) | ->];
    destruct dx as [s|s| |s mx ex]; try discriminate; reflexivity.
Qed.
End DivisorBinary64.

(* ================================================================== *)
(** * binary64: the pixel grid *)

Section GridBinary64.
Import Py Num Np SensorModel.
Local Open Scope Z_scope.

Lemma pos_iter_xO (m n : positive) : Zpos (Pos.iter xO m n) = Zpos m * 2 ^ Zpos n.
Proof.
  induction n as [|n IH] using Pos.peano_ind.
  - cbn [Pos.iter]. rewrite Pos2Z.inj_xO. lia.
  - rewrite Pos.iter_succ with (f := xO). rewrite Pos2Z.inj_xO, IH.
    rewrite Pos2Z.inj_succ, Z.pow_succ_r by lia. lia.
Qed.

(** Rounding a full mantissa at an exponent in range changes nothing. *)
Lemma binary_round_aux_full (s : bool) (m : positive) (e : Z) :
  digits2_pos m = 53%positive -> -1074 <= e <= 971 ->
  binary_round_aux prec64 emax64 s (Zpos m) e loc_Exact = S754_finite s m e.
Proof.
  intros Hd He. unfold binary_round_aux, shr_fexp, fexp, emin, prec64, emax64.
  cbn [Zdigits2 shr_record_of_loc]. rewrite Hd.
  replace (Z.max (53 + e - 53) (3 - 1024 - 53) - e) with 0 by lia.
  cbn [shr shr_m shr_r shr_s loc_of_shr_record round_nearest_even Zdigits2].
  rewrite Hd.
  replace (Z.max (53 + e - 53) (3 - 1024 - 53) - e) with 0 by lia.
  cbn [shr shr_m].
  replace (e <=? 1024 - 53) with true by (symmetry; apply Z.leb_le; lia).
  reflexivity.
Qed.

(** The float of a positive integer below [2^53]. *)
Lemma of_int_pos_form (p : positive) :
  Zpos p < 2 ^ 53 ->
  exists m e, of_int (F := float64) (Zpos p) = S754_finite false m e /\
              digits2_pos m = 53%positive /\ -52 <= e <= 0.
Proof.
  intros Hp.
  pose proof (digits2_pos_le p 53 Hp ltac:(lia)) as Hd.
  cbn [of_int Binary64 binary_normalize].
  unfold binary_round, shl_align, fexp, emin, prec64, emax64.
  replace (Z.max (Zpos (digits2_pos p) + 0 - 53) (3 - 1024 - 53))
    with (Zpos (digits2_pos p) - 53) by lia.
  destruct (Zpos (digits2_pos p) - 53 - 0) as [|k|k] eqn:Ek; try lia.
  - exists p, 0. split; [|split; [lia | lia]].
    apply binary_round_aux_full; [lia | lia].
  - exists (Pos.iter xO p k), (Zpos (digits2_pos p) - 53).
    assert (Hk : digits2_pos (Pos.iter xO p k) = 53%positive)
      by (rewrite digits2_pos_shift; lia).
    split; [|split; [exact Hk | lia]].
    apply binary_round_aux_full; [exact Hk | lia].
Qed.

Lemma of_int_int_like (n : Z) : 0 <= n < 2 ^ 53 -> int_like (of_int n).
Proof.
  intros Hn. destruct n as [|p|p]; [left; reflexivity | | lia].
  destruct (of_int_pos_form p ltac:(lia)) as (m & e & E & Hd & He).
  right. exists m, e. split; [exact E|]. split; [exact Hd | lia].
Qed.

(** [x / x = 1.0] *)
Lemma SFdiv_self (m : positive) (e : Z) :
  Num.div (S754_finite false m e) (S754_finite false m e)
  = S754_finite false 4503599627370496 (-52).
Proof.
  cbn [Num.div Binary64 SFdiv]. unfold SFdiv_core_binary.
  replace (Zdigits2 (Zpos m) + e - (Zdigits2 (Zpos m) + e)) with 0 by lia.
  replace (e - e) with 0 by lia.
  change (Z.min (fexp prec64 emax64 0) 0) with (-53).
  change (0 - -53) with 53. cbv iota.
  rewrite (div_eucl_exact (Z.shiftl (Zpos m) 53) (Zpos m) (2 ^ 53))
    by (try lia; rewrite Z.shiftl_mul_pow2 by lia; lia).
  assert (Hloc : new_location (Zpos m) 0 = loc_Exact).
  { unfold new_location. destruct (Z.even (Zpos m)); reflexivity. }
  rewrite Hloc. reflexivity.
Qed.

(** [x * 1.0 = x] for a full mantissa. *)
Lemma SFmul_one (m : positive) (e : Z) :
  digits2_pos m = 53%positive -> -53 <= e <= 0 ->
  Num.mul (S754_finite false m e) (S754_finite false 4503599627370496 (-52))
  = S754_finite false m e.
Proof.
  intros Hd He. cbn [Num.mul Binary64 SFmul xorb].
  assert (Em : (m * 4503599627370496)%positive = Pos.iter xO m 52).
  { apply Pos2Z.inj. rewrite pos_iter_xO, Pos2Z.inj_mul. reflexivity. }
  rewrite Em.
  unfold binary_round_aux, shr_fexp, fexp, emin, prec64, emax64.
  cbn [Zdigits2 shr_record_of_loc]. rewrite digits2_pos_shift, Hd.
  replace (Z.max (Zpos (53 + 52) + (e + -52) - 53) (3 - 1024 - 53) - (e + -52))
    with 52 by lia.
  cbn [shr]. rewrite shr_undoes_shift.
  cbn [shr_m shr_r shr_s loc_of_shr_record round_nearest_even Zdigits2].
  rewrite Hd.
  replace (Z.max (53 + (e + -52 + 52) - 53) (3 - 1024 - 53) - (e + -52 + 52))
    with 0 by lia.
  cbn [shr shr_m].
  replace (e + -52 + 52 <=? 1024 - 53) with true by (symmetry; apply Z.leb_le; lia).
  f_equal. lia.
Qed.

(** [x / 2.0] for a full mantissa. *)
Lemma SFdiv_two (m : positive) (e : Z) :
  digits2_pos m = 53%positive -> -52 <= e <= 0 ->
  Num.div (S754_finite false m e) (S754_finite false 4503599627370496 (-51))
  = S754_finite false m (e - 1).
Proof.
  intros Hd He. cbn [Num.div Binary64 SFdiv xorb]. unfold SFdiv_core_binary.
  change (Zdigits2 (Zpos 4503599627370496)) with 53.
  cbn [Zdigits2]. rewrite Hd. unfold fexp, emin, prec64, emax64.
  replace (Z.min (Z.max (53 + e - (53 + -51) - 53) (3 - 1024 - 53)) (e - -51))
    with (e - 2) by lia.
  replace (e - -51 - (e - 2)) with 53 by lia.
  rewrite (div_eucl_exact (Z.shiftl (Zpos m) 53) 4503599627370496 (Zpos m~0))
    by (try lia; rewrite Z.shiftl_mul_pow2 by lia;
        change (2 ^ 53) with (2 * 4503599627370496); lia).
  change (new_location 4503599627370496 0) with loc_Exact.
  unfold binary_round_aux, shr_fexp, fexp, emin.
  cbn [Zdigits2 digits2_pos shr_record_of_loc]. rewrite Hd.
  replace (Z.max (Zpos (Pos.succ 53) + (e - 2) - 53) (3 - 1024 - 53) - (e - 2))
    with 1 by lia.
  cbn [shr SpecFloat.iter_pos shr_1 orb shr_m shr_r shr_s loc_of_shr_record
       round_nearest_even Zdigits2].
  rewrite Hd.
  replace (Z.max (53 + (e - 2 + 1) - 53) (3 - 1024 - 53) - (e - 2 + 1)) with 0 by lia.
  cbn [shr shr_m].
  replace (e - 2 + 1 <=? 1024 - 53) with true by (symmetry; apply Z.leb_le; lia).
  f_equal. lia.
Qed.

Lemma Zdigits2_le (m k : Z) : 0 <= m < 2 ^ k -> 0 <= k -> Zdigits2 m <= k.
Proof.
  intros Hm Hk. destruct m as [|p|p]; [exact Hk | | lia].
  apply digits2_pos_le; lia.
Qed.

(** Rounding an aligned mantissa of magnitude at most [2^1023] does not
    overflow. *)
Lemma binary_round_aux_no_overflow (sx : bool) (mx ex : Z) (lx : location) :
  0 < mx ->
  ex <= fexp prec64 emax64 (Zdigits2 mx + ex) ->
  Zdigits2 mx + ex <= 1023 ->
  is_finite (binary_round_aux prec64 emax64 sx mx ex lx) = true.
Proof.
  intros Hmx Hal Hmag. unfold binary_round_aux, shr_fexp.
  unfold fexp, emin, prec64, emax64 in *.
  set (n1 := Z.max (Zdigits2 mx + ex - 53) (3 - 1024 - 53) - ex) in *.
  assert (Hn1 : 0 <= n1) by (unfold n1; lia).
  assert (Hrec : 0 <= shr_m (shr_record_of_loc mx lx))
    by (rewrite shr_record_of_loc_m; lia).
  destruct (shr_m_spec (shr_record_of_loc mx lx) ex n1 Hrec) as [Hm He].
  rewrite shr_record_of_loc_m in Hm.
  destruct (shr (shr_record_of_loc mx lx) ex n1) as [mrs' e'] eqn:E1.
  cbn [fst snd] in Hm, He.
  destruct (Zdigits2_bounds mx Hmx) as [_ Hhi].
  assert (H1 : 0 <= shr_m mrs' < 2 ^ 53 /\ e' = ex + n1).
  { destruct (Z.ltb_spec 0 n1) as [Hpos | Hz].
    - rewrite Hm. split; [|exact He]. split.
      + apply Z.div_pos; [lia | apply Z.pow_pos_nonneg; lia].
      + apply Z.div_lt_upper_bound; [apply Z.pow_pos_nonneg; lia|].
        rewrite <- Z.pow_add_r by lia.
        assert (2 ^ Zdigits2 mx <= 2 ^ (n1 + 53))
          by (apply Z.pow_le_mono_r; unfold n1; lia).
        lia.
    - rewrite Hm. split; [|lia]. split; [lia|].
      assert (2 ^ Zdigits2 mx <= 2 ^ 53)
        by (apply Z.pow_le_mono_r; unfold n1 in *; lia).
      lia. }
  destruct H1 as [Hm1 He1].
  set (m2 := round_nearest_even (shr_m mrs') (loc_of_shr_record mrs')).
  pose proof (round_nearest_even_ge (shr_m mrs') (loc_of_shr_record mrs')) as Hr.
  fold m2 in Hr.
  assert (Hm2 : 0 <= m2 < 2 ^ 54) by (change (2 ^ 54) with (2 * 2 ^ 53); lia).
  set (n2 := Z.max (Zdigits2 m2 + e' - 53) (3 - 1024 - 53) - e').
  assert (Hrec2 : 0 <= shr_m (shr_record_of_loc m2 loc_Exact)) by (cbn; lia).
  destruct (shr_m_spec (shr_record_of_loc m2 loc_Exact) e' n2 Hrec2) as [Hm' He'].
  destruct (shr (shr_record_of_loc m2 loc_Exact) e' n2) as [mrs'' e''] eqn:E2.
  cbn [fst snd shr_record_of_loc shr_m] in Hm', He'.
  pose proof (Zdigits2_le m2 54 Hm2 ltac:(lia)) as Hd2.
  assert (He'' : e'' <= 971).
  { rewrite He'. destruct (0 <? n2); unfold n2, n1 in *; lia. }
  assert (H3 : 0 <= shr_m mrs'').
  { rewrite Hm'. destruct (Z.ltb_spec 0 n2); [|lia].
    apply Z.div_pos; [lia | apply Z.pow_pos_nonneg; lia]. }
  destruct (shr_m mrs'') as [|m|m]; [reflexivity | | lia].
  replace (e'' <=? 1024 - 53) with true by (symmetry; apply Z.leb_le; lia).
  reflexivity.
Qed.

Lemma shl_align_mag (m : positive) (e ez : Z) :
  ez <= e ->
  Zpos (digits2_pos (fst (shl_align m e ez))) + ez = Zpos (digits2_pos m) + e.
Proof.
  intros Hle. unfold shl_align. destruct (ez - e) as [|d|d] eqn:Ed; cbn [fst]; try lia.
  rewrite digits2_pos_shift. lia.
Qed.

Lemma binary_round_no_overflow (sx : bool) (m : positive) (e : Z) :
  Zpos (digits2_pos m) + e <= 1023 ->
  is_finite (binary_round prec64 emax64 sx m e) = true.
Proof.
  intros Hmag. unfold binary_round, shl_align.
  set (e' := fexp prec64 emax64 (Zpos (digits2_pos m) + e)).
  destruct (e' - e) as [|d|d] eqn:Ed.
  - apply binary_round_aux_no_overflow; cbn [Zdigits2]; [lia | fold e'; lia | exact Hmag].
  - apply binary_round_aux_no_overflow; cbn [Zdigits2]; [lia | fold e'; lia | exact Hmag].
  - assert (Hd : Zpos (digits2_pos (Pos.iter xO m d)) + e' = Zpos (digits2_pos m) + e)
      by (rewrite digits2_pos_shift; lia).
    apply binary_round_aux_no_overflow; cbn [Zdigits2]; [lia | rewrite Hd; fold e'; lia | lia].
Qed.

(** The difference of two such numbers is finite. *)
Lemma sub_int_like_finite (x y : float64) :
  int_like x -> int_like y -> is_finite (Num.sub x y) = true.
Proof.
  intros [-> | (m1 & e1 & -> & Hd1 & He1)] [-> | (m2 & e2 & -> & Hd2 & He2)];
    cbn [Num.sub Binary64 SFsub]; try reflexivity.
  unfold cond_Zopp.
  set (ez := Z.min e1 e2).
  pose proof (shl_align_mag m1 e1 ez ltac:(unfold ez; lia)) as M1.
  pose proof (shl_align_mag m2 e2 ez ltac:(unfold ez; lia)) as M2.
  set (a := fst (shl_align m1 e1 ez)) in *. set (b := fst (shl_align m2 e2 ez)) in *.
  destruct (Zpos a - Zpos b) as [|M|M] eqn:ED; cbn [binary_normalize]; [reflexivity | |].
  - apply binary_round_no_overflow.
    pose proof (Zdigits2_mono (Zpos M) (Zpos a) ltac:(lia) ltac:(lia)) as Hle.
    cbn [Zdigits2] in Hle. lia.
  - apply binary_round_no_overflow.
    pose proof (Zdigits2_mono (Zpos M) (Zpos b) ltac:(lia) ltac:(lia)) as Hle.
    cbn [Zdigits2] in Hle. lia.
Qed.

Lemma mul_one_add_zero (x : float64) :
  int_like x ->
  Num.add (Num.mul x (S754_finite false 4503599627370496 (-52))) (S754_zero false) = x.
Proof.
  intros [-> | (m & e & -> & Hd & He)]; [reflexivity|].
  rewrite SFmul_one by assumption. reflexivity.
Qed.

(** [np.linspace(0, n - 1, num=n)] in binary64 is [0.0, 1.0, ..., n - 1]
    exactly, for [n] below [2^53]. *)
Lemma linspace_binary64 (n j : nat) :
  Z.of_nat n < 2 ^ 53 -> (j < n)%nat ->
  nth j (linspace (F := float64) (of_int 0) (of_int (Z.of_nat n - 1)) n) (of_int 0)
  = of_int (Z.of_nat j).
Proof.
  intros Hn Hj. unfold linspace, float64.
  destruct n as [|[|n]]; [lia | |].
  - replace j with O by lia. reflexivity.
  - replace (Z.of_nat (S (S n)) - 1) with (Z.of_nat (S n)) by lia.
    assert (Hstep : Num.div (Num.sub (of_int (Z.of_nat (S n))) (of_int 0))
                            (of_int (Z.of_nat (S n)))
                    = S754_finite false 4503599627370496 (-52)).
    { destruct (of_int_pos_form (Pos.of_succ_nat n)) as (m & e & E & _).
      { rewrite Zpos_P_of_succ_nat. lia. }
      change (Z.of_nat (S n)) with (Zpos (Pos.of_succ_nat n)).
      unfold float64 in *. rewrite E. change (of_int 0) with (S754_zero false).
      cbn [Num.sub Binary64 SFsub]. apply SFdiv_self. }
    rewrite Hstep.
    destruct (Nat.eq_dec j (S n)) as [-> | Hne].
    + rewrite app_nth2 by (rewrite length_map, length_seq; lia).
      rewrite length_map, length_seq, Nat.sub_diag. reflexivity.
    + rewrite app_nth1 by (rewrite length_map, length_seq; lia).
      rewrite nth_map_seq by lia.
      apply mul_one_add_zero. apply of_int_int_like. lia.
Qed.

Lemma half_int_like (py : interp) (n : Z) :
  0 <= n < 2 ^ 53 -> int_like (half (F := float64) py n).
Proof.
  intros Hn. destruct py; cbn [half].
  - apply of_int_int_like. Z.div_mod_to_equations. lia.
  - change (of_int (F := float64) 2) with (S754_finite false 4503599627370496 (-51)).
    destruct n as [|p|p]; [left; reflexivity | | lia].
    destruct (of_int_pos_form p ltac:(lia)) as (m & e & E & Hd & He).
    rewrite E, SFdiv_two by assumption.
    right. exists m, (e - 1). split; [reflexivity|]. split; [exact Hd | lia].
Qed.

(** The offsets of every pixel from the centre are finite numbers. *)
Lemma pixel_dx_finite (py : interp) (w j : nat) :
  Z.of_nat w < 2 ^ 53 -> (j < w)%nat -> is_finite (pixel_dx py w j) = true.
Proof.
  intros Hw Hj. unfold pixel_dx, grid_col. rewrite linspace_binary64 by assumption.
  apply sub_int_like_finite; [apply of_int_int_like | apply half_int_like]; lia.
Qed.

Lemma pixel_dy_finite (py : interp) (h i : nat) :
  Z.of_nat h < 2 ^ 53 -> (i < h)%nat -> is_finite (pixel_dy py h i) = true.
Proof.
  intros Hh Hi. unfold pixel_dy, grid_row. rewrite linspace_binary64 by assumption.
  apply sub_int_like_finite; [apply of_int_int_like | apply half_int_like]; lia.
Qed.
End GridBinary64.

(* ================================================================== *)
(** * The depth projector in binary64 *)

Section CentreBinary64.
Import Py Num Np SensorModel.

(** C4.  The image centre, in the binary64 arithmetic numpy computes
    with.  For a camera with a positive focal length and a depth image of
    the configured shape, at a pixel [(row, col)] whose offsets from the
    centre, [cols - center_x] and [rows - center_y] as the code computes
    them, are both zero and whose depth is a finite number, [depth_to_3d]
    returns [x] and [y] equal to zero and [z] equal to the depth value
    itself, bit for bit: the divisor is exactly 1.0 and the division by
    1.0 is exact. *)
Theorem center_pixel_projection_binary64
    (py : interp) (self : attrs float64) (img_depth : ndarray2 float64)
    (w h : nat) (f : float64) (row col : nat) :
  camera_params self = Some (w, h, f) ->
  is_positive f = true ->
  len0 img_depth = h -> len1 img_depth = w ->
  row < h -> col < w ->
  well_formed (at2 img_depth row col) = true ->
  is_finite (at2 img_depth row col) = true ->
  is_zero (pixel_dx py w col) = true ->
  is_zero (pixel_dy py h row) = true ->
  exists pc,
    depth_to_3d py self img_depth = Ok pc /\
    is_zero (at3 pc row col 0) = true /\
    is_zero (at3 pc row col 1) = true /\
    at3 pc row col 2 = at2 img_depth row col.
Proof.
  intros Hcp Hf H0 H1 Hrow Hcol Hwf Hfin Hdx Hdy.
  destruct (@depth_to_3d_at _ _ py self img_depth w h f Hcp H0 H1)
    as (pc & Hok & _ & _ & _ & Hat).
  destruct (Hat row col Hrow Hcol) as (Hx & Hy & Hz).
  assert (Ez : pixel_z py w h f (at2 img_depth row col) row col = at2 img_depth row col).
  { unfold pixel_z, pixel_divisor, pixel_distance.
    rewrite (centre_divisor f _ _ Hf Hdx Hdy). apply div_by_one. exact Hwf. }
  exists pc. split; [exact Hok|].
  rewrite Hx, Hy, Hz. unfold pixel_x, pixel_y. rewrite Ez.
  split; [apply zero_times_offset_over_f; assumption|].
  split; [apply zero_times_offset_over_f; assumption|reflexivity].
Qed.

Lemma center_pixel_projection_binary64_witness :
  exists pc,
    depth_to_3d Python2 (self Scenario.ready) Scenario.depth = Ok pc /\
    is_zero (at3 pc 1 2 0) = true /\
    is_zero (at3 pc 1 2 1) = true /\
    at3 pc 1 2 2 = at2 Scenario.depth 1 2.
Proof.
  apply (center_pixel_projection_binary64 Python2 (self Scenario.ready)
           Scenario.depth 4 2 (of_int 1) 1 2);
    try lia; vm_compute; reflexivity.
Defined.
End CentreBinary64.

Section ZeroDepthBinary64.
Import Py Num Np SensorModel.

(** Zero depth in binary64, for a grid whose offsets are finite: every
    coordinate is a zero. *)
Lemma zero_depth_gives_zeros_binary64
    (py : interp) (self : attrs float64) (img_depth : ndarray2 float64)
    (w h : nat) (f : float64) :
  camera_params self = Some (w, h, f) ->
  is_positive f = true -> is_finite f = true ->
  len0 img_depth = h -> len1 img_depth = w ->
  (forall j, j < w -> is_finite (pixel_dx py w j) = true) ->
  (forall i, i < h -> is_finite (pixel_dy py h i) = true) ->
  (forall i j, i < h -> j < w -> is_zero (at2 img_depth i j) = true) ->
  exists pc,
    depth_to_3d py self img_depth = Ok pc /\
    forall i j k, i < h -> j < w -> k < 3 -> is_zero (at3 pc i j k) = true.
Proof.
  intros Hcp Hf Hff H0 H1 Hdx Hdy Hzero.
  destruct (@depth_to_3d_at _ _ py self img_depth w h f Hcp H0 H1)
    as (pc & Hok & _ & _ & _ & Hat).
  exists pc. split; [exact Hok|]. intros i j k Hi Hj Hk.
  destruct (Hat i j Hi Hj) as (Hx & Hy & Hz).
  assert (Ez : is_zero (pixel_z py w h f (at2 img_depth i j) i j) = true).
  { unfold pixel_z, pixel_divisor, pixel_distance. apply zero_over_positive; [auto|].
    apply divisor_positive; auto. }
  destruct k as [|[|[|k]]]; [| | | lia].
  - rewrite Hx. unfold pixel_x. apply zero_times_finite_over_f; auto.
  - rewrite Hy. unfold pixel_y. apply zero_times_finite_over_f; auto.
  - rewrite Hz. exact Ez.
Qed.

End ZeroDepthBinary64.

Section ZeroDepthFrame.
Import Py Num Np IEEE Struct Ros SensorModel.

Lemma rounded_pos_is_positive (k : float64) : rounded_pos false k -> is_positive k = true.
Proof. intros [(m & e & -> & _) | ->]; reflexivity. Qed.


End ZeroDepthFrame.

(* ================================================================== *)
(** * The published message *)

Section MessageLayout.
Import Py Num Np IEEE Struct Ros SensorModel.

(** The message [callback] builds from the three arrays. *)
Lemma callback_message (py : interp) (fr : UeSensorRaw) (wd : World)
      (img_color : ndarray3 Z) (img_depth : ndarray2 float64)
      (pc : ndarray3 float64) (rgb : ndarray2 float64) (data : ndarray3 float64)
      (topic : string) :
  color_data fr = Ok img_color ->
  depth_data fr = Ok img_depth ->
  depth_to_3d py (self wd) img_depth = Ok pc ->
  rgb_to_float img_color = Ok rgb ->
  dstack [pc; atleast_3d rgb] = Ok data ->
  pub (self wd) = Some topic ->
  exists wd' msg,
    callback py fr wd = (Ok tt, wd') /\
    published (ros wd') = published (ros wd) ++ [msg] /\
    Ros.data msg = tostring data /\
    width msg = dim0 pc /\ height msg = dim1 pc /\
    point_step msg = 16 /\ row_step msg = 16 * dim0 pc /\
    fields msg = [ Build_PointField "x" 0 FLOAT32 1;
                   Build_PointField "y" 4 FLOAT32 1;
                   Build_PointField "z" 8 FLOAT32 1;
                   Build_PointField "rgb" 12 FLOAT32 1 ].
Proof.
  intros Hc Hd Hpc Hrgb Hst Hpub.
  unfold callback, mbind, lift, get_self, getattr, publish, on_ros.
  rewrite Hc, Hd, Hpc, Hrgb, Hst, Hpub.
  do 2 eexists. split; [reflexivity|].
  cbn [ros published]. split; [reflexivity|].
  cbn [Ros.data width height point_step row_step fields].
  repeat split; reflexivity.
Qed.


End MessageLayout.


(* ================================================================== *)
(** * Frames, one after the other *)

Section FrameSequence.
Import Py Num Np IEEE Struct Ros SensorModel.

(** X2.  A frame is published once or not at all.  For every frame and
    every state of the node, [callback] either returns normally, having
    appended exactly one message to the published ones (stamped with the
    time stamp of the frame, frame id [camera], little-endian, 16 bytes
    per point, [row_step = 16 * width], [is_dense] set) and changed
    nothing else (attributes, log, topic tables), or it raises and leaves
    the node and the ROS side exactly as they were: no partial message is
    ever published. *)
Theorem callback_publishes_once_or_nothing
    (py : interp) (fr : UeSensorRaw) (wd : World) :
  match callback py fr wd with
  | (Ok _, wd') =>
      self wd' = self wd /\
      log (ros wd') = log (ros wd) /\
      publishers (ros wd') = publishers (ros wd) /\
      subscribers (ros wd') = subscribers (ros wd) /\
      exists msg,
        published (ros wd') = published (ros wd) ++ [msg] /\
        stamp msg = header_stamp fr /\
        frame_id msg = "camera"%string /\
        is_bigendian msg = false /\
        point_step msg = 16 /\
        row_step msg = 16 * width msg /\
        is_dense msg = true
  | (Raise _, wd') => wd' = wd
  end.
Proof.
  unfold callback, mbind, lift, get_self, getattr, publish, on_ros.
  destruct (color_data fr); [|reflexivity].
  destruct (depth_data fr); [|reflexivity].
  destruct (depth_to_3d py (self wd) _); [|reflexivity].
  destruct (rgb_to_float _); [|reflexivity].
  destruct (dstack _); [|reflexivity].
  destruct (pub (self wd)); [|reflexivity].
  cbn [self ros log publishers subscribers published].
  repeat (split; [reflexivity|]).
  eexists. repeat split; reflexivity.
Qed.

(** What one frame does to the ROS side, for the induction over the
    frames. *)
Lemma callback_step (py : interp) (fr : UeSensorRaw) (wd : World) :
  match callback py fr wd with
  | (Ok _, wd') =>
      self wd' = self wd /\
      subscribers (ros wd') = subscribers (ros wd) /\
      map stamp (published (ros wd'))
      = map stamp (published (ros wd)) ++ [header_stamp fr]
  | (Raise _, wd') => wd' = wd
  end.
Proof.
  unfold callback, mbind, lift, get_self, getattr, publish, on_ros.
  destruct (color_data fr); [|reflexivity].
  destruct (depth_data fr); [|reflexivity].
  destruct (depth_to_3d py (self wd) _); [|reflexivity].
  destruct (rgb_to_float _); [|reflexivity].
  destruct (dstack _); [|reflexivity].
  destruct (pub (self wd)); [|reflexivity].
  cbn [self ros subscribers published].
  split; [reflexivity|]. split; [reflexivity|].
  rewrite map_app. reflexivity.
Qed.

(** Whether a frame is processed depends on the attributes of the node
    only, not on what was logged or published before. *)
Lemma callback_outcome_of_self (py : interp) (fr : UeSensorRaw) (wd1 wd2 : World) :
  self wd1 = self wd2 ->
  is_ok (fst (callback py fr wd1)) = is_ok (fst (callback py fr wd2)).
Proof.
  intros E. unfold callback, mbind, lift, get_self, getattr, publish, on_ros.
  rewrite E.
  destruct (color_data fr); [|reflexivity].
  destruct (depth_data fr); [|reflexivity].
  destruct (depth_to_3d py (self wd2) _); [|reflexivity].
  destruct (rgb_to_float _); [|reflexivity].
  destruct (dstack _); [|reflexivity].
  destruct (pub (self wd2)); reflexivity.
Qed.

Lemma subscribed_iff (s : Ros.state) :
  In "ue_sensor_raw"%string (subscribers s) <->
  existsb (String.eqb "ue_sensor_raw") (subscribers s) = true.
Proof.
  rewrite existsb_exists. split.
  - intros Hin. eexists. split; [exact Hin | apply String.eqb_refl].
  - intros (t & Hin & Ht). apply String.eqb_eq in Ht. now subst t.
Qed.

(** X3.  One cloud per good frame, in arrival order.  For a node that
    has subscribed to [ue_sensor_raw], [spin] over any sequence of frames
    returns normally, and the time stamps of the clouds it publishes are,
    in order, the time stamps of exactly those frames on which [callback]
    returns normally: a frame that raises is dropped and does not keep
    the later frames from being processed. *)
Theorem spin_publishes_in_arrival_order
    (py : interp) (frames : list UeSensorRaw) (wd : World) :
  In "ue_sensor_raw"%string (subscribers (ros wd)) ->
  let good := fun fr => is_ok (fst (callback py fr wd)) in
  let wd' := snd (spin py frames wd) in
  fst (spin py frames wd) = Ok tt /\
  self wd' = self wd /\
  map stamp (published (ros wd')) =
    map stamp (published (ros wd)) ++ map header_stamp (filter good frames).
Proof.
  intros Hsub good wd'. subst wd'.
  assert (Hgen : forall wd1,
    self wd1 = self wd ->
    In "ue_sensor_raw"%string (subscribers (ros wd1)) ->
    fst (spin py frames wd1) = Ok tt /\
    self (snd (spin py frames wd1)) = self wd /\
    map stamp (published (ros (snd (spin py frames wd1)))) =
      map stamp (published (ros wd1)) ++ map header_stamp (filter good frames)).
  { induction frames as [|fr rest IH]; intros wd1 Hself Hin.
    - cbn. rewrite app_nil_r. auto.
    - cbn [spin filter]. unfold mbind, deliver.
      apply subscribed_iff in Hin as Hin'. rewrite Hin'.
      assert (Hg : good fr = is_ok (fst (callback py fr wd1)))
        by (apply callback_outcome_of_self; symmetry; exact Hself).
      pose proof (callback_step py fr wd1) as Hcb.
      destruct (callback py fr wd1) as [[u|e] wd2]; cbn [fst is_ok] in Hg; rewrite Hg.
      + destruct Hcb as (S1 & B1 & P1).
        destruct (IH wd2) as (R1 & R2 & R3).
        { congruence. } { rewrite B1. exact Hin. }
        split; [exact R1|]. split; [exact R2|].
        rewrite R3, P1. cbn [map]. rewrite <- app_assoc. reflexivity.
      + subst wd2. unfold rospy_log, on_ros.
        match goal with |- context [spin py rest ?w] => destruct (IH w) as (R1 & R2 & R3) end.
        { exact Hself. } { exact Hin. }
        split; [exact R1|]. split; [exact R2|]. exact R3. }
  apply Hgen; [reflexivity | exact Hsub].
Qed.

Lemma spin_publishes_in_arrival_order_witness :
  map stamp
    (published
       (ros (snd (spin Python2
                    [Scenario.stamped 7; Scenario.broken; Scenario.stamped 9]
                    Scenario.ready))))
  = [7; 9]%Z.
Proof.
  destruct (spin_publishes_in_arrival_order Python2
              [Scenario.stamped 7; Scenario.broken; Scenario.stamped 9]
              Scenario.ready)
    as (_ & _ & H).
  - left. reflexivity.
  - rewrite H. vm_compute. reflexivity.
Defined.
End FrameSequence.

(* ================================================================== *)
(** * Start-up *)

Section StartUp.
Import Py Num Np IEEE Struct Ros SensorModel.

(** [s[:-2]] removes the two characters [join] left at the end. *)
Lemma drop_last2_app (s : string) (c1 c2 : ascii) :
  drop_last2 (s ++ String c1 (String c2 EmptyString)) = s.
Proof.
  unfold drop_last2.
  induction s as [|c s IH]; [reflexivity|].
  cbn [String.append String.length].
  assert (Hlen : String.length (s ++ String c1 (String c2 EmptyString))
                 = S (S (String.length s))).
  { clear IH. induction s as [|c' s IH]; [reflexivity|]. cbn. now rewrite IH. }
  rewrite Hlen in *. cbn [Nat.sub] in *. rewrite Nat.sub_0_r in IH.
  cbn [String.substring]. f_equal.
  destruct s as [|c' s']; [reflexivity|].
  cbn [String.length Nat.sub]. exact IH.
Qed.

Lemma append_assoc (a b c : string) : ((a ++ b) ++ c = a ++ (b ++ c))%string.
Proof. induction a as [|x a IH]; [reflexivity|]. cbn. now rewrite IH. Qed.

(** The text handed to [rospy.logfatal] for a model name that is not
    implemented. *)
Lemma unknown_model_text (name : string) :
  drop_last2 ("Unknown sensor model '" ++ name ++ "'. Implemented models are: "
              ++ String.concat EmptyString
                   (map (fun m : string * string => "'" ++ fst m ++ "', ") model_types))%string
  = ("Unknown sensor model '" ++ name
     ++ "'. Implemented models are: 'ground_truth'")%string.
Proof.
  cbn [model_types map fst String.concat].
  change ("'" ++ "ground_truth" ++ "', ")%string with ("'ground_truth'" ++ ", ")%string.
  rewrite <- (append_assoc "'. Implemented models are: " "'ground_truth'" ", ").
  rewrite <- (append_assoc name _ ", ").
  rewrite <- (append_assoc "Unknown sensor model '" _ ", ").
  rewrite drop_last2_app.
  reflexivity.
Qed.

(** X4.  The model name at start-up.  Whatever the private parameter
    [~model_type] (absent: [ground_truth]) and whenever the camera service
    answers, [__init__] returns normally and subscribes to
    [ue_sensor_raw].  For the name [ground_truth] it assigns [self.model]
    and logs the two information lines only.  For every other name, it
    leaves [self.model] as it was (unassigned on a fresh object) and the
    log gets, before the two information lines, one entry of severity
    FATAL with the text
    [Unknown sensor model '<name>'. Implemented models are: 'ground_truth']
    (the list of models with its last two characters, a comma and a
    space, cut off). *)
Theorem init_selects_model_or_logs_fatal
    (param : option string) (resp : GetCameraParamsResponse) (wd : World) :
  let name := match param with Some s => s | None => "ground_truth"%string end in
  exists wd',
    __init__ param (Ok resp) wd = (Ok tt, wd') /\
    subscribers (ros wd') = subscribers (ros wd) ++ ["ue_sensor_raw"%string] /\
    if String.eqb name "ground_truth" then
      model (self wd') = Some "ground_truth"%string /\
      log (ros wd') =
        log (ros wd)
        ++ [(Info, "Waiting for unreal_ros_client camera params ..."%string);
            (Info, "Sensor model setup cleanly."%string)]
    else
      model (self wd') = model (self wd) /\
      log (ros wd') =
        log (ros wd)
        ++ [(Fatal, ("Unknown sensor model '" ++ name
                     ++ "'. Implemented models are: 'ground_truth'")%string);
            (Info, "Waiting for unreal_ros_client camera params ..."%string);
            (Info, "Sensor model setup cleanly."%string)].
Proof.
  intros name. unfold __init__. fold name.
  rewrite unknown_model_text.
  cbn [model_types dict_get].
  rewrite (String.eqb_sym "ground_truth" name).
  destruct (String.eqb name "ground_truth") eqn:E.
  - change (String.eqb "ground_truth" "NotFound") with false. cbv iota.
    match goal with |- context [rospy_log Info ?t] => generalize t end.
    match goal with |- context [rospy_log Info ?t] => generalize t end.
    intros waiting ready.
    unfold mbind, lift, set_self, rospy_log, advertise, subscribe, on_ros.
    cbn [self ros]. eexists. split; [reflexivity|].
    cbn [self ros model log subscribers]. rewrite <- app_assoc.
    repeat split; reflexivity.
  - change (String.eqb "NotFound" "NotFound") with true. cbv iota.
    match goal with |- context [rospy_log Fatal ?t] => generalize t end. intros text.
    match goal with |- context [rospy_log Info ?t] => generalize t end.
    match goal with |- context [rospy_log Info ?t] => generalize t end.
    intros waiting ready.
    unfold mbind, lift, set_self, rospy_log, advertise, subscribe, on_ros.
    cbn [self ros]. eexists. split; [reflexivity|].
    cbn [self ros model log subscribers]. rewrite <- !app_assoc.
    repeat split; reflexivity.
Qed.

(** X5.  A failing camera service stops the start-up.  If the call of
    [get_camera_params] raises, [__init__] raises the same exception at
    that point: [camera_params], [pub] and [sub] are never assigned, no
    publisher and no subscriber is registered, and the main program ends
    with that exception before [rospy.spin()]: no frame is processed and
    nothing is published, whatever frames arrive. *)
Theorem service_failure_stops_the_node
    (py : interp) (param : option string) (e : exn)
    (frames : list UeSensorRaw) (wd : World) :
  exists wd',
    __init__ param (Raise e) wd = (Raise e, wd') /\
    main py param (Raise e) frames wd = (Raise e, wd') /\
    camera_params (self wd') = camera_params (self wd) /\
    pub (self wd') = pub (self wd) /\
    sub (self wd') = sub (self wd) /\
    publishers (ros wd') = publishers (ros wd) /\
    subscribers (ros wd') = subscribers (ros wd) /\
    published (ros wd') = published (ros wd).
Proof.
  unfold main, __init__.
  match goal with |- context [String.eqb ?a ?b] => generalize (String.eqb a b) end.
  match goal with |- context [rospy_log Fatal ?t] => generalize t end.
  intros text unknown.
  match goal with |- context [rospy_log Info ?t] => generalize t end.
  match goal with |- context [rospy_log Info ?t] => generalize t end.
  intros waiting ready.
  unfold mbind, lift, set_self, rospy_log, advertise, subscribe, on_ros.
  destruct unknown; cbn [self ros]; eexists; (split; [reflexivity|]);
    (split; [reflexivity|]);
    cbn [self ros camera_params pub sub publishers subscribers published];
    repeat split; reflexivity.
Qed.
End StartUp.

(* ================================================================== *)
(** * The projection of a depth image of any shape *)

Section Broadcasting.
Import Py Num Np SensorModel.
Context {F : Type} `{Float F}.

Lemma bidx_idem (n i : nat) : bidx n (bidx n i) = bidx n i.
Proof. unfold bidx. destruct (Nat.eqb n 1); reflexivity. Qed.

(** X6.  [depth_to_3d] on a depth image of any shape, in any arithmetic.
    The code never compares the shape of the image with the camera
    parameters: the image is broadcast against the [(h, w)] pixel grid.
    When each axis of the image has the length of the grid's axis, or one
    of the two lengths is 1, the result has the broadcast shape
    [(n0, n1, 3)], and its element [(i, j)] is computed by the pixel
    formulas from the depth value and the grid point that broadcasting
    pairs (index 0 on an axis of length 1, the index itself otherwise):
    a one-row image is used for every grid row, and a grid of one row is
    reused for every row of a taller image.  Otherwise the division
    raises [ValueError]. *)
Theorem depth_to_3d_broadcasts_depth
    (py : interp) (self : attrs F) (img_depth : ndarray2 F) (w h : nat) (f : F) :
  camera_params self = Some (w, h, f) ->
  match broadcast_dim (len0 img_depth) h, broadcast_dim (len1 img_depth) w with
  | Some n0, Some n1 =>
      exists pc,
        depth_to_3d py self img_depth = Ok pc /\
        dim0 pc = n0 /\ dim1 pc = n1 /\ dim2 pc = 3 /\
        forall i j, i < n0 -> j < n1 ->
          let d := at2 img_depth (bidx (len0 img_depth) i) (bidx (len1 img_depth) j) in
          let row := bidx h i in
          let col := bidx w j in
          at3 pc i j 0 = pixel_x py w h f d row col /\
          at3 pc i j 1 = pixel_y py w h f d row col /\
          at3 pc i j 2 = pixel_z py w h f d row col
  | _, _ => depth_to_3d py self img_depth = Raise ValueError
  end.
Proof.
  intros Hcp. unfold depth_to_3d. rewrite Hcp.
  unfold meshgrid. rewrite !linspace_length.
  rewrite zip2d_same by reflexivity. cbn [bind len0 len1 map2d].
  unfold zip2d. cbn [len0 len1 map2d].
  destruct (broadcast_dim (len0 img_depth) h) as [n0|] eqn:E0; [|reflexivity].
  destruct (broadcast_dim (len1 img_depth) w) as [n1|] eqn:E1; [|reflexivity].
  cbn [bind len0 len1].
  rewrite (broadcast_dim_again _ _ E0), (broadcast_dim_again _ _ E1).
  unfold dstack, dstack_from, concat_axis2, atleast_3d.
  cbn [bind dim0 dim1 dim2 len0 len1 map2d].
  rewrite !Nat.eqb_refl. cbn [andb bind dim0 dim1 dim2].
  rewrite !Nat.eqb_refl. cbn [andb bind].
  eexists. split; [reflexivity|]. cbn [dim0 dim1 dim2 at3].
  do 3 (split; [reflexivity|]).
  intros i j Hi Hj.
  cbn [Nat.ltb Nat.leb Nat.add Nat.sub at2 map2d len0 len1].
  rewrite !(bidx_lt Hi), !(bidx_lt Hj), !bidx_idem. repeat split; reflexivity.
Qed.
End Broadcasting.

Section BroadcastingScenario.
Import Py Num Np SensorModel.

Lemma depth_to_3d_broadcasts_depth_witness :
  exists pc,
    depth_to_3d Python2 (self Scenario.ready) Scenario.depth_row = Ok pc /\
    dim0 pc = 2 /\ dim1 pc = 4 /\ dim2 pc = 3 /\
    at3 pc 1 3 2
    = pixel_z Python2 4 2 (of_int 1) (at2 Scenario.depth_row 0 3) 1 3.
Proof.
  assert (Hcp : camera_params (self Scenario.ready) = Some (4, 2, of_int 1))
    by (vm_compute; reflexivity).
  destruct (depth_to_3d_broadcasts_depth Python2 (self Scenario.ready)
              Scenario.depth_row 4 2 (of_int 1) Hcp)
    as (pc & Hok & D0 & D1 & D2 & Hat).
  exists pc. do 4 (split; [assumption|]).
  destruct (Hat 1 3 (le_n 2) (le_n 4)) as (_ & _ & Hz). exact Hz.
Defined.
End BroadcastingScenario.

(* ================================================================== *)
(** * The geometry of the projection, over the reals *)

Section Geometry.
Import Py Num Np SensorModel.
Local Open Scope R_scope.

Lemma ray_norm_pos (dx dy f : R) : 0 < f -> 0 < R_sqrt.sqrt (dx * dx + dy * dy + f * f).
Proof. intros Hf. apply sqrt_lt_R0. nra. Qed.

(** For a positive focal length the divisor of [points_z] is the length
    of [(dx, dy, f)] over [f]. *)
Lemma ray_factor_closed (dx dy f : R) :
  0 < f -> ray_factor dx dy f = R_sqrt.sqrt (dx * dx + dy * dy + f * f) / f.
Proof.
  intros Hf.
  pose proof (ray_factor_ge_1 dx dy f) as Hk.
  pose proof (@ray_factor_sqr dx dy f ltac:(lra)) as Hk2.
  pose proof (ray_norm_pos dx dy f Hf) as Hn0.
  assert (Hn : R_sqrt.sqrt (dx * dx + dy * dy + f * f)
               * R_sqrt.sqrt (dx * dx + dy * dy + f * f) = dx * dx + dy * dy + f * f)
    by (apply sqrt_def; nra).
  set (n := R_sqrt.sqrt (dx * dx + dy * dy + f * f)) in *.
  apply Rsqr_inj.
  - lra.
  - unfold Rdiv. apply Rmult_le_pos; [lra|]. left. apply Rinv_0_lt_compat. exact Hf.
  - unfold Rsqr. rewrite Hk2.
    replace (n / f * (n / f)) with (n * n / (f * f)) by (field; lra).
    rewrite Hn. field. lra.
Qed.

Lemma ray_factor_opp (dx dy f : R) : f <> 0 -> ray_factor dx dy (- f) = ray_factor dx dy f.
Proof.
  intros Hf. unfold ray_factor. do 2 f_equal. field. exact Hf.
Qed.




End Geometry.

(* ================================================================== *)
(** * The image centre and the interpreter *)

Section ImageCentre.
Import Py Num Np SensorModel.
Local Open Scope R_scope.

(** The offset of index [k] on an axis of length [n] is zero. *)
Lemma offset_zero_iff (py : interp) (n k : nat) :
  IZR (Z.of_nat k) - center py (Z.of_nat n) = 0 <->
  match py with
  | Python2 => k = Nat.div n 2
  | Python3 => (2 * k)%nat = n
  end.
Proof.
  destruct py; cbn [center].
  - split.
    + intros E. apply Rminus_diag_uniq, eq_IZR in E.
      apply Nat2Z.inj. rewrite E, Nat2Z.inj_div. reflexivity.
    + intros ->. rewrite Nat2Z.inj_div. change (Z.of_nat 2) with 2%Z. lra.
  - split.
    + intros E.
      assert (E2 : IZR (2 * Z.of_nat k) = IZR (Z.of_nat n)) by (rewrite mult_IZR; lra).
      apply eq_IZR in E2. lia.
    + intros <-. rewrite Nat2Z.inj_mul, mult_IZR. change (Z.of_nat 2) with 2%Z. lra.
Qed.

Lemma zero_offset_exists_iff (py : interp) (n : nat) :
  (exists k, (k < n)%nat /\ IZR (Z.of_nat k) - center py (Z.of_nat n) = 0) <->
  match py with
  | Python2 => (0 < n)%nat
  | Python3 => (0 < n)%nat /\ Nat.even n = true
  end.
Proof.
  split.
  - intros (k & Hk & E). apply offset_zero_iff in E. destruct py; [lia|].
    split; [lia|]. apply Nat.even_spec. exists k. lia.
  - destruct py.
    + intros Hn. exists (Nat.div n 2). split.
      * apply Nat.div_lt; lia.
      * apply (offset_zero_iff Python2). reflexivity.
    + intros [Hn He]. apply Nat.even_spec in He. destruct He as [k ->].
      exists k. split; [lia|]. apply (offset_zero_iff Python3). reflexivity.
Qed.

End ImageCentre.

(* ================================================================== *)
(** * Focal length zero, in binary64 *)

Section ZeroFocalLength.
Import Py Num Np SensorModel.

(** Whatever the radial distance, dividing it by a zero focal length
    makes the divisor of [points_z] a NaN or [+inf]. *)
Lemma divisor_at_zero_focal (r : float64) (s : bool) :
  let k := pow_half (Num.add (of_int 1) (pow2 (Num.div r (S754_zero s)))) in
  k = S754_nan \/ k = S754_infinity false.
Proof.
  rewrite of_int_1.
  destruct r as [sr|sr| |sr m e]; destruct s; try destruct sr; cbn; auto.
Qed.

Lemma depth_over_nan_or_inf (d k : float64) :
  k = S754_nan \/ k = S754_infinity false ->
  Num.div d k = S754_nan \/ exists sz, Num.div d k = S754_zero sz.
Proof.
  intros [-> | ->]; destruct d as [sd|sd| |sd m e]; cbn; eauto.
Qed.

Lemma offset_over_zero_focal (z dx : float64) (s : bool) :
  z = S754_nan \/ (exists sz, z = S754_zero sz) ->
  Num.div (Num.mul z dx) (S754_zero s) = S754_nan.
Proof.
  intros [-> | [sz ->]]; destruct dx as [sx|sx| |sx m e]; reflexivity.
Qed.

(** X10.  Focal length zero.  [__init__] stores a focal length of [0.0]
    (or [-0.0]) as it stores any other, and [depth_to_3d] divides by it.
    In binary64, for a depth image of the configured shape, whatever the
    depth values and the image size, [depth_to_3d] raises nothing (numpy
    divides by zero without an exception) and every point it returns has
    [x] and [y] equal to NaN, [z] being NaN or a zero: the cloud holds no
    usable point. *)
Theorem zero_focal_length_gives_nan
    (py : interp) (self : attrs float64) (img_depth : ndarray2 float64)
    (w h : nat) (s : bool) :
  camera_params self = Some (w, h, S754_zero s) ->
  len0 img_depth = h -> len1 img_depth = w ->
  exists pc,
    depth_to_3d py self img_depth = Ok pc /\
    forall i j, i < h -> j < w ->
      at3 pc i j 0 = S754_nan /\
      at3 pc i j 1 = S754_nan /\
      (at3 pc i j 2 = S754_nan \/ is_zero (at3 pc i j 2) = true).
Proof.
  intros Hcp H0 H1.
  destruct (@depth_to_3d_at _ _ py self img_depth w h _ Hcp H0 H1)
    as (pc & Hok & _ & _ & _ & Hat).
  exists pc. split; [exact Hok|]. intros i j Hi Hj.
  destruct (Hat i j Hi Hj) as (Hx & Hy & Hz).
  assert (Hzc : pixel_z py w h (S754_zero s) (at2 img_depth i j) i j = S754_nan \/
                exists sz, pixel_z py w h (S754_zero s) (at2 img_depth i j) i j
                           = S754_zero sz).
  { unfold pixel_z, pixel_divisor. apply depth_over_nan_or_inf.
    exact (divisor_at_zero_focal (pixel_distance py w h i j) s). }
  rewrite Hx, Hy, Hz. unfold pixel_x, pixel_y.
  split; [apply offset_over_zero_focal; exact Hzc|].
  split; [apply offset_over_zero_focal; exact Hzc|].
  destruct Hzc as [E | [sz E]]; [left; exact E | right].
  exact (eq_trans (f_equal is_zero E) eq_refl).
Qed.

Lemma zero_focal_length_gives_nan_witness :
  exists pc,
    depth_to_3d Python2 Scenario.blind_self Scenario.depth = Ok pc /\
    at3 pc 1 2 0 = S754_nan /\
    at3 pc 1 2 1 = S754_nan /\
    (at3 pc 1 2 2 = S754_nan \/ is_zero (at3 pc 1 2 2) = true).
Proof.
  destruct (zero_focal_length_gives_nan Python2 Scenario.blind_self Scenario.depth
              4 2 false)
    as (pc & Hok & Hat); [reflexivity | reflexivity | reflexivity |].
  exists pc. split; [exact Hok|]. apply Hat; lia.
Defined.
End ZeroFocalLength.

(* ================================================================== *)
(** * The pixel grid in binary64 *)

Section PixelGrid.
Import Py Num Np IEEE Struct Ros SensorModel.
Local Open Scope Z_scope.

(** X11.  The pixel grid holds the pixel indices exactly.  In binary64,
    for a width and a height below [2^53], the two arrays that
    [np.meshgrid] makes of [np.linspace(0, width - 1, num=width)] and
    [np.linspace(0, height - 1, num=height)] have shape
    [(height, width)], rows first, and hold at [(i, j)] exactly the column
    index [j] and the row index [i] as floats: no sample of [linspace]
    is off by a rounding error. *)
Theorem pixel_grid_is_exact (w h i j : nat) :
  Z.of_nat w < 2 ^ 53 -> Z.of_nat h < 2 ^ 53 ->
  (i < h)%nat -> (j < w)%nat ->
  let grid :=
    meshgrid (of_int (F := float64) 0)
      (linspace (of_int 0) (of_int (Z.of_nat w - 1)) w)
      (linspace (of_int 0) (of_int (Z.of_nat h - 1)) h) in
  let cols := fst grid in
  let rows := snd grid in
  (len0 cols, len1 cols) = (h, w) /\
  (len0 rows, len1 rows) = (h, w) /\
  at2 cols i j = of_int (Z.of_nat j) /\
  at2 rows i j = of_int (Z.of_nat i).
Proof.
  intros Hw Hh Hi Hj grid cols rows. subst cols rows grid.
  unfold meshgrid. cbn [fst snd len0 len1 at2].
  rewrite !linspace_length.
  split; [reflexivity|]. split; [reflexivity|].
  split; apply linspace_binary64; assumption.
Qed.

Lemma pixel_grid_is_exact_witness :
  at2 (fst (meshgrid (of_int (F := float64) 0)
              (linspace (of_int 0) (of_int 3) 4)
              (linspace (of_int 0) (of_int 1) 2))) 1 3
  = of_int 3.
Proof.
  destruct (pixel_grid_is_exact 4 2 1 3) as (_ & _ & Hc & _); try lia.
  exact Hc.
Defined.

(** The float of a positive integer below [2^53], written out. *)
Lemma of_int_pos_explicit (p : positive) :
  Zpos p < 2 ^ 53 ->
  of_int (F := float64) (Zpos p) =
  match Zpos (digits2_pos p) - 53 with
  | Zneg k => S754_finite false (Pos.iter xO p k) (Zpos (digits2_pos p) - 53)
  | _ => S754_finite false p 0
  end.
Proof.
  intros Hp.
  pose proof (digits2_pos_le p 53 Hp ltac:(lia)) as Hd.
  cbn [of_int Binary64 binary_normalize].
  unfold binary_round, shl_align, fexp, emin, prec64, emax64.
  replace (Z.max (Zpos (digits2_pos p) + 0 - 53) (3 - 1024 - 53))
    with (Zpos (digits2_pos p) - 53) by lia.
  rewrite Z.sub_0_r.
  destruct (Zpos (digits2_pos p) - 53) as [|k|k] eqn:Ek; try lia.
  - apply binary_round_aux_full; [lia | lia].
  - apply binary_round_aux_full; [rewrite digits2_pos_shift; lia | lia].
Qed.

(** An even integer and its half have the same mantissa. *)
Lemma of_int_double (p : positive) :
  Zpos p~0 < 2 ^ 53 ->
  exists m e,
    of_int (F := float64) (Zpos p~0) = S754_finite false m e /\
    of_int (F := float64) (Zpos p) = S754_finite false m (e - 1) /\
    digits2_pos m = 53%positive /\ -52 <= e <= 0.
Proof.
  intros Hp.
  assert (Hp' : Zpos p < 2 ^ 53) by lia.
  pose proof (digits2_pos_le p~0 53 Hp ltac:(lia)) as Hd.
  rewrite (of_int_pos_explicit p~0 Hp), (of_int_pos_explicit p Hp').
  cbn [digits2_pos] in *. rewrite Pos2Z.inj_succ in *.
  destruct (Z.succ (Zpos (digits2_pos p)) - 53) as [|k|k] eqn:Ek; try lia.
  - replace (Zpos (digits2_pos p) - 53) with (Zneg 1) by lia.
    exists p~0%positive, 0. cbn [Pos.iter].
    split; [reflexivity|]. split; [f_equal; lia|].
    split; [cbn [digits2_pos]; lia | lia].
  - replace (Zpos (digits2_pos p) - 53) with (Zneg (Pos.succ k)) by lia.
    exists (Pos.iter xO (p~0)%positive k), (Z.succ (Zpos (digits2_pos p)) - 53)%Z.
    rewrite Ek. split; [reflexivity|].
    split; [rewrite Pos.iter_succ_r; f_equal; lia|].
    split; [rewrite digits2_pos_shift; cbn [digits2_pos]; lia | lia].
Qed.

(** [n / 2] of an even [n] is the same float under both interpreters. *)
Lemma half_even (n : Z) :
  0 <= n < 2 ^ 53 -> Z.even n = true ->
  half (F := float64) Python3 n = half (F := float64) Python2 n.
Proof.
  intros Hn He. unfold half.
  change (of_int (F := float64) 2) with (S754_finite false 4503599627370496 (-51)).
  destruct n as [|[p|p|]|p]; try discriminate; try lia; [reflexivity|].
  replace (Zpos p~0 / 2) with (Zpos p)
    by (apply Z.div_unique with (r := 0); lia).
  destruct (of_int_double p ltac:(lia)) as (m & e & E2 & E1 & Hd & Hr).
  unfold float64 in *. rewrite E2, E1. apply SFdiv_two; assumption.
Qed.

Lemma even_of_nat (n : nat) : Nat.even n = true -> Z.even (Z.of_nat n) = true.
Proof.
  intros He. apply Nat.even_spec in He. destruct He as [k ->].
  rewrite Nat2Z.inj_mul. apply Z.even_spec. exists (Z.of_nat k). reflexivity.
Qed.

(** X12.  Even image sizes hide the interpreter.  The script runs under
    Python 2 and Python 3, which differ in [width/2] and [height/2].  In
    binary64, for a camera whose width and height are both even (and
    below [2^53]), [depth_to_3d] returns the same result, bit for bit,
    under both interpreters for every depth image, and [callback] does the
    same to the node for every frame: the two interpreters can only
    differ on images with an odd side. *)
Theorem even_image_size_hides_the_interpreter
    (wd : World) (w h : nat) (f : float64) :
  camera_params (self wd) = Some (w, h, f) ->
  Z.of_nat w < 2 ^ 53 -> Z.of_nat h < 2 ^ 53 ->
  Nat.even w = true -> Nat.even h = true ->
  (forall img_depth,
     depth_to_3d Python3 (self wd) img_depth = depth_to_3d Python2 (self wd) img_depth) /\
  (forall fr, callback Python3 fr wd = callback Python2 fr wd).
Proof.
  intros Hcp Hw Hh Ew Eh.
  assert (E : forall img_depth,
             depth_to_3d Python3 (self wd) img_depth
             = depth_to_3d Python2 (self wd) img_depth).
  { intros img. unfold depth_to_3d. rewrite Hcp. cbv zeta.
    rewrite (half_even (Z.of_nat w)) by (try apply even_of_nat; try lia; assumption).
    rewrite (half_even (Z.of_nat h)) by (try apply even_of_nat; try lia; assumption).
    reflexivity. }
  split; [exact E|].
  intros fr. unfold callback, mbind, lift, get_self.
  destruct (color_data fr); [|reflexivity].
  destruct (depth_data fr); [|reflexivity].
  rewrite E. reflexivity.
Qed.

Lemma even_image_size_hides_the_interpreter_witness :
  callback Python3 Scenario.frame Scenario.ready
  = callback Python2 Scenario.frame Scenario.ready.
Proof.
  assert (Hcp : camera_params (self Scenario.ready) = Some (4%nat, 2%nat, of_int 1))
    by (vm_compute; reflexivity).
  destruct (even_image_size_hides_the_interpreter Scenario.ready 4 2 (of_int 1) Hcp)
    as (_ & Hcb); [lia | lia | reflexivity | reflexivity |].
  apply Hcb.
Defined.
End PixelGrid.

(* ================================================================== *)
(** * The colour packer on any image *)

Section ColourPacker.
Import Py Num Np IEEE Struct Ros SensorModel.
Local Open Scope Z_scope.

Lemma pack_int_outcome (c : Z) :
  match pack_int c with
  | Ok bs => - 2 ^ 31 <= c < 2 ^ 31 /\ bs = le_bytes32 (c mod 2 ^ 32)
  | Raise e => e = StructError /\ ~ (- 2 ^ 31 <= c < 2 ^ 31)
  end.
Proof.
  unfold pack_int.
  destruct (Z.leb_spec (- 2 ^ 31) c), (Z.ltb_spec c (2 ^ 31)); cbn [andb];
    split; auto; lia.
Qed.

Lemma pack_ints_outcome (l : list Z) :
  match pack_ints l with
  | Ok bs =>
      Forall (fun c => - 2 ^ 31 <= c < 2 ^ 31) l /\
      bs = flat_map (fun c => le_bytes32 (c mod 2 ^ 32)) l
  | Raise e =>
      e = StructError /\ Exists (fun c => ~ (- 2 ^ 31 <= c < 2 ^ 31)) l
  end.
Proof.
  induction l as [|c l IH]; cbn [pack_ints].
  - split; [constructor | reflexivity].
  - pose proof (pack_int_outcome c) as Hc.
    destruct (pack_int c) as [bs|e]; cbn [bind].
    + destruct Hc as [Hc ->].
      destruct (pack_ints l) as [rest|e]; cbn [bind].
      * destruct IH as [Hl ->]. split; [constructor; assumption | reflexivity].
      * destruct IH as [-> Hl]. split; [reflexivity | apply Exists_cons_tl; exact Hl].
    + destruct Hc as [-> Hc]. split; [reflexivity | apply Exists_cons_hd; exact Hc].
Qed.

(** What [struct.pack] wrote, [struct.unpack] reads: the buffer has the
    right length, whatever the values. *)
Lemma unpack_f_packed (l : list Z) :
  unpack_f (List.length l) (flat_map (fun c => le_bytes32 (c mod 2 ^ 32)) l)
  = Ok (map (fun c => f64_of_f32 (b32_of_bits (c mod 2 ^ 32))) l).
Proof.
  induction l as [|c l IH]; [reflexivity|].
  cbn [List.length flat_map]. unfold le_bytes32 at 1.
  cbn [app unpack_f]. rewrite IH. cbn [bind map].
  rewrite word_of_le_bytes32 by (apply Z.mod_pos_bound; lia). reflexivity.
Qed.

(** X13.  Every outcome of [rgb_to_float].  For a colour array of any
    shape and any integer values, with [word i j] the 64-bit sum
    [(r << 16) + (g << 8) + b] the code computes from the first three
    channels of pixel [(i, j)]: with fewer than three channels the
    indexing raises [IndexError]; otherwise the function returns if and
    only if every word fits a C [int], and it then returns an array of the
    shape of the image whose element [(i, j)] is the float whose binary32
    pattern is the word (taken modulo [2^32]); if some word does not fit,
    [struct.pack] raises [struct.error].  Unpacking and reshaping what was
    packed never fail. *)
Theorem rgb_to_float_outcome (img : ndarray3 Z) :
  let word := fun i j =>
    int_add (int_add (left_shift 16 (int64 (at3 img i j 0)))
                     (left_shift 8 (int64 (at3 img i j 1))))
            (int64 (at3 img i j 2)) in
  if (dim2 img <? 3)%nat then rgb_to_float img = Raise IndexError
  else
    match rgb_to_float img with
    | Ok arr =>
        len0 arr = dim0 img /\ len1 arr = dim1 img /\
        forall i j, (i < dim0 img)%nat -> (j < dim1 img)%nat ->
          - 2 ^ 31 <= word i j < 2 ^ 31 /\
          at2 arr i j = f64_of_f32 (b32_of_bits (word i j mod 2 ^ 32))
    | Raise e =>
        e = StructError /\
        exists i j, (i < dim0 img)%nat /\ (j < dim1 img)%nat /\
                    ~ (- 2 ^ 31 <= word i j < 2 ^ 31)
    end.
Proof.
  intros word.
  destruct (Nat.ltb_spec (dim2 img) 3) as [Hlt | Hge].
  - unfold rgb_to_float, channel.
    destruct (dim2 img) as [|[|[|n]]]; [reflexivity | reflexivity | reflexivity | lia].
  - unfold rgb_to_float, channel.
    destruct (Nat.ltb_spec 0 (dim2 img)); [|lia].
    destruct (Nat.ltb_spec 1 (dim2 img)); [|lia].
    destruct (Nat.ltb_spec 2 (dim2 img)); [|lia].
    cbn [bind]. unfold ravel. cbn [len0 len1 at2].
    rewrite !map_map, zip_with_map, zip_with_map.
    set (idx := indices2 (dim0 img) (dim1 img)).
    change (map _ idx) with (map (fun ij : nat * nat => word (fst ij) (snd ij)) idx).
    set (l := map (fun ij : nat * nat => word (fst ij) (snd ij)) idx).
    assert (Hlen : List.length l = (dim0 img * dim1 img)%nat)
      by (unfold l, idx; rewrite length_map, indices2_length; reflexivity).
    unfold pack_i. rewrite Nat.eqb_refl.
    pose proof (pack_ints_outcome l) as Hp.
    destruct (pack_ints l) as [bs|e]; cbn [bind].
    + destruct Hp as [Hall ->].
      rewrite unpack_f_packed. cbn [bind].
      unfold reshape. rewrite length_map, Hlen, Nat.eqb_refl.
      cbn [len0 len1 at2]. split; [reflexivity|]. split; [reflexivity|].
      intros i j Hi Hj.
      assert (Hnth : nth (i * dim1 img + j) l 0 = word i j).
      { unfold l.
        rewrite nth_indep with (d' := word (fst (0%nat, 0%nat)) (snd (0%nat, 0%nat)))
          by (fold l; rewrite Hlen; nia).
        rewrite (map_nth (fun ij : nat * nat => word (fst ij) (snd ij))).
        unfold idx. rewrite indices2_nth by assumption. reflexivity. }
      split.
      * rewrite Forall_forall in Hall. rewrite <- Hnth. apply Hall.
        apply nth_In. rewrite Hlen. nia.
      * rewrite nth_indep with (d' := f64_of_f32 (b32_of_bits (0 mod 2 ^ 32)))
          by (rewrite length_map, Hlen; nia).
        rewrite (map_nth (fun c => f64_of_f32 (b32_of_bits (c mod 2 ^ 32)))).
        rewrite Hnth. reflexivity.
    + destruct Hp as [-> Hex]. split; [reflexivity|].
      apply Exists_exists in Hex. destruct Hex as (c & Hin & Hc).
      unfold l in Hin. apply in_map_iff in Hin. destruct Hin as (ij & <- & Hij).
      apply indices2_in in Hij. destruct Hij as [Hi Hj].
      exists (fst ij), (snd ij). auto.
Qed.

(** X14.  Channels after the third are ignored.  A colour frame with
    more than three channels (RGBA, say) is accepted: [rgb_to_float]
    returns for it what it returns for the image cut down to its first
    three channels, and [callback] does with the frame exactly what it
    does with the frame of the cut-down image (the same message, or the
    same exception). *)
Theorem extra_colour_channels_are_ignored
    (py : interp) (wd : World) (fr : UeSensorRaw) (img_color : ndarray3 Z) :
  color_data fr = Ok img_color ->
  (3 <= dim2 img_color)%nat ->
  rgb_to_float img_color
  = rgb_to_float (mk3 (dim0 img_color) (dim1 img_color) 3 (at3 img_color)) /\
  callback py fr wd
  = callback py {| header_stamp := header_stamp fr;
                   color_data :=
                     Ok (mk3 (dim0 img_color) (dim1 img_color) 3 (at3 img_color));
                   depth_data := depth_data fr |} wd.
Proof.
  intros Hc H3.
  assert (E : rgb_to_float img_color
              = rgb_to_float (mk3 (dim0 img_color) (dim1 img_color) 3 (at3 img_color))).
  { unfold rgb_to_float, channel. cbn [dim0 dim1 dim2 at3].
    destruct (Nat.ltb_spec 0 (dim2 img_color)); [|lia].
    destruct (Nat.ltb_spec 1 (dim2 img_color)); [|lia].
    destruct (Nat.ltb_spec 2 (dim2 img_color)); [|lia].
    reflexivity. }
  split; [exact E|].
  unfold callback, mbind, lift. cbn [color_data depth_data header_stamp].
  rewrite Hc, E. reflexivity.
Qed.

Lemma extra_colour_channels_are_ignored_witness :
  callback Python2 Scenario.rgba_frame Scenario.ready
  = callback Python2
      {| header_stamp := 0;
         color_data := Ok (mk3 2 4 3 (at3 Scenario.rgba_color));
         depth_data := Ok Scenario.depth |} Scenario.ready.
Proof.
  destruct (extra_colour_channels_are_ignored Python2 Scenario.ready Scenario.rgba_frame
              Scenario.rgba_color)
    as (_ & Hcb); [reflexivity | cbn; lia |].
  exact Hcb.
Defined.

Lemma rgb_word_zero (r g b : Z) :
  0 <= r <= 255 -> 0 <= g <= 255 -> 0 <= b <= 255 ->
  rgb_word r g b = 0 -> (r, g, b) = (0, 0, 0).
Proof.
  intros Hr Hg Hb E.
  rewrite <- (rgb_of_word_rgb_word r g b Hr Hg Hb), E. reflexivity.
Qed.

(** X15.  A packed colour is a small number.  For an image of three
    channels of values in [[0, 255]], every float [rgb_to_float] returns
    is finite and not negative: a 24-bit pattern never reads as a NaN, an
    infinity or a negative number.  It is [+0.0] for black and a positive
    number for every other colour, so that it compares equal to zero
    exactly for black. *)
Theorem packed_colour_is_a_small_number (img : ndarray3 Z) :
  dim2 img = 3%nat ->
  (forall i j k, (i < dim0 img)%nat -> (j < dim1 img)%nat -> (k < 3)%nat ->
                 0 <= at3 img i j k <= 255) ->
  exists arr,
    rgb_to_float img = Ok arr /\
    forall i j, (i < dim0 img)%nat -> (j < dim1 img)%nat ->
      is_finite (at2 arr i j) = true /\
      (at2 arr i j = S754_zero false \/ is_positive (at2 arr i j) = true) /\
      (is_zero (at2 arr i j) = true <->
       (at3 img i j 0, at3 img i j 1, at3 img i j 2) = (0, 0, 0)).
Proof.
  intros D2 Hbytes.
  destruct (rgb_to_float_at img D2 Hbytes) as (arr & Harr & _ & _ & Hat).
  exists arr. split; [exact Harr|]. intros i j Hi Hj.
  rewrite (Hat i j Hi Hj).
  assert (Hr : 0 <= at3 img i j 0 <= 255) by (apply Hbytes; lia).
  assert (Hg : 0 <= at3 img i j 1 <= 255) by (apply Hbytes; lia).
  assert (Hb : 0 <= at3 img i j 2 <= 255) by (apply Hbytes; lia).
  pose proof (rgb_word_range _ _ _ Hr Hg Hb) as Hc.
  pose proof (rgb_word_zero _ _ _ Hr Hg Hb) as Hz.
  rewrite (b32_of_bits_small _ Hc).
  destruct (rgb_word (at3 img i j 0) (at3 img i j 1) (at3 img i j 2)) as [|p|p] eqn:E;
    [| | lia].
  - cbn [f64_of_f32]. split; [reflexivity|]. split; [left; reflexivity|].
    split; [intros _; apply Hz; reflexivity | reflexivity].
  - cbn [f64_of_f32].
    pose proof (digits2_pos_le p 24 ltac:(lia) ltac:(lia)) as Hd.
    destruct (binary_round_spec false p (-149)) as [_ Hpos].
    specialize (Hpos ltac:(lia)).
    split; [apply binary_round_no_overflow; lia|].
    split; [right; apply rounded_pos_is_positive; exact Hpos|].
    split.
    + intros Hzero. exfalso.
      destruct (is_zero_inv _ Hzero) as [sz Ez].
      destruct Hpos as [(m & e & Em & _) | Ei]; congruence.
    + intros Habs.
      assert (E0 : rgb_word (at3 img i j 0) (at3 img i j 1) (at3 img i j 2) = 0)
        by (injection Habs as -> -> ->; reflexivity).
      congruence.
Qed.

Lemma packed_colour_is_a_small_number_witness :
  exists arr,
    rgb_to_float Scenario.color = Ok arr /\
    is_finite (at2 arr 1 2) = true /\
    (at2 arr 1 2 = S754_zero false \/ is_positive (at2 arr 1 2) = true).
Proof.
  destruct (packed_colour_is_a_small_number Scenario.color) as (arr & Harr & Hat).
  - reflexivity.
  - intros i j k _ _ Hk. cbn [Scenario.color at3]. destruct k as [|k]; lia.
  - exists arr. split; [exact Harr|].
    destruct (Hat 1%nat 2%nat) as (Hf & Hp & _); [cbn; lia | cbn; lia |].
    split; assumption.
Defined.
End ColourPacker.

(* ================================================================== *)
(** * Odd image sizes *)

Section OddSizes.
Import Py Num Np SensorModel.
Local Open Scope R_scope.


End OddSizes.

(* ================================================================== *)
(** * Pixels without a measurement *)

Section MissingDepth.
Import Py Num Np IEEE Struct Ros SensorModel.


End MissingDepth.

(* ================================================================== *)
(** * Where the centre lies *)

Section CentrePosition.
Import Py Num Np SensorModel.
Local Open Scope R_scope.


End CentrePosition.

(* ================================================================== *)
(** * The centre pixel under Python 2, in binary64 *)

Section CentrePython2.
Import Py Num Np SensorModel.
Local Open Scope Z_scope.

(** [x - x] is a zero for every integer-like float. *)
Lemma sub_self_int_like (x : float64) : int_like x -> is_zero (Num.sub x x) = true.
Proof.
  intros [-> | (m & e & -> & _ & _)]; [reflexivity|].
  cbn [Num.sub Binary64 SFsub]. rewrite Z.sub_diag. reflexivity.
Qed.

(** Under Python 2 the offset of index [n / 2] is a zero. *)
Lemma centre_offset_python2 (n : nat) :
  (0 < n)%nat -> Z.of_nat n < 2 ^ 53 ->
  is_zero (pixel_dx (F := float64) Python2 n (Nat.div n 2)) = true.
Proof.
  intros Hn Hb. unfold pixel_dx, grid_col.
  rewrite linspace_binary64 by (try exact Hb; apply Nat.div_lt; lia).
  cbn [half]. rewrite Nat2Z.inj_div. change (Z.of_nat 2) with 2.
  apply sub_self_int_like, of_int_int_like.
  Z.div_mod_to_equations. lia.
Qed.

(** X19.  Under Python 2 every image has a centre pixel, and there the
    depth passes through.  In binary64, for a camera with a width and a
    height of at least 1 (and below [2^53]) and a positive focal length,
    and a depth image of the configured shape, the pixel
    [(height / 2, width / 2)] (floor division) has both offsets equal to
    zero as the code computes them under Python 2; if the depth there is a
    finite number, [depth_to_3d] returns [x] and [y] equal to zero and [z]
    equal to that depth, bit for bit. *)
Theorem python2_centre_pixel_passes_depth
    (self : attrs float64) (img_depth : ndarray2 float64)
    (w h : nat) (f : float64) :
  camera_params self = Some (w, h, f) ->
  is_positive f = true ->
  (0 < w)%nat -> (0 < h)%nat ->
  Z.of_nat w < 2 ^ 53 -> Z.of_nat h < 2 ^ 53 ->
  len0 img_depth = h -> len1 img_depth = w ->
  let row := Nat.div h 2 in
  let col := Nat.div w 2 in
  well_formed (at2 img_depth row col) = true ->
  is_finite (at2 img_depth row col) = true ->
  is_zero (pixel_dx Python2 w col) = true /\
  is_zero (pixel_dy Python2 h row) = true /\
  exists pc,
    depth_to_3d Python2 self img_depth = Ok pc /\
    is_zero (at3 pc row col 0) = true /\
    is_zero (at3 pc row col 1) = true /\
    at3 pc row col 2 = at2 img_depth row col.
Proof.
  intros Hcp Hf Hw0 Hh0 Hw Hh H0 H1 row col Hwf Hfin.
  assert (Hrow : (row < h)%nat) by (apply Nat.div_lt; lia).
  assert (Hcol : (col < w)%nat) by (apply Nat.div_lt; lia).
  pose proof (centre_offset_python2 w Hw0 Hw) as Hdx.
  pose proof (centre_offset_python2 h Hh0 Hh
              : is_zero (pixel_dy (F := float64) Python2 h (Nat.div h 2)) = true) as Hdy.
  fold col in Hdx. fold row in Hdy.
  split; [exact Hdx|]. split; [exact Hdy|].
  destruct (@depth_to_3d_at _ _ Python2 self img_depth w h f Hcp H0 H1)
    as (pc & Hok & _ & _ & _ & Hat).
  destruct (Hat row col Hrow Hcol) as (Hx & Hy & Hz).
  assert (Ez : pixel_z Python2 w h f (at2 img_depth row col) row col
               = at2 img_depth row col).
  { unfold pixel_z, pixel_divisor, pixel_distance.
    rewrite (centre_divisor f _ _ Hf Hdx Hdy). apply div_by_one. exact Hwf. }
  exists pc. split; [exact Hok|].
  rewrite Hx, Hy, Hz. unfold pixel_x, pixel_y. rewrite Ez.
  split; [apply zero_times_offset_over_f; assumption|].
  split; [apply zero_times_offset_over_f; assumption | reflexivity].
Qed.

Lemma python2_centre_pixel_passes_depth_witness :
  exists pc,
    depth_to_3d Python2 (self Scenario.ready) Scenario.depth = Ok pc /\
    is_zero (at3 pc 1 2 0) = true /\
    is_zero (at3 pc 1 2 1) = true /\
    at3 pc 1 2 2 = at2 Scenario.depth 1 2.
Proof.
  assert (Hcp : camera_params (self Scenario.ready) = Some (4%nat, 2%nat, of_int 1))
    by (vm_compute; reflexivity).
  destruct (python2_centre_pixel_passes_depth (self Scenario.ready) Scenario.depth
              4 2 (of_int 1) Hcp)
    as (_ & _ & H); try reflexivity; try lia.
  exact H.
Defined.
End CentrePython2.
